(** * Slice1AM: G-code to STL conversion (gcode_to_stl_ultra.py)

    A shallow embedding of the three stages of [gcode_to_stl_ultra.py]:

    - [parse_gcode_to_segments]: the line scanner that turns motion commands
      into extrusion segments;
    - [create_cylindrical_extrusion_mesh]: the tube-mesh builder;
    - [write_stl_binary]: the binary STL serializer.

    Python floats are IEEE-754 binary64 numbers and are modelled by Rocq's
    primitive floats, whose operations are the same correctly rounded
    binary64 operations.  Python [str] values are modelled by [string]
    (ASCII input), byte strings by [list byte], Python exceptions by a sum
    type.  The file is read as the list of its lines.

    Three library calls are beyond the kernel's float operations.  [x ** 2]
    on Python floats is CPython's float power, which hands finite operands
    to the C library's [pow] and raises [OverflowError] when that overflows:
    the C function is a parameter of the parser (the class [Libm]), and the
    evaluations on concrete files use [exact_libm], whose [pow] is the
    correctly rounded square (the squares they take are exact, except on
    the far moves, whose outcome does not depend on the last place of a
    square).  The dot product inside [np.linalg.norm] is summed from left
    to right, each product and each sum rounded; a NumPy that fuses them
    can differ in the last place.  [np.cos], [np.sin] are parameters of the
    builder (a table of their values at the eight angles it uses serves the
    evaluations).  The kernel's floats have one NaN: the sign and the
    payload of a NaN are not tracked. *)

From Stdlib Require Import ZArith List String Ascii Bool Lia.
From Stdlib Require Import Strings.Byte.
From Stdlib Require Import Floats SpecFloat.
From Stdlib Require Uint63.
Import ListNotations.

Set Warnings "-inexact-float".

Local Open Scope string_scope.
Local Open Scope list_scope.

(** ** Python exceptions and the error monad *)

Inductive py_exn : Type :=
| ValueError     (* float() on a malformed literal *)
| IndexError     (* sequence index out of range *)
| StructError    (* struct.pack argument out of range *)
| OverflowError. (* float power out of range; float too large to pack
                    with f format *)

Definition py (A : Type) : Type := (py_exn + A)%type.

Definition ret {A} (a : A) : py A := inr a.
Definition raise {A} (e : py_exn) : py A := inl e.
Definition bind {A B} (m : py A) (k : A -> py B) : py B :=
  match m with
  | inl e => inl e
  | inr a => k a
  end.

Notation "x <- m ;; k" := (bind m (fun x => k))
  (at level 61, m at next level, right associativity).

(** ** Strings: the [str] methods the parser uses *)

Module Str.

(** Characters removed by [str.strip()] among the ASCII code points:
    TAB, LF, VT, FF, CR, FS, GS, RS, US and SPACE. *)
Definition is_space (c : ascii) : bool :=
  let n := nat_of_ascii c in
  (((9 <=? n) && (n <=? 13)) || ((28 <=? n) && (n <=? 32)))%nat.

Definition is_digit (c : ascii) : bool :=
  let n := nat_of_ascii c in ((48 <=? n) && (n <=? 57))%nat.

Fixpoint lstrip (s : string) : string :=
  match s with
  | String c r => if is_space c then lstrip r else s
  | EmptyString => EmptyString
  end.

Fixpoint rstrip (s : string) : string :=
  match s with
  | EmptyString => EmptyString
  | String c r =>
      match rstrip r with
      | EmptyString => if is_space c then EmptyString else String c EmptyString
      | r' => String c r'
      end
  end.

Definition strip (s : string) : string := rstrip (lstrip s).

Definition startswith (s p : string) : bool := prefix p s.

Definition lower_char (c : ascii) : ascii :=
  let n := nat_of_ascii c in
  if ((65 <=? n) && (n <=? 90))%nat then ascii_of_nat (n + 32) else c.

Fixpoint lower (s : string) : string :=
  match s with
  | EmptyString => EmptyString
  | String c r => String (lower_char c) (lower r)
  end.

(** [contains sub s] is Python's [sub in s]. *)
Fixpoint contains (sub s : string) : bool :=
  prefix sub s ||
  match s with
  | EmptyString => false
  | String _ r => contains sub r
  end.

End Str.

(** ** The regular expressions

    Every pattern of the parser is a literal letter (or nothing) followed by
    one capturing group: an optional minus sign, one or more digits, an
    optional point, then any number of digits.  All parts after the
    mandatory digits are optional and greedy, so a match attempt at a
    position never backtracks. *)

Module Re.

(** A captured numeric token: sign, digits before the point, whether a
    point was consumed, digits after the point. *)
Record token : Type := Token {
  tok_neg  : bool;
  tok_int  : list ascii;
  tok_dot  : bool;
  tok_frac : list ascii
}.

(** The longest run of digits at the head of [s], and the rest. *)
Fixpoint span_digits (s : string) : list ascii * string :=
  match s with
  | String c r =>
      if Str.is_digit c
      then let (ds, rest) := span_digits r in (c :: ds, rest)
      else ([], s)
  | EmptyString => ([], EmptyString)
  end.

(** An optional literal character: consumed when it is there. *)
Definition eat (c : ascii) (s : string) : bool * string :=
  match s with
  | String a r => if Ascii.eqb a c then (true, r) else (false, s)
  | EmptyString => (false, s)
  end.

(** One attempt of the number pattern anchored at the head of [s]. *)
Definition match_number (s : string) : option token :=
  let (neg, s0) := eat "-" s in
  let (int_ds, s1) := span_digits s0 in
  match int_ds with
  | [] => None
  | _ :: _ =>
      let (dot, s2) := eat "." s1 in
      let (frac_ds, _) := span_digits s2 in
      Some (Token neg int_ds dot frac_ds)
  end.

(** [re.search] with the bare number pattern: the leftmost match. *)
Fixpoint search_number (s : string) : option token :=
  match match_number s with
  | Some t => Some t
  | None =>
      match s with
      | EmptyString => None
      | String _ r => search_number r
      end
  end.

(** [re.search] with a letter [L] before the number pattern: the
    leftmost occurrence of [L] that is followed by a number. *)
Fixpoint search_field (L : ascii) (s : string) : option token :=
  match s with
  | EmptyString => None
  | String c r =>
      if Ascii.eqb c L
      then match match_number r with
           | Some t => Some t
           | None => search_field L r
           end
      else search_field L r
  end.

(** The text of group 1. *)
Definition group1 (t : token) : string :=
  ((if tok_neg t then "-" else "") ++
   string_of_list_ascii (tok_int t) ++
   (if tok_dot t then "." else "") ++
   string_of_list_ascii (tok_frac t))%string.

End Re.

(** ** [float()] on decimal literals *)

Module PyFloat.

Definition digit_val (c : ascii) : Z := (Z.of_nat (nat_of_ascii c) - 48)%Z.

Definition digits_val (ds : list ascii) : Z :=
  fold_left (fun acc c => (10 * acc + digit_val c)%Z) ds 0%Z.

(** The binary64 number nearest to [m / 10^k] (ties to even), negated when
    [neg]: the value [float()] gives a literal with digits [m] of which
    the last [k] follow the point.  The quotient is computed with more
    than 64 significant bits and a sticky bit below them, then rounded
    once to the 53 bits of the format. *)
Definition of_decimal (neg : bool) (m : Z) (k : Z) : float :=
  let d := (10 ^ k)%Z in
  let s := Z.max 0 (Z.log2 d + 66 - Z.log2 m)%Z in
  let num := Z.shiftl m s in
  let q := (num / d)%Z in
  let sticky := if (num mod d =? 0)%Z then 0%Z else 1%Z in
  let r :=
    if (m =? 0)%Z then PrimFloat.zero
    else SF2Prim (binary_normalize prec emax (2 * q + sticky)%Z (- s - 1)%Z false) in
  if neg then PrimFloat.opp r else r.

Definition of_token (t : Re.token) : float :=
  of_decimal (Re.tok_neg t)
             (digits_val (Re.tok_int t ++ Re.tok_frac t)%list)
             (Z.of_nat (List.length (Re.tok_frac t))).

(** [float(s)] for the literals the number pattern describes; any other
    text raises [ValueError] here.  (Python's [float] accepts further forms,
    such as exponents; the parser never passes one, see
    [float_group1].) *)
Definition float (s : string) : py float :=
  match Re.match_number s with
  | Some t =>
      if String.eqb (Re.group1 t) s then ret (of_token t)
      else raise ValueError
  | None => raise ValueError
  end.

End PyFloat.

Local Open Scope float_scope.

(** ** Float helpers: Python's builtins on floats *)

(** [max(a, b)]: the first argument unless the second is greater. *)
Definition py_max (a b : float) : float := if a <? b then b else a.

(** [min(a, b)]: the first argument unless the second is smaller. *)
Definition py_min (a b : float) : float := if b <? a then b else a.

(** The C library behind CPython's float power: [pow2 x] is [pow(x, 2.0)]
    for a finite [x] that is positive and not 1.0. *)
Class Libm : Type := { pow2 : float -> float }.

(** [x ** 2] on floats (float_pow of CPython).  A NaN is returned as it
    is, an infinity gives infinity, a zero 0.0 and plus or minus one 1.0,
    all without a call of the library.  Any other base is replaced by its
    absolute value (the exponent is even, so nothing is negated) and handed
    to [pow]; an infinite result is a range error and raises
    [OverflowError], a result that underflows is returned as it is. *)
Definition sq `{Libm} (x : float) : py float :=
  if is_nan x then ret x
  else if is_infinity x then ret infinity
  else if x =? 0 then ret 0
  else if abs x =? 1 then ret 1
  else
    let ix := pow2 (abs x) in
    if is_infinity ix then raise OverflowError else ret ix.

(** A library whose [pow(x, 2.0)] is the correctly rounded square.  The
    statements about concrete files, which carry no [Libm] of their own,
    are evaluated with it; all others hold for every library. *)
#[export] Instance exact_libm : Libm := {| pow2 x := x * x |}.

(** ** The data model *)

Definition vec3 : Type := (float * float * float)%type.

Definition vx (v : vec3) : float := fst (fst v).
Definition vy (v : vec3) : float := snd (fst v).
Definition vz (v : vec3) : float := snd v.

(** The dict appended to [segments]; [end_] is its ['end'] entry. *)
Record Segment : Type := mkSegment {
  start : vec3;
  end_ : vec3;
  width : float;
  height : float;
  extrusion_amount : float
}.

(** * parse_gcode_to_segments *)

(** The local variables of [parse_gcode_to_segments]. *)
Record ParseState : Type := mkParseState {
  segments : list Segment;
  current_z : float;
  last_x : option float;
  last_y : option float;
  last_z : option float;
  last_e : float;
  detected_layer_height : float;
  detected_extrusion_width : float
}.

Definition initial_state (default_layer_height default_extrusion_width : float)
  : ParseState :=
  {| segments := [];
     current_z := 0.0;
     last_x := None;
     last_y := None;
     last_z := None;
     last_e := 0.0;
     detected_layer_height := default_layer_height;
     detected_extrusion_width := default_extrusion_width |}.

(** [float(m.group(1)) if m else dflt], for a match object [m]. *)
Definition float_or {A} (m : option Re.token) (some : float -> A) (dflt : A)
  : py A :=
  match m with
  | Some t => v <- PyFloat.float (Re.group1 t) ;; ret (some v)
  | None => ret dflt
  end.

(** Assignments to [detected_layer_height] and [detected_extrusion_width]. *)
Definition set_layer_height (v : float) (st : ParseState) : ParseState :=
  {| segments := segments st;
     current_z := current_z st;
     last_x := last_x st;
     last_y := last_y st;
     last_z := last_z st;
     last_e := last_e st;
     detected_layer_height := v;
     detected_extrusion_width := detected_extrusion_width st |}.

Definition set_extrusion_width (v : float) (st : ParseState) : ParseState :=
  {| segments := segments st;
     current_z := current_z st;
     last_x := last_x st;
     last_y := last_y st;
     last_z := last_z st;
     last_e := last_e st;
     detected_layer_height := detected_layer_height st;
     detected_extrusion_width := v |}.

(** Lines 29-40: slicer settings in a comment among the first 100 lines. *)
Definition scan_comment (line_num : nat) (line : string) (st : ParseState)
  : py ParseState :=
  if (line_num <? 100)%nat && Str.startswith line ";" then
    let low := Str.lower line in
    st1 <-
      (if Str.contains "layer_height" low || Str.contains "layer height" low
       then float_or (Re.search_number line)
                     (fun v => set_layer_height v st) st
       else ret st) ;;
    (if Str.contains "extrusion_width" low || Str.contains "extrusion width" low
     then float_or (Re.search_number line)
                   (fun v => set_extrusion_width v st1) st1
     else ret st1)
  else ret st.

(** Lines 53-61: the Z field.  Returns the new [detected_layer_height],
    [last_z] and [current_z]. *)
Definition update_z (z : option float) (st : ParseState)
  : float * option float * float :=
  match z with
  | Some new_z =>
      let dlh :=
        match last_z st with
        | Some lz =>
            if lz <? new_z then
              let z_diff := new_z - lz in
              if (0.1 <=? z_diff) && (z_diff <=? 1.0) then z_diff
              else detected_layer_height st
            else detected_layer_height st
        | None => detected_layer_height st
        end in
      (dlh, Some (current_z st), new_z)
  | None => (detected_layer_height st, last_z st, current_z st)
  end.

(** Lines 68-77: the width stored in an emitted segment. *)
Definition actual_width (extrusion_amount segment_length dlh dew : float)
  : float :=
  if 0 <? segment_length then
    let w := if 0 <? dlh
             then extrusion_amount / (segment_length * dlh)
             else dew in
    py_min (py_max w 0.1) 2.0
  else dew.

(** [np.sqrt((x - last_x)**2 + (y - last_y)**2)]: the squares are taken
    from left to right. *)
Definition xy_length `{Libm} (lx ly x y : float) : py float :=
  dx2 <- sq (x - lx) ;;
  dy2 <- sq (y - ly) ;;
  ret (sqrt (dx2 + dy2)).

(** Lines 63-85: the segment a motion line appends, if any.  [x], [y], [e]
    are the resolved fields, [e_match] tells whether the line has an E
    field, [cz] and [dlh] are [current_z] and [detected_layer_height] after
    the Z field was applied. *)
Definition emitted `{Libm} (st : ParseState) (x y : option float) (e : float)
    (e_match : bool) (cz dlh : float) : py (option Segment) :=
  let is_extruding := e_match && (last_e st <? e) in
  match is_extruding, x, y, last_x st, last_y st with
  | true, Some x, Some y, Some lx, Some ly =>
      let extrusion_amount := e - last_e st in
      segment_length <- xy_length lx ly x y ;;
      ret (Some {| start := (lx, ly, cz);
                   end_ := (x, y, cz);
                   width := actual_width extrusion_amount segment_length dlh
                              (detected_extrusion_width st);
                   height := dlh;
                   extrusion_amount := extrusion_amount |})
  | _, _, _, _, _ => ret None
  end.

Definition is_some {A} (o : option A) : bool :=
  match o with Some _ => true | None => false end.

(** Lines 53-87: the state after a motion line whose fields resolved to
    [x], [y], [e] and [z] ([z] is [None] when the line has no Z field). *)
Definition apply_motion `{Libm} (st : ParseState) (x y : option float)
    (e : float) (e_match : bool) (z : option float) : py ParseState :=
  let '(dlh, lz, cz) := update_z z st in
  seg <- emitted st x y e e_match cz dlh ;;
  ret {| segments :=
           match seg with
           | Some seg => segments st ++ [seg]
           | None => segments st
           end;
         current_z := cz;
         last_x := x;
         last_y := y;
         last_z := lz;
         last_e := e;
         detected_layer_height := dlh;
         detected_extrusion_width := detected_extrusion_width st |}.

(** Lines 42-87: a line starting with G1 or G0. *)
Definition motion `{Libm} (line : string) (st : ParseState) : py ParseState :=
  let x_match := Re.search_field "X" line in
  let y_match := Re.search_field "Y" line in
  let z_match := Re.search_field "Z" line in
  let e_match := Re.search_field "E" line in
  x <- float_or x_match Some (last_x st) ;;
  y <- float_or y_match Some (last_y st) ;;
  e <- float_or e_match id (last_e st) ;;
  z <- float_or z_match Some None ;;
  apply_motion st x y e (is_some e_match) z.

(** The body of the loop over the lines of the file. *)
Definition process_line `{Libm} (line_num : nat) (raw : string)
    (st : ParseState) : py ParseState :=
  let line := Str.strip raw in
  st1 <- scan_comment line_num line st ;;
  if Str.startswith line "G1" || Str.startswith line "G0"
  then motion line st1
  else ret st1.

(** [for line_num, line in enumerate(f)], from line number [line_num]. *)
Fixpoint scan_lines `{Libm} (line_num : nat) (lines : list string)
    (st : ParseState) : py ParseState :=
  match lines with
  | [] => ret st
  | l :: rest =>
      st' <- process_line line_num l st ;;
      scan_lines (S line_num) rest st'
  end.

(** The function itself, on the lines of the opened file. *)
Definition parse_gcode_to_segments `{Libm} (lines : list string)
    (default_layer_height default_extrusion_width : float)
  : py (list Segment * float * float) :=
  st <- scan_lines 0 lines
          (initial_state default_layer_height default_extrusion_width) ;;
  ret (segments st, detected_layer_height st, detected_extrusion_width st).

(** The defaults of the signature. *)
Definition default_layer_height : float := 0.2.
Definition default_extrusion_width : float := 0.4.

(** * create_cylindrical_extrusion_mesh *)

(** ** NumPy on arrays of three floats *)

Module Np.

Definition pi : float := 3.141592653589793.

Definition add (a b : vec3) : vec3 := (vx a + vx b, vy a + vy b, vz a + vz b).
Definition sub (a b : vec3) : vec3 := (vx a - vx b, vy a - vy b, vz a - vz b).
Definition scale (a : vec3) (k : float) : vec3 := (vx a * k, vy a * k, vz a * k).
Definition divs (a : vec3) (k : float) : vec3 := (vx a / k, vy a / k, vz a / k).

(** [np.linalg.norm] of a vector: the square root of its dot product with
    itself, the three products summed from left to right. *)
Definition norm (a : vec3) : float :=
  sqrt (vx a * vx a + vy a * vy a + vz a * vz a).

Definition cross (a b : vec3) : vec3 :=
  (vy a * vz b - vz a * vy b,
   vz a * vx b - vx a * vz b,
   vx a * vy b - vy a * vx b).

(** [np.isfinite(a).all()]. *)
Definition all_finite (a : vec3) : bool :=
  is_finite (vx a) && is_finite (vy a) && is_finite (vz a).

(** A Python [int] used where a float is expected. *)
Definition of_nat (n : nat) : float := of_uint63 (Uint63.of_Z (Z.of_nat n)).

End Np.

Definition Face : Type := (nat * nat * nat)%type.

(** The accumulators of the builder: [vertices], [faces], [vertex_count]. *)
Record MeshState : Type := mkMeshState {
  vertices : list vec3;
  faces : list Face;
  vertex_count : nat
}.

(** [segments[::2]]. *)
Fixpoint every_second (l : list Segment) : list Segment :=
  match l with
  | [] => []
  | s :: rest =>
      s :: match rest with
           | [] => []
           | _ :: rest' => every_second rest'
           end
  end.

Definition num_sides : nat := 8.

(** Lines 116-122: the two tests that make the loop [continue]. *)
Definition skipped (s : Segment) : bool :=
  let segment_length := Np.norm (Np.sub (end_ s) (start s)) in
  if segment_length <? 0.001 then true
  else negb (Np.all_finite (start s) && Np.all_finite (end_ s)).

(** Lines 163-170: the side faces of a tube whose ring starts at [base_idx]. *)
Definition side_faces (base_idx : nat) : list Face :=
  flat_map
    (fun j =>
       let next_j := ((j + 1) mod num_sides)%nat in
       [ (base_idx + j, base_idx + next_j, base_idx + num_sides + j);
         (base_idx + next_j, base_idx + num_sides + next_j,
          base_idx + num_sides + j) ]%nat)
    (seq 0 num_sides).

(** Lines 179-181. *)
Definition start_cap (center_start_idx base_idx : nat) : list Face :=
  map (fun j =>
         let next_j := ((j + 1) mod num_sides)%nat in
         (center_start_idx, base_idx + next_j, base_idx + j)%nat)
      (seq 0 num_sides).

(** Lines 188-190. *)
Definition end_cap (center_end_idx base_idx : nat) : list Face :=
  map (fun j =>
         let next_j := ((j + 1) mod num_sides)%nat in
         (center_end_idx, base_idx + num_sides + j,
          base_idx + num_sides + next_j)%nat)
      (seq 0 num_sides).

Section Builder.

(** [np.cos] and [np.sin].  The kernel's floats have no trigonometric
    functions, so the builder is parameterised by them. *)
Variables np_cos np_sin : float -> float.

(** Lines 129-154: the offsets of the ring vertices from the axis. *)
Definition ring_offsets (s : Segment) : list vec3 :=
  let segment_length := Np.norm (Np.sub (end_ s) (start s)) in
  let direction := Np.divs (Np.sub (end_ s) (start s)) segment_length in
  let up0 : vec3 :=
    if abs (vz direction) <? 0.9 then (0, 0, 1) else (1, 0, 0) in
  let right0 := Np.cross direction up0 in
  let right := Np.divs right0 (Np.norm right0) in
  let up1 := Np.cross right direction in
  let up := Np.divs up1 (Np.norm up1) in
  let radius := py_min (width s) (height s) / 2 in
  map (fun j =>
         let angle := 2 * Np.pi * Np.of_nat j / Np.of_nat num_sides in
         Np.add (Np.scale (Np.scale right (np_cos angle)) radius)
                (Np.scale (Np.scale up (np_sin angle)) radius))
      (seq 0 num_sides).

(** Lines 156-170: ring vertices and side faces. *)
Definition add_tube (s : Segment) (m : MeshState) : MeshState :=
  let offsets := ring_offsets s in
  let start_verts := map (fun o => Np.add (start s) o) offsets in
  let end_verts := map (fun o => Np.add (end_ s) o) offsets in
  let base_idx := vertex_count m in
  {| vertices := vertices m ++ (start_verts ++ end_verts);
     faces := faces m ++ side_faces base_idx;
     vertex_count := vertex_count m + 2 * num_sides |}.

(** Lines 174-190: both caps of the tube whose ring starts at [base_idx]. *)
Definition add_caps (s : Segment) (base_idx : nat) (m : MeshState)
  : MeshState :=
  let center_start_idx := vertex_count m in
  let center_end_idx := S (vertex_count m) in
  {| vertices := (vertices m ++ [start s]) ++ [end_ s];
     faces := (faces m ++ start_cap center_start_idx base_idx)
                ++ end_cap center_end_idx base_idx;
     vertex_count := S (S (vertex_count m)) |}.

(** The body of the loop for the segment at index [i] of the [n] sampled
    segments. *)
Definition add_segment (i n : nat) (s : Segment) (m : MeshState)
  : MeshState :=
  if skipped s then m
  else
    let base_idx := vertex_count m in
    let m1 := add_tube s m in
    if (i =? 0)%nat || (S i =? n)%nat
    then add_caps s base_idx m1
    else m1.

(** [for i, segment in enumerate(sampled_segments)], from index [i]. *)
Fixpoint build (i n : nat) (segs : list Segment) (m : MeshState)
  : MeshState :=
  match segs with
  | [] => m
  | s :: rest => build (S i) n rest (add_segment i n s m)
  end.

(** The function itself; [layer_height] and [extrusion_width] are unused
    by the source as well. *)
Definition create_cylindrical_extrusion_mesh (segs : list Segment)
    (layer_height extrusion_width : float) : list vec3 * list Face :=
  let sampled_segments := every_second segs in
  let m := build 0 (List.length sampled_segments) sampled_segments
             {| vertices := []; faces := []; vertex_count := 0 |} in
  (vertices m, faces m).

End Builder.

(** The values of the cosine and the sine at the eight angles the builder
    passes, [2 * pi * j / 8] for [j] from 0 to 7, as the C library computes
    them; NaN at any other argument (the builder passes no other). *)
Definition trig8 (tbl : list float) (a : float) : float :=
  let fix go (j : nat) (tbl : list float) : float :=
    match tbl with
    | [] => nan
    | v :: rest =>
        if a =? 2 * Np.pi * Np.of_nat j / Np.of_nat num_sides then v
        else go (S j) rest
    end in
  go 0%nat tbl.

Definition cos8 : float -> float :=
  trig8 [1; 0.7071067811865476; 6.123233995736766e-17; -0.7071067811865475;
         -1; -0.7071067811865477; -1.8369701987210297e-16;
         0.7071067811865474].

Definition sin8 : float -> float :=
  trig8 [0; 0.7071067811865475; 1; 0.7071067811865476;
         1.2246467991473532e-16; -0.7071067811865475; -1;
         -0.7071067811865477].

(** * write_stl_binary *)

(** ** [struct.pack] *)

Module Struct.

Definition byte_of_Z (z : Z) : byte :=
  match Byte.of_N (Z.to_N (Z.land z 255)) with
  | Some b => b
  | None => x00
  end.

(** The [n] low bytes of [z], least significant first. *)
Fixpoint le_bytes (n : nat) (z : Z) : list byte :=
  match n with
  | O => []
  | S n' => byte_of_Z z :: le_bytes n' (Z.shiftr z 8)
  end.

(** [struct.pack('<I', n)]. *)
Definition pack_I (n : Z) : py (list byte) :=
  if (0 <=? n)%Z && (n <? 2 ^ 32)%Z then ret (le_bytes 4 n)
  else raise StructError.

(** [struct.pack('<H', n)]. *)
Definition pack_H (n : Z) : py (list byte) :=
  if (0 <=? n)%Z && (n <? 2 ^ 16)%Z then ret (le_bytes 2 n)
  else raise StructError.

(** The C cast of a double to a float: rounding to nearest even into
    binary32 (24 bits of precision, exponents below 128). *)
Definition to_binary32 (x : float) : spec_float :=
  match Prim2SF x with
  | S754_finite sg m e => binary_normalize 24 128 (cond_Zopp sg (Zpos m)) e sg
  | f => f
  end.

(** The bit pattern of a binary32 number.  The one NaN is given the
    pattern 7fc00000; a machine NaN can also carry the sign bit. *)
Definition bits32 (f : spec_float) : Z :=
  let sign (sg : bool) : Z := if sg then (2 ^ 31)%Z else 0%Z in
  match f with
  | S754_zero sg => sign sg
  | S754_infinity sg => (sign sg + 255 * 2 ^ 23)%Z
  | S754_nan => (255 * 2 ^ 23 + 2 ^ 22)%Z
  | S754_finite sg m e =>
      if (Zpos m <? 2 ^ 23)%Z then (sign sg + Zpos m)%Z
      else (sign sg + (e + 150) * 2 ^ 23 + (Zpos m - 2 ^ 23))%Z
  end.

(** [struct.pack('<f', x)]: a finite double that rounds to a binary32
    infinity raises [OverflowError]. *)
Definition pack_f (x : float) : py (list byte) :=
  let y := to_binary32 x in
  match y, Prim2SF x with
  | S754_infinity _, S754_finite _ _ _ => raise OverflowError
  | _, _ => ret (le_bytes 4 (bits32 y))
  end.

(** [struct.pack('<fff', a, b, c)]. *)
Definition pack_fff (v : vec3) : py (list byte) :=
  a <- pack_f (vx v) ;;
  b <- pack_f (vy v) ;;
  c <- pack_f (vz v) ;;
  ret (a ++ b ++ c).

End Struct.

(** [vertices[i]] for a non-negative index. *)
Definition index (vs : list vec3) (i : nat) : py vec3 :=
  match nth_error vs i with
  | Some v => ret v
  | None => raise IndexError
  end.

(** The bytes literal of line 203: 55 characters. *)
Definition header_text : string :=
  "Ultra high-fidelity G-code conversion - watertight mesh".

(** Line 203: the literal followed by 24 zero bytes. *)
Definition header : list byte :=
  map byte_of_ascii (list_ascii_of_string header_text) ++ repeat x00 24.

(** Lines 210-229: the record of one face. *)
Definition write_face (vs : list vec3) (face : Face) : py (list byte) :=
  let '(i0, i1, i2) := face in
  p1 <- index vs i1 ;;
  p0 <- index vs i0 ;;
  let v1 := Np.sub p1 p0 in
  p2 <- index vs i2 ;;
  p0' <- index vs i0 ;;
  let v2 := Np.sub p2 p0' in
  let normal := Np.cross v1 v2 in
  let normal_length := Np.norm normal in
  let normal :=
    if 0 <? normal_length then Np.divs normal normal_length
    else (0, 0, 1) in
  n <- Struct.pack_fff normal ;;
  a <- (v <- index vs i0 ;; Struct.pack_fff v) ;;
  b <- (v <- index vs i1 ;; Struct.pack_fff v) ;;
  c <- (v <- index vs i2 ;; Struct.pack_fff v) ;;
  attr <- Struct.pack_H 0 ;;
  ret (n ++ a ++ b ++ c ++ attr).

(** [for face in faces: ...], the bytes written by the loop. *)
Fixpoint write_faces (vs : list vec3) (fs : list Face) : py (list byte) :=
  match fs with
  | [] => ret []
  | f :: rest =>
      r <- write_face vs f ;;
      rs <- write_faces vs rest ;;
      ret (r ++ rs)
  end.

(** The function itself: the bytes written to the file. *)
Definition write_stl_binary (vs : list vec3) (fs : list Face)
  : py (list byte) :=
  count <- Struct.pack_I (Z.of_nat (List.length fs)) ;;
  body <- write_faces vs fs ;;
  ret (header ++ count ++ body).

(** [struct.unpack('<I', data[off:off+4])[0]]; [None] when fewer than four
    bytes are left. *)
Definition read_u32_le (data : list byte) (off : nat) : option Z :=
  match skipn off data with
  | b0 :: b1 :: b2 :: b3 :: _ =>
      Some (Z.of_N (Byte.to_N b0) + 2 ^ 8 * Z.of_N (Byte.to_N b1)
            + 2 ^ 16 * Z.of_N (Byte.to_N b2)
            + 2 ^ 24 * Z.of_N (Byte.to_N b3))%Z
  | _ => None
  end.

(** * gcode_to_stl_ultra *)

(** The step of [np.min(..., axis=0)] and [np.max(..., axis=0)] on one
    coordinate: the accumulator is kept when it compares as required or is
    NaN, so a NaN met once stays. *)
Definition np_minimum (acc x : float) : float :=
  if (acc <=? x) || is_nan acc then acc else x.

Definition np_maximum (acc x : float) : float :=
  if (x <=? acc) || is_nan acc then acc else x.

(** The reduction of the rows of a non-empty array, coordinate by
    coordinate. *)
Definition reduce_axis0 (op : float -> float -> float) (rows : list vec3)
  : vec3 :=
  match rows with
  | [] => (nan, nan, nan)
  | r :: rest =>
      fold_left (fun acc v => (op (vx acc) (vx v), op (vy acc) (vy v),
                               op (vz acc) (vz v)))
                rest r
  end.

(** Lines 252-257: [np.any(bbox_size <= 0)]. *)
Definition flat_bounding_box (vs : list vec3) : bool :=
  let bbox_min := reduce_axis0 np_minimum vs in
  let bbox_max := reduce_axis0 np_maximum vs in
  let bbox_size := Np.sub bbox_max bbox_min in
  (vx bbox_size <=? 0) || (vy bbox_size <=? 0) || (vz bbox_size <=? 0).

Section Pipeline.

Context {L : Libm}.
Variables np_cos np_sin : float -> float.

(** The function itself, on the lines of the G-code file: the value it
    returns and the bytes it writes to the STL file, if it writes. *)
Definition gcode_to_stl_ultra (lines : list string)
  : py (bool * option (list byte)) :=
  r <- parse_gcode_to_segments lines default_layer_height
         default_extrusion_width ;;
  let '(segs, layer_height, extrusion_width) := r in
  match segs with
  | [] => ret (false, None)
  | _ :: _ =>
      let '(vs, fs) :=
        create_cylindrical_extrusion_mesh np_cos np_sin segs
          layer_height extrusion_width in
      if (List.length vs =? 0)%nat then ret (false, None)
      else if flat_bounding_box vs then ret (false, None)
      else
        out <- write_stl_binary vs fs ;;
        ret (true, Some out)
  end.

End Pipeline.

(** A line as iterating over the file yields it: with its newline. *)
Definition ln (s : string) : string :=
  (s ++ String (ascii_of_nat 10) EmptyString)%string.

(** * The sibling converter, gcode_to_stl.py

    The same pipeline with rectangular tubes and a text output:
    [parse_gcode_to_segments], [create_rectangular_extrusion_mesh],
    [write_stl] and [gcode_to_stl]. *)

Module Basic.

(** The dict appended to [segments]: it has no ['extrusion_amount']. *)
Record Segment : Type := mkSegment {
  start : vec3;
  end_ : vec3;
  width : float;
  height : float
}.

(** The local variables of [parse_gcode_to_segments]: there is no E
    register. *)
Record ParseState : Type := mkParseState {
  segments : list Segment;
  current_z : float;
  last_x : option float;
  last_y : option float;
  last_z : option float;
  detected_layer_height : float;
  detected_extrusion_width : float
}.

Definition initial_state (default_layer_height default_extrusion_width : float)
  : ParseState :=
  {| segments := [];
     current_z := 0.0;
     last_x := None;
     last_y := None;
     last_z := None;
     detected_layer_height := default_layer_height;
     detected_extrusion_width := default_extrusion_width |}.

Definition set_layer_height (v : float) (st : ParseState) : ParseState :=
  {| segments := segments st;
     current_z := current_z st;
     last_x := last_x st;
     last_y := last_y st;
     last_z := last_z st;
     detected_layer_height := v;
     detected_extrusion_width := detected_extrusion_width st |}.

Definition set_extrusion_width (v : float) (st : ParseState) : ParseState :=
  {| segments := segments st;
     current_z := current_z st;
     last_x := last_x st;
     last_y := last_y st;
     last_z := last_z st;
     detected_layer_height := detected_layer_height st;
     detected_extrusion_width := v |}.

(** Lines 27-38. *)
Definition scan_comment (line_num : nat) (line : string) (st : ParseState)
  : py ParseState :=
  if (line_num <? 100)%nat && Str.startswith line ";" then
    let low := Str.lower line in
    st1 <-
      (if Str.contains "layer_height" low || Str.contains "layer height" low
       then float_or (Re.search_number line)
                     (fun v => set_layer_height v st) st
       else ret st) ;;
    (if Str.contains "extrusion_width" low || Str.contains "extrusion width" low
     then float_or (Re.search_number line)
                   (fun v => set_extrusion_width v st1) st1
     else ret st1)
  else ret st.

(** Lines 50-58: the Z field. *)
Definition update_z (z : option float) (st : ParseState)
  : float * option float * float :=
  match z with
  | Some new_z =>
      let dlh :=
        match last_z st with
        | Some lz =>
            if lz <? new_z then
              let z_diff := new_z - lz in
              if (0.1 <=? z_diff) && (z_diff <=? 1.0) then z_diff
              else detected_layer_height st
            else detected_layer_height st
        | None => detected_layer_height st
        end in
      (dlh, Some (current_z st), new_z)
  | None => (detected_layer_height st, last_z st, current_z st)
  end.

(** Lines 60-69: the segment a motion line appends, if any.  [e] is the
    value of the E field when the line has one. *)
Definition emitted (st : ParseState) (x y e : option float) (cz dlh : float)
  : option Segment :=
  let is_extruding :=
    match e with
    | Some v => 0 <? v
    | None => false
    end in
  match is_extruding, x, y, last_x st, last_y st with
  | true, Some x, Some y, Some lx, Some ly =>
      Some {| start := (lx, ly, cz);
              end_ := (x, y, cz);
              width := detected_extrusion_width st;
              height := dlh |}
  | _, _, _, _, _ => None
  end.

(** Lines 50-71: the state after a motion line with resolved fields. *)
Definition apply_motion (st : ParseState) (x y z e : option float)
  : ParseState :=
  let '(dlh, lz, cz) := update_z z st in
  {| segments :=
       match emitted st x y e cz dlh with
       | Some seg => segments st ++ [seg]
       | None => segments st
       end;
     current_z := cz;
     last_x := x;
     last_y := y;
     last_z := lz;
     detected_layer_height := dlh;
     detected_extrusion_width := detected_extrusion_width st |}.

(** Lines 40-71: a line starting with G1 or G0. *)
Definition motion (line : string) (st : ParseState) : py ParseState :=
  let x_match := Re.search_field "X" line in
  let y_match := Re.search_field "Y" line in
  let z_match := Re.search_field "Z" line in
  let e_match := Re.search_field "E" line in
  x <- float_or x_match Some (last_x st) ;;
  y <- float_or y_match Some (last_y st) ;;
  z <- float_or z_match Some None ;;
  e <- float_or e_match Some None ;;
  ret (apply_motion st x y z e).

Definition process_line (line_num : nat) (raw : string) (st : ParseState)
  : py ParseState :=
  let line := Str.strip raw in
  st1 <- scan_comment line_num line st ;;
  if Str.startswith line "G1" || Str.startswith line "G0"
  then motion line st1
  else ret st1.

Fixpoint scan_lines (line_num : nat) (lines : list string) (st : ParseState)
  : py ParseState :=
  match lines with
  | [] => ret st
  | l :: rest =>
      st' <- process_line line_num l st ;;
      scan_lines (S line_num) rest st'
  end.

(** The function itself, on the lines of the opened file. *)
Definition parse_gcode_to_segments (lines : list string)
    (default_layer_height default_extrusion_width : float)
  : py (list Segment * float * float) :=
  st <- scan_lines 0 lines
          (initial_state default_layer_height default_extrusion_width) ;;
  ret (segments st, detected_layer_height st, detected_extrusion_width st).

(** [l[::step]] from the element [k] places ahead, for a positive
    [step]. *)
Fixpoint slice_from (k step : nat) (l : list Segment) : list Segment :=
  match l with
  | [] => []
  | s :: rest =>
      match k with
      | O => s :: slice_from (step - 1) step rest
      | S k' => slice_from k' step rest
      end
  end.

(** Lines 84-85: [segments[::max(1, len(segments) // 10000)]]. *)
Definition sampled_segments (segs : list Segment) : list Segment :=
  let step := Z.to_nat (Z.max 1 (Z.of_nat (List.length segs) / 10000)) in
  slice_from 0 step segs.

(** Lines 96-103: both tests that make the loop [continue] compare the
    same norm. *)
Definition skipped (s : Segment) : bool :=
  if Np.norm (Np.sub (end_ s) (start s)) <? 0.001 then true
  else Np.norm (Np.sub (end_ s) (start s)) <? 0.001.

(** Lines 139-164: the twelve triangles of a tube whose vertices start at
    [base_idx]. *)
Definition box_faces (base_idx : nat) : list Face :=
  [ (base_idx, base_idx + 1, base_idx + 2);
    (base_idx, base_idx + 2, base_idx + 3);
    (base_idx + 4, base_idx + 6, base_idx + 5);
    (base_idx + 4, base_idx + 7, base_idx + 6);
    (base_idx, base_idx + 5, base_idx + 1);
    (base_idx, base_idx + 4, base_idx + 5);
    (base_idx + 2, base_idx + 6, base_idx + 7);
    (base_idx + 2, base_idx + 7, base_idx + 3);
    (base_idx, base_idx + 3, base_idx + 7);
    (base_idx, base_idx + 7, base_idx + 4);
    (base_idx + 1, base_idx + 6, base_idx + 2);
    (base_idx + 1, base_idx + 5, base_idx + 6) ]%nat.

(** Lines 100-130: the eight corners of the tube. *)
Definition box_vertices (s : Segment) (layer_height extrusion_width : float)
  : list vec3 :=
  let direction0 := Np.sub (end_ s) (start s) in
  let length := Np.norm direction0 in
  let direction := Np.divs direction0 length in
  let up0 : vec3 :=
    if abs (vz direction) <? 0.9 then (0, 0, 1) else (1, 0, 0) in
  let right0 := Np.cross direction up0 in
  let right1 := Np.divs right0 (Np.norm right0) in
  let up1 := Np.cross right1 direction in
  let up2 := Np.divs up1 (Np.norm up1) in
  let right := Np.scale right1 (extrusion_width / 3) in
  let up := Np.scale up2 (layer_height / 3) in
  [ Np.sub (Np.sub (start s) right) up;
    Np.sub (Np.add (start s) right) up;
    Np.add (Np.add (start s) right) up;
    Np.add (Np.sub (start s) right) up;
    Np.sub (Np.sub (end_ s) right) up;
    Np.sub (Np.add (end_ s) right) up;
    Np.add (Np.add (end_ s) right) up;
    Np.add (Np.sub (end_ s) right) up ].

(** The body of the loop. *)
Definition add_segment (layer_height extrusion_width : float) (s : Segment)
    (m : MeshState) : MeshState :=
  if skipped s then m
  else
    let base_idx := vertex_count m in
    {| vertices := vertices m ++ box_vertices s layer_height extrusion_width;
       faces := faces m ++ box_faces base_idx;
       vertex_count := vertex_count m + 8 |}.

(** The function itself. *)
Definition create_rectangular_extrusion_mesh (segs : list Segment)
    (layer_height extrusion_width : float) : list vec3 * list Face :=
  let m := fold_left (fun m s => add_segment layer_height extrusion_width s m)
             (sampled_segments segs)
             {| vertices := []; faces := []; vertex_count := 0 |} in
  (vertices m, faces m).

Section Text.

(** The format [.6f] of a float, a parameter of the text writer. *)
Variable format_6f : float -> string.

Definition format_vec (v : vec3) : string :=
  (format_6f (vx v) ++ " " ++ format_6f (vy v) ++ " " ++ format_6f (vz v))%string.

(** Lines 176-189: the text of one facet. *)
Definition write_facet (vs : list vec3) (face : Face) : py string :=
  let '(i0, i1, i2) := face in
  p1 <- index vs i1 ;;
  p0 <- index vs i0 ;;
  let v1 := Np.sub p1 p0 in
  p2 <- index vs i2 ;;
  p0' <- index vs i0 ;;
  let v2 := Np.sub p2 p0' in
  let normal := Np.cross v1 v2 in
  let normal :=
    if 0 <? Np.norm normal then Np.divs normal (Np.norm normal)
    else normal in
  a <- index vs i0 ;;
  b <- index vs i1 ;;
  c <- index vs i2 ;;
  ret (ln ("  facet normal " ++ format_vec normal)
       ++ ln "    outer loop"
       ++ ln ("      vertex " ++ format_vec a)
       ++ ln ("      vertex " ++ format_vec b)
       ++ ln ("      vertex " ++ format_vec c)
       ++ ln "    endloop"
       ++ ln "  endfacet")%string.

Fixpoint write_facets (vs : list vec3) (fs : list Face) : py string :=
  match fs with
  | [] => ret EmptyString
  | f :: rest =>
      r <- write_facet vs f ;;
      rs <- write_facets vs rest ;;
      ret (r ++ rs)%string
  end.

(** The function itself: the text written to the file. *)
Definition write_stl (vs : list vec3) (fs : list Face) : py string :=
  body <- write_facets vs fs ;;
  ret (ln "solid gcode_converted" ++ body ++ ln "endsolid gcode_converted")%string.

(** Lines 194-215: the value returned and the text written, if any. *)
Definition gcode_to_stl (lines : list string) : py (bool * option string) :=
  r <- parse_gcode_to_segments lines 0.2 0.4 ;;
  let '(segs, layer_height, extrusion_width) := r in
  match segs with
  | [] => ret (false, None)
  | _ :: _ =>
      let '(vs, fs) :=
        create_rectangular_extrusion_mesh segs layer_height extrusion_width in
      if (List.length vs =? 0)%nat then ret (false, None)
      else
        text <- write_stl vs fs ;;
        ret (true, Some text)
  end.

End Text.

End Basic.



(** * Definitions used by the statements *)

(** The value of the field introduced by letter [L] on a line: what
    [float(m.group(1))] is when the pattern matches. *)
Definition field (L : ascii) (line : string) : option float :=
  option_map PyFloat.of_token (Re.search_field L line).

(** A field resolved as lines 49-51 resolve it: the value on the line, or
    the previous one when the pattern does not match. *)
Definition resolve (L : ascii) (line : string) (prev : option float)
  : option float :=
  match field L line with
  | Some v => Some v
  | None => prev
  end.

Definition resolve_e (line : string) (prev : float) : float :=
  match field "E" line with
  | Some v => v
  | None => prev
  end.

(** A recognised motion line. *)
Definition is_motion (line : string) : bool :=
  Str.startswith line "G1" || Str.startswith line "G0".

(** The XY length of a stored segment, computed as line 69 computes it. *)
Definition seg_xy_length `{Libm} (s : Segment) : py float :=
  xy_length (vx (start s)) (vy (start s)) (vx (end_ s)) (vy (end_ s)).

(** The segments the builder turns into tubes: sampled and not skipped. *)
Definition retained (segs : list Segment) : list Segment :=
  filter (fun s => negb (skipped s)) (every_second segs).

(** The number of retained segments that stand first or last in the sampled
    list, the ones line 173 caps: 0, 1 or 2. *)
Definition capped (segs : list Segment) : nat :=
  match every_second segs with
  | [] => 0
  | [s] => if skipped s then 0 else 1
  | s :: rest =>
      ((if skipped s then 0 else 1) +
       (if skipped (last rest s) then 0 else 1))%nat
  end.

(** The same count as the loop meets it: from index [i] of [n]. *)
Fixpoint capped_from (i n : nat) (segs : list Segment) : nat :=
  match segs with
  | [] => 0
  | s :: rest =>
      ((if negb (skipped s) && ((i =? 0) || (S i =? n)) then 1 else 0)
       + capped_from (S i) n rest)%nat
  end.

(** A segment along the X axis, 0.4 wide and 0.2 high. *)
Definition along_x (a b : float) : Segment :=
  {| start := (a, 0, 0); end_ := (b, 0, 0); width := 0.4; height := 0.2;
     extrusion_amount := 1 |}.

(** A face whose indices are below [n] and pairwise distinct. *)
Definition face_ok (n : nat) (f : Face) : Prop :=
  let '(a, b, c) := f in
  (a < n /\ b < n /\ c < n /\ a <> b /\ b <> c /\ a <> c)%nat.

(** The test of line 173. *)
Definition caps (i n : nat) : bool := (i =? 0)%nat || (S i =? n)%nat.

(** The builder keeps [vertex_count] equal to the number of vertices and
    every face well indexed. *)
Definition mesh_inv (m : MeshState) : Prop :=
  vertex_count m = List.length (vertices m) /\
  Forall (face_ok (vertex_count m)) (faces m).

(** A token as the number pattern captures it. *)
Definition well_formed (t : Re.token) : Prop :=
  Re.tok_int t <> [] /\
  Forall (fun c => Str.is_digit c = true) (Re.tok_int t) /\
  Forall (fun c => Str.is_digit c = true) (Re.tok_frac t) /\
  (Re.tok_dot t = false -> Re.tok_frac t = []).

(** The three lines of the segment-emission law. *)
Definition three_lines : list string :=
  [ln "G1 X0 Y0 E0"; ln "G1 X10 Y0 E5"; ln "G1 X10 Y10"].

(** The state after the line [G1 X0 Y0 E0] of a fresh parse. *)
Definition after_first_line : ParseState :=
  {| segments := []; current_z := 0; last_x := Some 0; last_y := Some 0;
     last_z := None; last_e := 0; detected_layer_height := 0.2;
     detected_extrusion_width := 0.4 |}.

(** The state after the further line [G1 X10 Y0 Z0.4 E5]. *)
Definition after_raise_and_extrude : ParseState :=
  {| segments :=
       [ {| start := (0, 0, 0.4); end_ := (10, 0, 0.4); width := 2;
            height := 0.2; extrusion_amount := 5 |} ];
     current_z := 0.4; last_x := Some 10; last_y := Some 0;
     last_z := Some 0; last_e := 5; detected_layer_height := 0.2;
     detected_extrusion_width := 0.4 |}.

(** A segment of height 0, as the parser emits it after the comment
    [; layer_height = 0]. *)
Definition flat_segment : Segment :=
  {| start := (1, 1, 0); end_ := (11, 1, 0); width := 0.4; height := 0;
     extrusion_amount := 5 |}.

(** A mesh of one triangle. *)
Definition triangle_vertices : list vec3 := [(0, 0, 0); (1, 0, 0); (0, 1, 0)].
Definition triangle_faces : list Face := [(0, 1, 2)%nat].

(** A comment line, after [strip]. *)
Definition is_comment (raw : string) : bool :=
  Str.startswith (Str.strip raw) ";".

(** A motion line that carries an E field. *)
Definition has_e_field (raw : string) : bool :=
  is_motion (Str.strip raw) && is_some (Re.search_field "E" (Str.strip raw)).

(** The range line 58 accepts for a Z step. *)
Definition reasonable_layer_height (h : float) : bool :=
  (0.1 <=? h) && (h <=? 1.0).

(** The motion lines of a file. *)
Definition motion_lines (lines : list string) : list string :=
  filter (fun l => is_motion (Str.strip l)) lines.

(** The faces of one tube whose ring starts at [base]. *)
Definition tube_faces (capped : bool) (base : nat) : list Face :=
  side_faces base ++
  (if capped
   then start_cap (base + 2 * num_sides) base
        ++ end_cap (S (base + 2 * num_sides)) base
   else []).

(** The number of vertices of one tube. *)
Definition tube_vertices (capped : bool) : nat :=
  (2 * num_sides + (if capped then 2 else 0))%nat.

(** The faces of the tubes of the segments kept ([true]) among those the
    loop meets from index [i] of [n], the first ring starting at [base]. *)
Fixpoint skeleton (i n : nat) (keep : list bool) (base : nat) : list Face :=
  match keep with
  | [] => []
  | true :: rest =>
      tube_faces (caps i n) base
      ++ skeleton (S i) n rest (base + tube_vertices (caps i n))
  | false :: rest => skeleton (S i) n rest base
  end.

(** The index the next ring would start at, after those tubes. *)
Fixpoint skeleton_end (i n : nat) (keep : list bool) (base : nat) : nat :=
  match keep with
  | [] => base
  | true :: rest =>
      skeleton_end (S i) n rest (base + tube_vertices (caps i n))
  | false :: rest => skeleton_end (S i) n rest base
  end.

(** Faces whose indices are all below, or all from, an index. *)
Definition face_below (n : nat) (f : Face) : Prop :=
  let '(a, b, c) := f in (a < n /\ b < n /\ c < n)%nat.

Definition face_from (n : nat) (f : Face) : Prop :=
  let '(a, b, c) := f in (n <= a /\ n <= b /\ n <= c)%nat.

(** The directed edges of a face, in face order. *)
Definition face_edges (f : Face) : list (nat * nat) :=
  let '(a, b, c) := f in [(a, b); (b, c); (c, a)].

Definition edge_eqb (e1 e2 : nat * nat) : bool :=
  ((fst e1 =? fst e2) && (snd e1 =? snd e2))%nat.

Definition count_edge (e : nat * nat) (es : list (nat * nat)) : nat :=
  List.length (filter (edge_eqb e) es).

(** A closed, consistently oriented surface: every directed edge of a face
    occurs in exactly one face, and so does its reverse. *)
Definition closed_oriented (fs : list Face) : bool :=
  let es := flat_map face_edges fs in
  forallb (fun e => ((count_edge e es =? 1)
                     && (count_edge (snd e, fst e) es =? 1))%nat) es.

(** A sampled segment strictly between the first and the last is not
    skipped. *)
Definition interior_retained (sampled : list Segment) : bool :=
  existsb (fun s => negb (skipped s)) (removelast (tl sampled)).

(** The twelve bytes of the normal (0, 0, 1). *)
Definition default_normal_bytes : list byte :=
  [x00; x00; x00; x00; x00; x00; x00; x00; x00; x00; x80; x3f].

(** [n] zeros. *)
Definition zeros (n : nat) : string := string_of_list_ascii (repeat "0"%char n).

(** A file whose second line moves to X = 10^200: the square of line 69
    is beyond the floats. *)
Definition very_far_move : list string :=
  [ln "G1 X0 Y0 E0"; ln ("G1 X1" ++ zeros 200 ++ " Y0 E5")].

(** The same move at Y = 10^400, which [float()] reads as infinity. *)
Definition very_far_move_at_infinity : list string :=
  [ln ("G1 X0 Y1" ++ zeros 400 ++ " E0");
   ln ("G1 X1" ++ zeros 200 ++ " Y1" ++ zeros 400 ++ " E5")].

(** A file whose second line moves to X = 10^39, beyond the 32-bit
    floats. *)
Definition far_move : list string :=
  [ln "G1 X0 Y0 E0";
   ln "G1 X1000000000000000000000000000000000000000 Y0 E5"].

(** The sampled segments of gcode_to_stl.py that the loop does not skip. *)
Definition kept (l : list Basic.Segment) : nat :=
  List.length (filter (fun s => negb (Basic.skipped s)) l).

(** The faces of [n] rectangular tubes in a row, the first at [base]. *)
Fixpoint box_chain (n base : nat) : list Face :=
  match n with
  | O => []
  | S k => Basic.box_faces base ++ box_chain k (base + 8)
  end.

(** A face and an edge moved [k] indices up. *)
Definition shift_face (k : nat) (f : Face) : Face :=
  let '(a, b, c) := f in (k + a, k + b, k + c)%nat.

Definition shift_edge (k : nat) (e : nat * nat) : nat * nat :=
  (k + fst e, k + snd e)%nat.

(** What a comment line makes of the two detected parameters (lines
    29-40, and lines 27-38 of gcode_to_stl.py): the first number of the
    line, for each parameter the line names. *)
Definition comment_value (line : string) (dflt : float) : float :=
  match Re.search_number line with
  | Some t => PyFloat.of_token t
  | None => dflt
  end.

Definition comment_params (line_num : nat) (line : string) (dlh dew : float)
  : float * float :=
  if (line_num <? 100)%nat && Str.startswith line ";" then
    let low := Str.lower line in
    (if Str.contains "layer_height" low || Str.contains "layer height" low
     then comment_value line dlh else dlh,
     if Str.contains "extrusion_width" low || Str.contains "extrusion width" low
     then comment_value line dew else dew)
  else (dlh, dew).

(** The two parsers in step: all they share is equal. *)
Definition in_step (st : ParseState) (bst : Basic.ParseState) : Prop :=
  current_z st = Basic.current_z bst /\
  last_x st = Basic.last_x bst /\
  last_y st = Basic.last_y bst /\
  last_z st = Basic.last_z bst /\
  detected_layer_height st = Basic.detected_layer_height bst /\
  detected_extrusion_width st = Basic.detected_extrusion_width bst.

(** * Properties *)

(** ** The embedding on known values *)

Example float_tenth : PyFloat.float "0.1" = inr 0.1.
Proof. vm_compute. reflexivity. Qed.

Example float_negative : PyFloat.float "-12.5" = inr (-12.5).
Proof. vm_compute. reflexivity. Qed.

Example float_trailing_point : PyFloat.float "12." = inr 12.
Proof. vm_compute. reflexivity. Qed.

Example float_negative_zero : PyFloat.float "-0" = inr (-0).
Proof. vm_compute. reflexivity. Qed.

Example float_long_literal :
  PyFloat.float "3.14159265358979323846264338327950288" = inr Np.pi.
Proof. vm_compute. reflexivity. Qed.

Example float_subnormal_range :
  PyFloat.float "0.000000000000000000000000000000000000000000001234567"
  = inr 1.234567e-45.
Proof. vm_compute. reflexivity. Qed.

(** Halfway cases round to even; a digit beyond the halfway point rounds
    up. *)
Example float_tie_down : PyFloat.float "9007199254740993" = inr 9007199254740992.
Proof. vm_compute. reflexivity. Qed.

Example float_tie_up : PyFloat.float "9007199254740995" = inr 9007199254740996.
Proof. vm_compute. reflexivity. Qed.

Example float_above_tie :
  PyFloat.float "9007199254740993.0000000000000000000000001"
  = inr 9007199254740994.
Proof. vm_compute. reflexivity. Qed.

Example float_rejects_text : PyFloat.float "abc" = inl ValueError.
Proof. vm_compute. reflexivity. Qed.

(** What the field patterns capture. *)
Example field_plain : field "X" "G1 X10.5 Y-3 E.5" = Some 10.5.
Proof. vm_compute. reflexivity. Qed.

Example field_negative : field "Y" "G1 X10.5 Y-3 E.5" = Some (-3).
Proof. vm_compute. reflexivity. Qed.

Example field_no_leading_digit : field "E" "G1 X10.5 Y-3 E.5" = None.
Proof. vm_compute. reflexivity. Qed.

Example field_longest_prefix : field "X" "G1 X1.2.3" = Some 1.2.
Proof. vm_compute. reflexivity. Qed.

Example field_leftmost_match : field "X" "G1 Xabc X7" = Some 7.
Proof. vm_compute. reflexivity. Qed.

Example strip_line : Str.strip (ln "  G1 X1 ") = "G1 X1"%string.
Proof. vm_compute. reflexivity. Qed.

(** [struct.pack('<f', x)] on known values. *)
Example pack_f_one : Struct.pack_f 1 = inr [x00; x00; x80; x3f].
Proof. vm_compute. reflexivity. Qed.

Example pack_f_tenth : Struct.pack_f 0.1 = inr [xcd; xcc; xcc; x3d].
Proof. vm_compute. reflexivity. Qed.

Example pack_f_negative : Struct.pack_f (-2.5) = inr [x00; x00; x20; xc0].
Proof. vm_compute. reflexivity. Qed.

Example pack_f_subnormal : Struct.pack_f 1e-40 = inr [xc2; x16; x01; x00].
Proof. vm_compute. reflexivity. Qed.

Example pack_f_infinity : Struct.pack_f infinity = inr [x00; x00; x80; x7f].
Proof. vm_compute. reflexivity. Qed.

Example pack_f_overflow : Struct.pack_f 1e39 = inl OverflowError.
Proof. vm_compute. reflexivity. Qed.

Example pack_I_258 : Struct.pack_I 258 = inr [x02; x01; x00; x00].
Proof. vm_compute. reflexivity. Qed.

(** ** Tokens and [float()] *)

Lemma span_digits_spec s ds rest :
  Re.span_digits s = (ds, rest) ->
  Forall (fun c => Str.is_digit c = true) ds /\
  fst (Re.span_digits rest) = [].
Proof.
  revert ds rest. induction s as [|c r IH]; simpl; intros ds rest H.
  - inversion H; subst. split; [constructor | reflexivity].
  - destruct (Str.is_digit c) eqn:D.
    + destruct (Re.span_digits r) as [ds' rest'] eqn:E.
      inversion H; subst.
      destruct (IH ds' rest eq_refl) as [F R].
      split; [constructor; assumption | assumption].
    + inversion H; subst. split; [constructor |].
      simpl. rewrite D. reflexivity.
Qed.

Lemma span_digits_app ds rest :
  Forall (fun c => Str.is_digit c = true) ds ->
  fst (Re.span_digits rest) = [] ->
  Re.span_digits (string_of_list_ascii ds ++ rest)%string = (ds, rest).
Proof.
  intros F R. induction F as [|c ds D F IH]; simpl.
  - destruct rest as [|c r]; [reflexivity|].
    simpl in *. destruct (Str.is_digit c); [|reflexivity].
    destruct (Re.span_digits r); discriminate.
  - rewrite D, IH. reflexivity.
Qed.

Lemma match_number_well_formed s t :
  Re.match_number s = Some t -> well_formed t.
Proof.
  unfold Re.match_number, well_formed.
  destruct (Re.eat "-" s) as [neg s0].
  destruct (Re.span_digits s0) as [int_ds s1] eqn:E1.
  destruct int_ds as [|c ds]; [discriminate|].
  destruct (Re.eat "." s1) as [dot s2] eqn:E2.
  destruct (Re.span_digits s2) as [frac_ds s3] eqn:E3.
  intros H; inversion H; subst; simpl.
  destruct (span_digits_spec _ _ _ E1) as [F1 R1].
  destruct (span_digits_spec _ _ _ E3) as [F3 _].
  repeat split; try assumption; [discriminate|].
  intros ->.
  destruct s1 as [|a s1']; simpl in E2.
  - inversion E2; subst. simpl in E3. inversion E3; reflexivity.
  - destruct (Ascii.eqb a "."); inversion E2; subst.
    rewrite E3 in R1. exact R1.
Qed.

Lemma search_number_well_formed s t :
  Re.search_number s = Some t -> well_formed t.
Proof.
  induction s as [|c r IH]; cbn [Re.search_number].
  - destruct (Re.match_number "") eqn:E; [|discriminate].
    intros H; inversion H; subst. eapply match_number_well_formed; eauto.
  - destruct (Re.match_number (String c r)) eqn:E.
    + intros H; inversion H; subst. eapply match_number_well_formed; eauto.
    + exact IH.
Qed.

Lemma search_field_well_formed L s t :
  Re.search_field L s = Some t -> well_formed t.
Proof.
  induction s as [|c r IH]; simpl; [discriminate|].
  destruct (Ascii.eqb c L); [|exact IH].
  destruct (Re.match_number r) eqn:E; [|exact IH].
  intros H; inversion H; subst. eapply match_number_well_formed; eauto.
Qed.

Lemma append_empty_r s : (s ++ "")%string = s.
Proof. induction s as [|c r IH]; simpl; [|rewrite IH]; reflexivity. Qed.

Lemma digit_not_minus c : Str.is_digit c = true -> Ascii.eqb c "-" = false.
Proof.
  destruct c as [[] [] [] [] [] [] [] []]; vm_compute; congruence.
Qed.

Lemma match_number_group1 t :
  well_formed t -> Re.match_number (Re.group1 t) = Some t.
Proof.
  destruct t as [neg int_ds dot frac_ds].
  intros (NE & FI & FF & ND); simpl in *.
  assert (S0 : fst (Re.span_digits
                 ((if dot then "." else "") ++ string_of_list_ascii frac_ds)%string) = []).
  { destruct dot; [reflexivity|]. rewrite (ND eq_refl). reflexivity. }
  assert (M : forall s0,
    s0 = (string_of_list_ascii int_ds ++
          (if dot then "." else "") ++ string_of_list_ascii frac_ds)%string ->
    (let (i, s1) := Re.span_digits s0 in
     match i with
     | [] => None
     | _ :: _ =>
         let (d, s2) := Re.eat "." s1 in
         let (f, _) := Re.span_digits s2 in
         Some (Re.Token neg i d f)
     end) = Some (Re.Token neg int_ds dot frac_ds)).
  { intros s0 ->. rewrite (span_digits_app _ _ FI S0).
    destruct int_ds as [|c ds]; [congruence|].
    destruct dot; simpl.
    - pose proof (span_digits_app frac_ds "" FF eq_refl) as A.
      rewrite append_empty_r in A. rewrite A. reflexivity.
    - rewrite (ND eq_refl). reflexivity. }
  unfold Re.match_number, Re.group1; simpl.
  destruct neg; simpl.
  - apply M. reflexivity.
  - destruct int_ds as [|c ds]; [congruence|]. simpl.
    inversion FI as [|? ? D _]; subst.
    rewrite (digit_not_minus c D).
    apply (M (String c (string_of_list_ascii ds ++
                 (if dot then "." else "") ++ string_of_list_ascii frac_ds)%string)).
    reflexivity.
Qed.

Lemma float_group1 t :
  well_formed t -> PyFloat.float (Re.group1 t) = inr (PyFloat.of_token t).
Proof.
  intros W. unfold PyFloat.float.
  rewrite (match_number_group1 t W), String.eqb_refl. reflexivity.
Qed.

(** ** The parser never fails on a number *)

Lemma float_or_ok {A} (m : option Re.token) (some : float -> A) (dflt : A) :
  (forall t, m = Some t -> well_formed t) ->
  float_or m some dflt =
  inr match m with
      | Some t => some (PyFloat.of_token t)
      | None => dflt
      end.
Proof.
  intros W. destruct m as [t|]; simpl; [|reflexivity].
  rewrite (float_group1 t (W t eq_refl)). reflexivity.
Qed.

Lemma set_params_id st :
  set_extrusion_width (detected_extrusion_width st)
    (set_layer_height (detected_layer_height st) st) = st.
Proof. destruct st; reflexivity. Qed.

(** A comment line changes the two detected parameters at most. *)
Lemma scan_comment_ok line_num line st :
  exists v w,
    scan_comment line_num line st
    = inr (set_extrusion_width w (set_layer_height v st)).
Proof.
  unfold scan_comment.
  destruct ((line_num <? 100)%nat && Str.startswith line ";").
  2:{ exists (detected_layer_height st), (detected_extrusion_width st).
      rewrite set_params_id. reflexivity. }
  assert (W : forall t, Re.search_number line = Some t -> well_formed t)
    by (intros t; apply search_number_well_formed).
  destruct (Str.contains "layer_height" (Str.lower line)
            || Str.contains "layer height" (Str.lower line));
    destruct (Str.contains "extrusion_width" (Str.lower line)
              || Str.contains "extrusion width" (Str.lower line));
    rewrite ?float_or_ok by exact W; simpl;
    rewrite ?float_or_ok by exact W;
    destruct (Re.search_number line) as [t|]; simpl;
    try (exists (PyFloat.of_token t), (PyFloat.of_token t); reflexivity);
    try (exists (PyFloat.of_token t), (detected_extrusion_width st);
         destruct st; reflexivity);
    try (exists (detected_layer_height st), (PyFloat.of_token t);
         destruct st; reflexivity);
    exists (detected_layer_height st), (detected_extrusion_width st);
    destruct st; reflexivity.
Qed.

Lemma motion_ok {L : Libm} line st :
  motion line st
  = apply_motion st
      (resolve "X" line (last_x st)) (resolve "Y" line (last_y st))
      (resolve_e line (last_e st))
      (is_some (Re.search_field "E" line)) (field "Z" line).
Proof.
  unfold motion, resolve, resolve_e, field.
  rewrite !float_or_ok by (intros t; apply search_field_well_formed).
  simpl.
  destruct (Re.search_field "X" line), (Re.search_field "Y" line),
    (Re.search_field "E" line), (Re.search_field "Z" line); reflexivity.
Qed.

Lemma process_line_ok {L : Libm} line_num raw st :
  exists v w,
    let st1 := set_extrusion_width w (set_layer_height v st) in
    let line := Str.strip raw in
    process_line line_num raw st
    = if is_motion line
      then apply_motion st1
             (resolve "X" line (last_x st)) (resolve "Y" line (last_y st))
             (resolve_e line (last_e st))
             (is_some (Re.search_field "E" line)) (field "Z" line)
      else inr st1.
Proof.
  unfold process_line.
  destruct (scan_comment_ok line_num (Str.strip raw) st) as (v & w & E).
  exists v, w. rewrite E. simpl. unfold is_motion.
  destruct (Str.startswith (Str.strip raw) "G1"
            || Str.startswith (Str.strip raw) "G0");
    [rewrite motion_ok|]; reflexivity.
Qed.

(** A line that starts with G is no comment line. *)
Lemma motion_no_comment line_num line st :
  is_motion line = true -> scan_comment line_num line st = inr st.
Proof.
  unfold is_motion, scan_comment, Str.startswith. intros M.
  destruct line as [|c r]; [discriminate|].
  assert (P : prefix ";" (String c r) = false).
  { cbn [prefix] in *.
    destruct (ascii_dec "G" c) as [<-|N]; [reflexivity|].
    discriminate. }
  rewrite P, andb_false_r. reflexivity.
Qed.

(** ** Comparisons of binary64 numbers *)

Lemma SFcompare_antisym a b :
  SFcompare b a = option_map CompOpp (SFcompare a b).
Proof.
  destruct a as [sa|sa| |sa ma ea], b as [sb|sb| |sb mb eb]; simpl;
    try reflexivity;
    try (destruct sa; reflexivity);
    try (destruct sb; reflexivity);
    try (destruct sa, sb; reflexivity).
  destruct sa, sb; simpl; try reflexivity;
    rewrite (Z.compare_antisym ea eb);
    destruct (ea ?= eb)%Z; simpl; try reflexivity;
    change (Pos.compare_cont Eq mb ma) with (Pos.compare mb ma);
    change (Pos.compare_cont Eq ma mb) with (Pos.compare ma mb);
    rewrite (Pos.compare_antisym ma mb);
    destruct (ma ?= mb)%positive; reflexivity.
Qed.

Lemma is_nan_false x : is_nan x = false -> Prim2SF x <> S754_nan.
Proof.
  unfold is_nan. rewrite eqb_spec. intros H E. rewrite E in H. discriminate.
Qed.

Lemma SFcompare_some a b :
  a <> S754_nan -> b <> S754_nan -> exists c, SFcompare a b = Some c.
Proof.
  intros Na Nb.
  destruct a as [sa|sa| |sa ma ea], b as [sb|sb| |sb mb eb]; simpl;
    try congruence; eauto.
Qed.

Lemma ltb_false_leb x y :
  is_nan x = false -> is_nan y = false ->
  (x <? y) = false -> (y <=? x) = true.
Proof.
  intros Nx Ny. apply is_nan_false in Nx. apply is_nan_false in Ny.
  rewrite ltb_spec, leb_spec. unfold SFltb, SFleb.
  rewrite (SFcompare_antisym (Prim2SF x) (Prim2SF y)).
  destruct (SFcompare_some _ _ Nx Ny) as [c ->].
  destruct c; simpl; congruence.
Qed.

(** The clamp of line 75. *)
Lemma clamp_bounds w :
  let c := py_min (py_max w 0.1) 2.0 in
  (c <? 0.1) = false /\ (2.0 <? c) = false /\
  (is_nan c = false -> (0.1 <=? c) = true /\ (c <=? 2.0) = true).
Proof.
  unfold py_min, py_max.
  destruct (w <? 0.1) eqn:Lo.
  - vm_compute. auto.
  - destruct (2.0 <? w) eqn:Hi.
    + vm_compute. auto.
    + repeat split; try assumption.
      * apply ltb_false_leb; auto.
      * apply ltb_false_leb; auto.
Qed.

(** ** The error monad *)

Lemma ret_inj {A} (a b : A) : ret a = inr b -> a = b.
Proof. intros H. injection H. auto. Qed.

Lemma bind_inr {A B} (m : py A) (k : A -> py B) b :
  bind m k = inr b -> exists a, m = inr a /\ k a = inr b.
Proof. destruct m as [e|a]; simpl; [discriminate|]. eauto. Qed.

Lemma bind_inl {A B} (m : py A) (k : A -> py B) e :
  bind m k = inl e -> m = inl e \/ exists a, m = inr a /\ k a = inl e.
Proof. destruct m as [e'|a]; cbn; [intros [= ->]; auto | eauto]. Qed.

(** ** The squares of line 69 *)

Example sq_exact : sq 10 = inr 100.
Proof. vm_compute. reflexivity. Qed.

Example sq_negative : sq (-3) = inr 9.
Proof. vm_compute. reflexivity. Qed.

Example sq_overflow : sq 1e200 = inl OverflowError.
Proof. vm_compute. reflexivity. Qed.

Example sq_underflow : sq 1e-200 = inr 0.
Proof. vm_compute. reflexivity. Qed.

(** Without a call of the library: infinities, NaN, zeros and ones. *)
Example sq_special {L : Libm} :
  sq infinity = inr infinity /\ sq neg_infinity = inr infinity /\
  sq nan = inr nan /\ sq (-0) = inr 0 /\ sq (-1) = inr 1.
Proof. vm_compute. repeat split; reflexivity. Qed.

(** A move whose square overflows makes the parser raise, also when the
    other square is a NaN. *)
Example parser_raises_on_a_very_far_move :
  parse_gcode_to_segments very_far_move
    default_layer_height default_extrusion_width = inl OverflowError /\
  parse_gcode_to_segments very_far_move_at_infinity
    default_layer_height default_extrusion_width = inl OverflowError.
Proof. vm_compute. split; reflexivity. Qed.

(** The float power raises nothing but [OverflowError]. *)
Lemma sq_raises {L : Libm} x e : sq x = inl e -> e = OverflowError.
Proof.
  unfold sq. destruct (is_nan x); [discriminate|].
  destruct (is_infinity x); [discriminate|].
  destruct (x =? 0); [discriminate|].
  destruct (abs x =? 1); [discriminate|].
  cbv zeta. destruct (is_infinity (pow2 (abs x))); [|discriminate].
  intros [= <-]. reflexivity.
Qed.

Lemma xy_length_raises {L : Libm} lx ly x y e :
  xy_length lx ly x y = inl e -> e = OverflowError.
Proof.
  unfold xy_length. intros H.
  apply bind_inl in H. destruct H as [H|(a & _ & H)];
    [exact (sq_raises _ _ H)|].
  apply bind_inl in H. destruct H as [H|(b & _ & H)];
    [exact (sq_raises _ _ H)|].
  discriminate.
Qed.

(** ** Invariants of the scan *)

Lemma segments_set_params v w st :
  segments (set_extrusion_width w (set_layer_height v st)) = segments st.
Proof. reflexivity. Qed.

(** The segment of a line that emits one. *)
Lemma emitted_shape {L : Libm} st x y e em cz dlh seg :
  emitted st x y e em cz dlh = inr (Some seg) ->
  exists lx ly x' y' len,
    last_x st = Some lx /\ last_y st = Some ly /\
    x = Some x' /\ y = Some y' /\
    em = true /\ (last_e st <? e) = true /\
    xy_length lx ly x' y' = inr len /\
    seg = {| start := (lx, ly, cz);
             end_ := (x', y', cz);
             width := actual_width (e - last_e st) len
                        dlh (detected_extrusion_width st);
             height := dlh;
             extrusion_amount := e - last_e st |}.
Proof.
  unfold emitted.
  destruct em; cbn [andb]; [|discriminate].
  destruct (last_e st <? e); [|discriminate].
  destruct x as [x'|]; [|discriminate].
  destruct y as [y'|]; [|discriminate].
  destruct (last_x st) as [lx|]; [|discriminate].
  destruct (last_y st) as [ly|]; [|discriminate].
  cbv zeta. destruct (xy_length lx ly x' y') as [err|len] eqn:XY; cbn [bind];
    [discriminate|].
  intros H. apply ret_inj in H. injection H as <-.
  exists lx, ly, x', y', len. repeat split; try reflexivity. exact XY.
Qed.

(** Nothing is emitted, and no square is taken, unless the line extrudes
    and the four coordinates are resolved. *)
Lemma emitted_quiet {L : Libm} st x y e em cz dlh :
  em && (last_e st <? e) = false \/ x = None \/ y = None \/
  last_x st = None \/ last_y st = None ->
  emitted st x y e em cz dlh = inr None.
Proof.
  unfold emitted. intros [G|[G|[G|[G|G]]]]; rewrite G.
  - reflexivity.
  - destruct (em && _); reflexivity.
  - destruct (em && _), x; reflexivity.
  - destruct (em && _), x, y; reflexivity.
  - destruct (em && _), x, y, (last_x st); reflexivity.
Qed.

Lemma emitted_raises {L : Libm} st x y e em cz dlh err :
  emitted st x y e em cz dlh = inl err -> err = OverflowError.
Proof.
  unfold emitted.
  destruct (em && (last_e st <? e)); [|discriminate].
  destruct x as [x'|]; [|discriminate].
  destruct y as [y'|]; [|discriminate].
  destruct (last_x st) as [lx|]; [|discriminate].
  destruct (last_y st) as [ly|]; [|discriminate].
  cbv zeta. intros H. apply bind_inl in H.
  destruct H as [H|(len & _ & H)]; [|discriminate].
  exact (xy_length_raises _ _ _ _ _ H).
Qed.

(** The state after a motion that returns. *)
Lemma apply_motion_inr {L : Libm} st x y e em z st' :
  apply_motion st x y e em z = inr st' ->
  exists seg,
    update_z z st
    = (detected_layer_height st', last_z st', current_z st') /\
    emitted st x y e em (current_z st') (detected_layer_height st')
    = inr seg /\
    segments st' = match seg with
                   | Some s => segments st ++ [s]
                   | None => segments st
                   end /\
    last_x st' = x /\ last_y st' = y /\ last_e st' = e /\
    detected_extrusion_width st' = detected_extrusion_width st.
Proof.
  unfold apply_motion. destruct (update_z z st) as [[dlh lz] cz].
  destruct (emitted st x y e em cz dlh) as [err|seg] eqn:Em; cbn [bind];
    [discriminate|].
  intros H. apply ret_inj in H. subst st'. exists seg.
  cbn [segments current_z last_x last_y last_z last_e detected_layer_height
       detected_extrusion_width].
  repeat split; try reflexivity. exact Em.
Qed.

Lemma apply_motion_raises {L : Libm} st x y e em z err :
  apply_motion st x y e em z = inl err -> err = OverflowError.
Proof.
  unfold apply_motion. destruct (update_z z st) as [[dlh lz] cz].
  intros H. apply bind_inl in H.
  destruct H as [H|(seg & _ & H)]; [|discriminate].
  exact (emitted_raises _ _ _ _ _ _ _ _ H).
Qed.

(** A motion that does not extrude, or with a coordinate unresolved,
    returns and appends nothing. *)
Lemma apply_motion_quiet {L : Libm} st x y e em z :
  em && (last_e st <? e) = false \/ x = None \/ y = None \/
  last_x st = None \/ last_y st = None ->
  exists st',
    apply_motion st x y e em z = inr st' /\ segments st' = segments st.
Proof.
  intros G. unfold apply_motion. destruct (update_z z st) as [[dlh lz] cz].
  rewrite (emitted_quiet _ _ _ _ _ _ _ G). cbn [bind].
  eexists. split; reflexivity.
Qed.

(** An extruding motion between resolved positions whose length line 69
    computes appends the segment. *)
Lemma apply_motion_emits {L : Libm} st x y e z lx ly len :
  last_x st = Some lx -> last_y st = Some ly ->
  (last_e st <? e) = true ->
  xy_length lx ly x y = inr len ->
  exists st',
    apply_motion st (Some x) (Some y) e true z = inr st' /\
    segments st' = segments st ++
      [ {| start := (lx, ly, current_z st');
           end_ := (x, y, current_z st');
           width := actual_width (e - last_e st) len
                      (detected_layer_height st')
                      (detected_extrusion_width st);
           height := detected_layer_height st';
           extrusion_amount := e - last_e st |} ].
Proof.
  intros LX LY LT XY. unfold apply_motion.
  destruct (update_z z st) as [[dlh lz] cz].
  unfold emitted. rewrite LX, LY, LT. cbn [andb]. cbv zeta.
  rewrite XY. cbn [bind]. eexists. split; reflexivity.
Qed.

Lemma apply_motion_fields {L : Libm} st x y e em z st' :
  apply_motion st x y e em z = inr st' ->
  last_x st' = x /\ last_y st' = y /\ last_e st' = e /\
  (em = false -> segments st' = segments st) /\
  (z = None ->
   current_z st' = current_z st /\ last_z st' = last_z st /\
   detected_layer_height st' = detected_layer_height st).
Proof.
  intros H.
  destruct (apply_motion_inr _ _ _ _ _ _ _ H)
    as (seg & U & Em & S & X & Y & E & _).
  split; [exact X|]. split; [exact Y|]. split; [exact E|]. split.
  - intros ->. rewrite emitted_quiet in Em by (left; reflexivity).
    apply ret_inj in Em. subst seg. exact S.
  - intros ->. cbn [update_z] in U. injection U as D Lz C. auto.
Qed.

Lemma apply_motion_segments {L : Libm} st x y e em z st' :
  apply_motion st x y e em z = inr st' ->
  segments st' = segments st \/
  em = true /\ (exists x', x = Some x') /\ (exists y', y = Some y') /\
  (exists ly, last_y st = Some ly) /\ (exists lx, last_x st = Some lx) /\
  (last_e st <? e) = true /\
  exists seg, segments st' = segments st ++ [seg].
Proof.
  intros H.
  destruct (apply_motion_inr _ _ _ _ _ _ _ H)
    as ([seg|] & _ & Em & S & _); [|left; exact S].
  right.
  destruct (emitted_shape _ _ _ _ _ _ _ _ Em)
    as (lx & ly & x' & y' & len & Lx & Ly & -> & -> & -> & Lt & _).
  repeat split; eauto.
Qed.

(** What a line does, whatever it is: the comment scan touches the two
    detected parameters only, then a motion line applies its fields. *)
Lemma process_line_frame {L : Libm} line_num raw st st' :
  process_line line_num raw st = inr st' ->
  exists st1,
    segments st1 = segments st /\
    last_x st1 = last_x st /\ last_y st1 = last_y st /\
    last_e st1 = last_e st /\
    (if is_motion (Str.strip raw)
     then apply_motion st1
            (resolve "X" (Str.strip raw) (last_x st))
            (resolve "Y" (Str.strip raw) (last_y st))
            (resolve_e (Str.strip raw) (last_e st))
            (is_some (Re.search_field "E" (Str.strip raw)))
            (field "Z" (Str.strip raw))
     else inr st1) = inr st'.
Proof.
  destruct (process_line_ok line_num raw st) as (v & w & E). cbn zeta in E.
  rewrite E. intros H.
  exists (set_extrusion_width w (set_layer_height v st)).
  repeat split; try reflexivity. exact H.
Qed.

(** What a line does to the list of segments: nothing, or one append of
    the segment [emitted] computes from the state before the motion. *)
Lemma process_line_segments {L : Libm} line_num raw st st' :
  process_line line_num raw st = inr st' ->
  segments st' = segments st \/
  exists st1 x y e em seg,
    segments st1 = segments st /\
    last_x st1 = last_x st /\ last_y st1 = last_y st /\
    last_x st' = x /\ last_y st' = y /\
    emitted st1 x y e em (current_z st') (detected_layer_height st')
    = inr (Some seg) /\
    segments st' = segments st ++ [seg].
Proof.
  intros H.
  destruct (process_line_frame _ _ _ _ H) as (st1 & S1 & X1 & Y1 & _ & A).
  destruct (is_motion (Str.strip raw)).
  - destruct (apply_motion_inr _ _ _ _ _ _ _ A)
      as ([seg|] & _ & Em & S & X & Y & _).
    + right. exists st1. do 4 eexists. exists seg.
      split; [exact S1|]. split; [exact X1|]. split; [exact Y1|].
      split; [exact X|]. split; [exact Y|]. split; [exact Em|].
      rewrite S, S1. reflexivity.
    + left. rewrite S. exact S1.
  - apply ret_inj in A. subst st'. left. exact S1.
Qed.

(** A line raises nothing but the [OverflowError] of a square. *)
Lemma process_line_raises {L : Libm} line_num raw st err :
  process_line line_num raw st = inl err -> err = OverflowError.
Proof.
  destruct (process_line_ok line_num raw st) as (v & w & E). cbn zeta in E.
  rewrite E. destruct (is_motion (Str.strip raw)); [|discriminate].
  apply apply_motion_raises.
Qed.

Lemma scan_lines_raises {L : Libm} lines : forall line_num st err,
  scan_lines line_num lines st = inl err -> err = OverflowError.
Proof.
  induction lines as [|l rest IH]; intros line_num st err; cbn [scan_lines];
    [discriminate|].
  intros H. apply bind_inl in H. destruct H as [H|(st1 & _ & H)].
  - exact (process_line_raises _ _ _ _ H).
  - exact (IH _ _ _ H).
Qed.

Lemma scan_lines_segments_inv {L : Libm} (P : Segment -> Prop) :
  (forall st x y e em cz dlh seg,
      emitted st x y e em cz dlh = inr (Some seg) -> P seg) ->
  forall lines line_num st st',
    Forall P (segments st) ->
    scan_lines line_num lines st = inr st' ->
    Forall P (segments st').
Proof.
  intros HP. induction lines as [|l rest IH]; intros line_num st st' F; simpl.
  - intros H; inversion H; subst. exact F.
  - destruct (process_line line_num l st) as [e|st1] eqn:E; simpl;
      [discriminate|].
    apply IH.
    destruct (process_line_segments _ _ _ _ E)
      as [->|(s0 & x & y & e & em & seg & _ & _ & _ & _ & _ & Em & ->)].
    + exact F.
    + apply Forall_app. split; [exact F|].
      constructor; [|constructor]. eapply HP; exact Em.
Qed.

(** A motion line, in terms of its resolved fields. *)
Lemma process_motion_line {L : Libm} line_num raw st :
  is_motion (Str.strip raw) = true ->
  process_line line_num raw st
  = apply_motion st
      (resolve "X" (Str.strip raw) (last_x st))
      (resolve "Y" (Str.strip raw) (last_y st))
      (resolve_e (Str.strip raw) (last_e st))
      (is_some (Re.search_field "E" (Str.strip raw)))
      (field "Z" (Str.strip raw)).
Proof.
  intros M. unfold process_line.
  rewrite (motion_no_comment _ _ _ M). simpl.
  unfold is_motion in M. rewrite M. apply motion_ok.
Qed.

(** The result of the parser is read off the final state of the scan. *)
Lemma parse_inr {L : Libm} lines dlh dew segs h w :
  parse_gcode_to_segments lines dlh dew = inr (segs, h, w) ->
  exists st,
    scan_lines 0 lines (initial_state dlh dew) = inr st /\
    segs = segments st /\ h = detected_layer_height st /\
    w = detected_extrusion_width st.
Proof.
  unfold parse_gcode_to_segments. intros H.
  apply bind_inr in H. destruct H as (st & E & H).
  apply ret_inj in H. injection H as <- <- <-.
  exists st. repeat split. exact E.
Qed.

Lemma parse_of_scan {L : Libm} lines dlh dew st :
  scan_lines 0 lines (initial_state dlh dew) = inr st ->
  parse_gcode_to_segments lines dlh dew
  = inr (segments st, detected_layer_height st, detected_extrusion_width st).
Proof.
  intros E. unfold parse_gcode_to_segments. rewrite E. reflexivity.
Qed.

Lemma parse_raises {L : Libm} lines dlh dew err :
  parse_gcode_to_segments lines dlh dew = inl err -> err = OverflowError.
Proof.
  unfold parse_gcode_to_segments. intros H.
  apply bind_inl in H. destruct H as [H|(st & _ & H)]; [|discriminate].
  exact (scan_lines_raises _ _ _ _ H).
Qed.

Lemma inr_segments_inj (a b : list Segment) (h h' w w' : float) :
  @inr py_exn _ (a, h, w) = inr (b, h', w') -> b = a.
Proof. intros H. injection H. auto. Defined.

(** * The claims about parse_gcode_to_segments *)

Lemma parse_three_lines :
  parse_gcode_to_segments three_lines
    default_layer_height default_extrusion_width
  = inr ([ {| start := (0, 0, 0); end_ := (10, 0, 0); width := 2;
              height := 0.2; extrusion_amount := 5 |} ], 0.2, 0.4).
Proof. vm_compute. reflexivity. Qed.

(** C9. On the three lines [G1 X0 Y0 E0], [G1 X10 Y0 E5], [G1 X10 Y10] the
    parser emits exactly one segment, from (0, 0, z) to (10, 0, z) for the
    running Z value z (0.0 in a fresh parse).  The first line emits nothing
    (its E does not exceed the register, 0), the second emits the segment,
    the third has no E field: it moves the position to (10, 10) and emits
    nothing.  The second conjunct states the same from any state whose E
    register is 0, whatever its running Z. *)
Theorem segment_emission_three_lines :
  parse_gcode_to_segments three_lines
    default_layer_height default_extrusion_width
  = inr ([ {| start := (0, 0, 0); end_ := (10, 0, 0); width := 2;
              height := 0.2; extrusion_amount := 5 |} ], 0.2, 0.4)
  /\
  forall line_num st, last_e st = 0 ->
    exists st1 st2 st3 seg,
      process_line line_num (ln "G1 X0 Y0 E0") st = inr st1 /\
      process_line (1 + line_num) (ln "G1 X10 Y0 E5") st1 = inr st2 /\
      process_line (2 + line_num) (ln "G1 X10 Y10") st2 = inr st3 /\
      scan_lines line_num three_lines st = inr st3 /\
      segments st1 = segments st /\
      segments st2 = segments st ++ [seg] /\
      segments st3 = segments st ++ [seg] /\
      start seg = (0, 0, current_z st) /\
      end_ seg = (10, 0, current_z st) /\
      last_x st2 = Some 10 /\ last_y st2 = Some 0 /\
      last_x st3 = Some 10 /\ last_y st3 = Some 10.
Proof.
  split; [exact parse_three_lines|].
  intros line_num st E0.
  (* the first line: E does not exceed the register *)
  pose proof (process_motion_line line_num (ln "G1 X0 Y0 E0") st eq_refl) as P1.
  set (l1 := Str.strip (ln "G1 X0 Y0 E0")) in P1.
  replace (resolve "X" l1 (last_x st)) with (Some 0) in P1
    by (vm_compute; reflexivity).
  replace (resolve "Y" l1 (last_y st)) with (Some 0) in P1
    by (vm_compute; reflexivity).
  replace (resolve_e l1 (last_e st)) with 0 in P1
    by (vm_compute; reflexivity).
  replace (is_some (Re.search_field "E" l1)) with true in P1
    by (vm_compute; reflexivity).
  replace (field "Z" l1) with (@None float) in P1
    by (vm_compute; reflexivity).
  destruct (apply_motion_quiet st (Some 0) (Some 0) 0 true None)
    as (st1 & A1 & S1).
  { left. rewrite E0. vm_compute. reflexivity. }
  rewrite A1 in P1.
  destruct (apply_motion_fields _ _ _ _ _ _ _ A1) as (X1 & Y1 & E1 & _ & Z1).
  destruct (Z1 eq_refl) as (Z1' & _ & _). clear Z1.
  (* the second line: the segment *)
  pose proof (process_motion_line (1 + line_num) (ln "G1 X10 Y0 E5") st1 eq_refl)
    as P2.
  set (l2 := Str.strip (ln "G1 X10 Y0 E5")) in P2.
  replace (resolve "X" l2 (last_x st1)) with (Some 10) in P2
    by (vm_compute; reflexivity).
  replace (resolve "Y" l2 (last_y st1)) with (Some 0) in P2
    by (vm_compute; reflexivity).
  replace (resolve_e l2 (last_e st1)) with 5 in P2
    by (vm_compute; reflexivity).
  replace (is_some (Re.search_field "E" l2)) with true in P2
    by (vm_compute; reflexivity).
  replace (field "Z" l2) with (@None float) in P2
    by (vm_compute; reflexivity).
  destruct (apply_motion_emits st1 10 0 5 None 0 0 10 X1 Y1)
    as (st2 & A2 & S2).
  { rewrite E1. vm_compute. reflexivity. }
  { vm_compute. reflexivity. }
  rewrite A2 in P2.
  destruct (apply_motion_fields _ _ _ _ _ _ _ A2) as (X2 & Y2 & E2 & _ & Z2).
  destruct (Z2 eq_refl) as (Z2' & _ & _). clear Z2.
  (* the third line: no E field *)
  pose proof (process_motion_line (2 + line_num) (ln "G1 X10 Y10") st2 eq_refl)
    as P3.
  set (l3 := Str.strip (ln "G1 X10 Y10")) in P3.
  replace (resolve "X" l3 (last_x st2)) with (Some 10) in P3
    by (vm_compute; reflexivity).
  replace (resolve "Y" l3 (last_y st2)) with (Some 10) in P3
    by (vm_compute; reflexivity).
  replace (resolve_e l3 (last_e st2)) with (last_e st2) in P3
    by (unfold resolve_e; replace (field "E" l3) with (@None float)
          by (vm_compute; reflexivity); reflexivity).
  replace (is_some (Re.search_field "E" l3)) with false in P3
    by (vm_compute; reflexivity).
  replace (field "Z" l3) with (@None float) in P3
    by (vm_compute; reflexivity).
  destruct (apply_motion_quiet st2 (Some 10) (Some 10) (last_e st2) false None)
    as (st3 & A3 & S3).
  { left. reflexivity. }
  rewrite A3 in P3.
  destruct (apply_motion_fields _ _ _ _ _ _ _ A3) as (X3 & Y3 & _).
  eexists st1, st2, st3, _.
  split; [exact P1|]. split; [exact P2|]. split; [exact P3|].
  split.
  { unfold three_lines. cbn [scan_lines].
    rewrite P1. cbn [bind]. change (S line_num) with (1 + line_num)%nat.
    rewrite P2. cbn [bind]. change (S (1 + line_num)) with (2 + line_num)%nat.
    rewrite P3. reflexivity. }
  split; [exact S1|].
  split; [rewrite S2, S1; reflexivity|].
  split; [rewrite S3, S2, S1; reflexivity|].
  cbn [start end_]. rewrite Z2', Z1'.
  repeat split; assumption.
Qed.

(** C9 from the initial state of a parse, at line number 0. *)
Lemma segment_emission_three_lines_witness :
  exists st3 seg,
    scan_lines 0 three_lines
      (initial_state default_layer_height default_extrusion_width)
    = inr st3 /\
    segments st3 = [seg] /\
    start seg = (0, 0, 0) /\ end_ seg = (10, 0, 0) /\
    last_x st3 = Some 10 /\ last_y st3 = Some 10.
Proof.
  destruct (proj2 segment_emission_three_lines 0%nat
              (initial_state default_layer_height default_extrusion_width)
              eq_refl)
    as (st1 & st2 & st3 & seg & _ & _ & _ & S & _ & _ & S3 & A & B & _ & _
        & X & Y).
  exists st3, seg. repeat split; assumption.
Defined.

(** C3.  The code does not use the consecutive Z step.  On a Z line it
    compares the new Z with [last_z], and [last_z] is assigned the old
    [current_z] (line 60), so at the next Z line it holds the Z of two
    changes ago.  With Z 0.2 then 0.4 the consecutive step is 0.2, inside
    the accepted range, and the detected layer height becomes
    0.4 - 0.0 = 0.4.  With Z 5.0 then 5.3 the consecutive step is about
    0.3, inside the range, and the layer height is not updated at all
    (5.3 - 0.0 is outside the range): it stays at the default 0.2. *)
Theorem layer_height_uses_stale_z {L : Libm} :
  parse_gcode_to_segments [ln "G1 Z0.2"; ln "G1 Z0.4"]
    default_layer_height default_extrusion_width
  = inr ([], 0.4, 0.4)
  /\ 0.4 - 0.2 = 0.2
  /\ parse_gcode_to_segments [ln "G1 Z5.0"; ln "G1 Z5.3"]
       default_layer_height default_extrusion_width
     = inr ([], 0.2, 0.4)
  /\ 5.3 - 5.0 = 0.2999999999999998
  /\ (0.1 <=? 5.3 - 5.0) && (5.3 - 5.0 <=? 1.0) = true.
Proof. vm_compute. repeat split; reflexivity. Qed.

(** C4, as stated, fails: an extrusion-bearing line of zero XY length is
    not dropped.  The second line below moves nowhere and extrudes; the
    parser appends a segment from (0, 0, 0) to (0, 0, 0). *)
Lemma zero_length_segment_is_emitted :
  parse_gcode_to_segments [ln "G1 X0 Y0 E0"; ln "G1 X0 Y0 E5"]
    default_layer_height default_extrusion_width
  = inr ([ {| start := (0, 0, 0); end_ := (0, 0, 0); width := 0.4;
              height := 0.2; extrusion_amount := 5 |} ], 0.2, 0.4).
Proof. vm_compute. reflexivity. Qed.

(** C4, amended.  For an extrusion-bearing motion line whose XY length,
    as line 69 computes it, is not greater than zero, the parser skips the
    width division and still appends the segment; its width is the
    detected extrusion width as it stands, its points are the previous and
    the new XY position at the running Z.  This holds for every C library:
    a line on which a square of line 69 overflows has no length, it
    raises. *)
Theorem zero_length_segment_keeps_detected_width {L : Libm}
    line_num raw st lx ly x y len :
  is_motion (Str.strip raw) = true ->
  last_x st = Some lx -> last_y st = Some ly ->
  resolve "X" (Str.strip raw) (last_x st) = Some x ->
  resolve "Y" (Str.strip raw) (last_y st) = Some y ->
  is_some (Re.search_field "E" (Str.strip raw)) = true ->
  (last_e st <? resolve_e (Str.strip raw) (last_e st)) = true ->
  xy_length lx ly x y = inr len ->
  (0 <? len) = false ->
  exists st',
    process_line line_num raw st = inr st' /\
    segments st' = segments st ++
      [ {| start := (lx, ly, current_z st');
           end_ := (x, y, current_z st');
           width := detected_extrusion_width st;
           height := detected_layer_height st';
           extrusion_amount :=
             resolve_e (Str.strip raw) (last_e st) - last_e st |} ].
Proof.
  intros M LX LY RX RY EM EX XY ZL.
  rewrite (process_motion_line _ _ _ M), RX, RY, EM.
  destruct (apply_motion_emits st x y _ (field "Z" (Str.strip raw))
              lx ly len LX LY EX XY) as (st' & A & S).
  exists st'. split; [exact A|].
  rewrite S. unfold actual_width. rewrite ZL. reflexivity.
Qed.

(** The amended C4 at the second line of the input above. *)
Lemma zero_length_segment_keeps_detected_width_witness :
  exists st',
    process_line 1 (ln "G1 X0 Y0 E5")
      after_first_line = inr st' /\
    segments st' =
      [ {| start := (0, 0, current_z st');
           end_ := (0, 0, current_z st');
           width := 0.4;
           height := detected_layer_height st';
           extrusion_amount := 5 - 0 |} ].
Proof.
  exact (zero_length_segment_keeps_detected_width 1 (ln "G1 X0 Y0 E5")
           after_first_line
           0 0 0 0 0 eq_refl eq_refl eq_refl eq_refl eq_refl eq_refl eq_refl
           eq_refl eq_refl).
Defined.

(** C7, as stated, fails: the clamp of line 75 is applied only when the
    segment length is positive.  A comment sets the detected extrusion
    width to 5; the zero-length extrusion of the third line stores it
    unclamped, above 2.0. *)
Lemma zero_length_width_is_not_clamped :
  parse_gcode_to_segments
    [ln "; extrusion_width = 5"; ln "G1 X0 Y0 E0"; ln "G1 X0 Y0 E1"]
    default_layer_height default_extrusion_width
  = inr ([ {| start := (0, 0, 0); end_ := (0, 0, 0); width := 5;
              height := 0.2; extrusion_amount := 1 |} ], 0.2, 5)
  /\ (2.0 <? 5) = true.
Proof. vm_compute. split; reflexivity. Qed.

(** C7, amended.  Whenever the parser returns, every segment it emitted
    has an XY length (line 69 computed it without overflow), and when that
    length is greater than zero the stored width is clamped: never below
    0.1, never above 2.0, and inside the closed interval [0.1, 2.0]
    whenever it is a number (the quotient of line 74 is NaN only for an
    infinite amount over an infinite length-height product, and Python's
    [max] and [min] pass a NaN through).  This holds for every C library,
    whatever its [pow] returns. *)
Theorem positive_length_width_is_clamped {L : Libm} lines dlh dew segs h w :
  parse_gcode_to_segments lines dlh dew = inr (segs, h, w) ->
  forall s,
    In s segs ->
    exists len,
      seg_xy_length s = inr len /\
      ((0 <? len) = true ->
       (width s <? 0.1) = false /\ (2.0 <? width s) = false /\
       (is_nan (width s) = false ->
        (0.1 <=? width s) = true /\ (width s <=? 2.0) = true)).
Proof.
  intros P. destruct (parse_inr _ _ _ _ _ _ P) as (st & E & -> & _ & _).
  apply Forall_forall.
  refine (scan_lines_segments_inv _ _ lines 0%nat (initial_state dlh dew) st
            (Forall_nil _) E).
  clear. intros st x y e em cz dlh seg Em.
  destruct (emitted_shape _ _ _ _ _ _ _ _ Em)
    as (lx & ly & x' & y' & len & _ & _ & _ & _ & _ & _ & XY & ->).
  exists len. split; [exact XY|].
  intros Pos. cbn [width]. unfold actual_width. rewrite Pos.
  apply clamp_bounds.
Qed.

(** The amended C7 on the segment of the three-line input: its width, 2.5
    before the clamp, is stored as 2.0. *)
Lemma positive_length_width_is_clamped_witness :
  (2 <? 0.1) = false /\ (2.0 <? 2) = false /\
  (is_nan 2 = false -> (0.1 <=? 2) = true /\ (2 <=? 2.0) = true).
Proof.
  destruct (positive_length_width_is_clamped three_lines
              default_layer_height default_extrusion_width _ _ _
              parse_three_lines
              {| start := (0, 0, 0); end_ := (10, 0, 0); width := 2;
                 height := 0.2; extrusion_amount := 5 |}
              (or_introl eq_refl))
    as (len & E & B).
  assert (len = 10) as -> by (vm_compute in E; injection E as <-; reflexivity).
  exact (B eq_refl).
Defined.

(** C8, as stated, fails: the parser has no parse error.  The X field of
    the second line has no number after its letter; the pattern does not
    match, X is carried forward from the line before, and the line emits a
    segment from (0, 0, 0) to (0, 5, 0). *)
Lemma unparsable_field_does_not_fail :
  parse_gcode_to_segments [ln "G1 X0 Y0 E0"; ln "G1 Xabc Y5 E1"]
    default_layer_height default_extrusion_width
  = inr ([ {| start := (0, 0, 0); end_ := (0, 5, 0); width := 1;
              height := 0.2; extrusion_amount := 1 |} ], 0.2, 0.4).
Proof. vm_compute. reflexivity. Qed.

(** C8, amended.  The parser has no parse error: the text given to
    [float()] is always one the number pattern captured, so the only
    exception it can raise, on any list of lines, is the [OverflowError]
    of a square of line 69.  On a recognised motion line, a field letter
    that no number follows is a field that is absent: without an E field
    the line returns, and whenever the line returns, X, Y and E keep the
    values of the line before (and without an E field nothing is
    emitted), Z leaves the running Z, [last_z] and the detected layer
    height as they are. *)
Theorem unparsable_field_is_treated_as_absent {L : Libm} :
  (forall lines dlh dew err,
      parse_gcode_to_segments lines dlh dew = inl err ->
      err = OverflowError) /\
  (forall line_num raw st,
      is_motion (Str.strip raw) = true ->
      (Re.search_field "E" (Str.strip raw) = None ->
       exists st', process_line line_num raw st = inr st') /\
      forall st',
        process_line line_num raw st = inr st' ->
        (Re.search_field "X" (Str.strip raw) = None ->
         last_x st' = last_x st) /\
        (Re.search_field "Y" (Str.strip raw) = None ->
         last_y st' = last_y st) /\
        (Re.search_field "E" (Str.strip raw) = None ->
         last_e st' = last_e st /\ segments st' = segments st) /\
        (Re.search_field "Z" (Str.strip raw) = None ->
         current_z st' = current_z st /\ last_z st' = last_z st /\
         detected_layer_height st' = detected_layer_height st)).
Proof.
  split.
  - intros lines dlh dew err. apply parse_raises.
  - intros line_num raw st M.
    rewrite (process_motion_line _ _ _ M). split.
    + intros NE. rewrite NE. cbn [is_some].
      match goal with
      | |- context [apply_motion st ?x ?y ?e false ?z] =>
          destruct (apply_motion_quiet st x y e false z) as (st' & A & _);
            [left; reflexivity|]
      end.
      exists st'. exact A.
    + intros st' A.
      destruct (apply_motion_fields _ _ _ _ _ _ _ A) as (X & Y & E & S & Z).
      rewrite X, Y, E.
      unfold resolve, resolve_e, field in *.
      split; [intros ->; reflexivity|].
      split; [intros ->; reflexivity|].
      split.
      * intros H. rewrite H in *. split; [reflexivity|]. apply S. reflexivity.
      * intros H. rewrite H in *. apply Z. reflexivity.
Qed.

(** The amended C8 at the line [G1 Xabc Y5 E1], after [G1 X0 Y0 E0]. *)
Lemma unparsable_field_is_treated_as_absent_witness :
  exists st',
    process_line 1 (ln "G1 Xabc Y5 E1")
      after_first_line = inr st' /\
    last_x st' = Some 0 /\ current_z st' = 0.
Proof.
  destruct (process_line 1 (ln "G1 Xabc Y5 E1") after_first_line)
    as [e|st'] eqn:P; [vm_compute in P; discriminate|].
  destruct (proj2 (proj2 unparsable_field_is_treated_as_absent 1%nat
                     (ln "G1 Xabc Y5 E1") after_first_line eq_refl) st' P)
    as (X & _ & _ & Z).
  exists st'. split; [reflexivity|]. split.
  - exact (X eq_refl).
  - exact (proj1 (Z eq_refl)).
Defined.



(** * The claims about create_cylindrical_extrusion_mesh *)

(** ** Zero-length segments are skipped *)

Lemma is_finite_SF x :
  is_finite x = true ->
  exists sg, Prim2SF x = S754_zero sg \/ exists m e, Prim2SF x = S754_finite sg m e.
Proof.
  unfold is_finite, is_nan, is_infinity.
  rewrite !eqb_spec, abs_spec.
  replace (Prim2SF infinity) with (S754_infinity false)
    by (vm_compute; reflexivity).
  destruct (Prim2SF x) as [sg|sg| |sg m e].
  - intros _. exists sg. left. reflexivity.
  - destruct sg; discriminate.
  - discriminate.
  - intros _. exists sg. right. eauto.
Qed.

Lemma sub_self x : is_finite x = true -> x - x = 0.
Proof.
  intros F. apply Prim2SF_inj. rewrite sub_spec.
  destruct (is_finite_SF x F) as [sg [->|(m & e & ->)]].
  - destruct sg; reflexivity.
  - unfold SF64sub, SFsub. rewrite Z.sub_diag. reflexivity.
Qed.

Lemma zero_length_skipped d : start d = end_ d -> skipped d = true.
Proof.
  intros E. unfold skipped. rewrite E.
  destruct (Np.all_finite (end_ d)) eqn:F.
  - unfold Np.all_finite in F.
    apply andb_prop in F. destruct F as [F Fz].
    apply andb_prop in F. destruct F as [Fx Fy].
    unfold Np.sub, Np.norm, vx, vy, vz in *. cbn [fst snd].
    rewrite (sub_self _ Fx), (sub_self _ Fy), (sub_self _ Fz).
    reflexivity.
  - destruct (_ <? _); reflexivity.
Qed.

(** ** Sizes and indices *)

Lemma capped_from_tail d rest : forall i n,
  (1 <= i)%nat -> (i + List.length rest = n)%nat ->
  capped_from i n rest =
  match rest with
  | [] => 0%nat
  | _ :: _ => if skipped (last rest d) then 0%nat else 1%nat
  end.
Proof.
  induction rest as [|s rest IH]; intros i n I L; [reflexivity|].
  cbn [capped_from]. cbn [List.length] in L.
  replace (i =? 0)%nat with false by (symmetry; apply Nat.eqb_neq; lia).
  rewrite (IH (S i) n) by lia.
  destruct rest as [|s' rest'].
  - cbn [List.length] in L.
    replace (S i =? n)%nat with true by (symmetry; apply Nat.eqb_eq; lia).
    cbn [last]. destruct (skipped s); reflexivity.
  - cbn [List.length] in L.
    replace (S i =? n)%nat with false by (symmetry; apply Nat.eqb_neq; lia).
    rewrite andb_false_r.
    change (last (s :: s' :: rest') d) with (last (s' :: rest') d).
    reflexivity.
Qed.

Lemma capped_from_capped segs :
  capped_from 0 (List.length (every_second segs)) (every_second segs)
  = capped segs.
Proof.
  unfold capped. destruct (every_second segs) as [|s rest]; [reflexivity|].
  cbn [capped_from List.length].
  rewrite (capped_from_tail s rest 1 (S (List.length rest))) by lia.
  destruct rest as [|s' rest'].
  - cbn. destruct (skipped s); reflexivity.
  - replace (1 =? S (List.length (s' :: rest')))%nat with false
      by (symmetry; apply Nat.eqb_neq; cbn [List.length]; lia).
    cbn [Nat.eqb orb]. rewrite andb_true_r.
    destruct (skipped s); reflexivity.
Qed.

Lemma capped_le_2 segs : (capped segs <= 2)%nat.
Proof.
  unfold capped. destruct (every_second segs) as [|s [|s' rest]];
    [lia| destruct (skipped s); lia|].
  destruct (skipped s), (skipped (last (s' :: rest) s)); lia.
Qed.

Lemma face_ok_mono n n' f : (n <= n')%nat -> face_ok n f -> face_ok n' f.
Proof. destruct f as [[a b] c]. unfold face_ok. lia. Qed.

Lemma side_faces_ok b : Forall (face_ok (b + 2 * num_sides)) (side_faces b).
Proof.
  unfold side_faces, num_sides. cbn.
  repeat constructor; unfold face_ok; lia.
Qed.

Lemma start_cap_ok b :
  Forall (face_ok (S (S (b + 2 * num_sides))))
    (start_cap (b + 2 * num_sides) b).
Proof.
  unfold start_cap, num_sides. cbn.
  repeat constructor; unfold face_ok; lia.
Qed.

Lemma end_cap_ok b :
  Forall (face_ok (S (S (b + 2 * num_sides))))
    (end_cap (S (b + 2 * num_sides)) b).
Proof.
  unfold end_cap, num_sides. cbn.
  repeat constructor; unfold face_ok; lia.
Qed.

Section MeshProperties.

Variables np_cos np_sin : float -> float.

Lemma ring_offsets_length s :
  List.length (ring_offsets np_cos np_sin s) = num_sides.
Proof. reflexivity. Qed.

(** What one retained segment adds. *)
Lemma add_segment_sizes i n s m :
  skipped s = false ->
  List.length (vertices (add_segment np_cos np_sin i n s m))
  = (List.length (vertices m) + 2 * num_sides
     + (if caps i n then 2 else 0))%nat /\
  List.length (faces (add_segment np_cos np_sin i n s m))
  = (List.length (faces m) + 2 * num_sides
     + (if caps i n then 2 * num_sides else 0))%nat.
Proof.
  intros V. unfold add_segment, caps. rewrite V.
  destruct ((i =? 0)%nat || (S i =? n)%nat);
    cbn [vertices faces add_caps add_tube];
    rewrite ?length_app, ?length_map, ?ring_offsets_length;
    cbn [List.length]; split; try lia;
    change (List.length (side_faces (vertex_count m))) with (2 * num_sides)%nat;
    try change (List.length (start_cap (vertex_count (add_tube np_cos np_sin s m))
                               (vertex_count m))) with num_sides;
    try change (List.length (end_cap (S (vertex_count (add_tube np_cos np_sin s m)))
                               (vertex_count m))) with num_sides;
    lia.
Qed.

Lemma build_sizes segs : forall i n m,
  List.length (vertices (build np_cos np_sin i n segs m))
  = (List.length (vertices m)
     + 2 * num_sides
       * List.length (filter (fun s => negb (skipped s)) segs)
     + 2 * capped_from i n segs)%nat /\
  List.length (faces (build np_cos np_sin i n segs m))
  = (List.length (faces m)
     + 2 * num_sides
       * List.length (filter (fun s => negb (skipped s)) segs)
     + 2 * num_sides * capped_from i n segs)%nat.
Proof.
  induction segs as [|s rest IH]; intros i n m.
  - cbn. lia.
  - cbn [build filter capped_from].
    destruct (IH (S i) n (add_segment np_cos np_sin i n s m)) as [Hv Hf].
    rewrite Hv, Hf. clear IH Hv Hf.
    destruct (skipped s) eqn:V.
    + unfold add_segment. rewrite V. cbn [negb andb]. lia.
    + destruct (add_segment_sizes i n s m V) as [Av Af].
      rewrite Av, Af. cbn [negb andb List.length]. fold (caps i n).
      destruct (caps i n); lia.
Qed.

Lemma add_segment_inv i n s m : mesh_inv m -> mesh_inv (add_segment np_cos np_sin i n s m).
Proof.
  intros [C F]. unfold add_segment.
  destruct (skipped s); [split; assumption|].
  assert (T : mesh_inv (add_tube np_cos np_sin s m)).
  { split.
    - cbn [vertices vertex_count add_tube].
      rewrite !length_app, !length_map, ring_offsets_length. lia.
    - cbn [faces vertex_count add_tube].
      apply Forall_app. split.
      + eapply Forall_impl; [|exact F].
        intros f. apply face_ok_mono. lia.
      + apply side_faces_ok. }
  destruct ((i =? 0)%nat || (S i =? n)%nat); [|exact T].
  destruct T as [TC TF]. split.
  - cbn [vertices vertex_count add_caps].
    rewrite !length_app. cbn [List.length]. lia.
  - cbn [faces vertex_count add_caps].
    cbn [vertex_count add_tube] in *.
    apply Forall_app. split; [apply Forall_app; split|].
    + eapply Forall_impl; [|exact TF].
      intros f. apply face_ok_mono. lia.
    + apply start_cap_ok.
    + apply end_cap_ok.
Qed.

Lemma build_inv segs : forall i n m, mesh_inv m -> mesh_inv (build np_cos np_sin i n segs m).
Proof.
  induction segs as [|s rest IH]; intros i n m I; [exact I|].
  cbn [build]. apply IH. apply add_segment_inv. exact I.
Qed.

End MeshProperties.

Section MeshClaims.

Variables np_cos np_sin : float -> float.

(** C2, amended.  With M the number of retained segments (sampled and not
    skipped), N the number of sides and K the number of retained segments
    that stand first or last in the sampled list (0, 1 or 2), the mesh
    has 2*N*M + 2*K vertices and 2*N*M + 2*N*K faces: a capped segment
    receives both a start cap and an end cap, that is two apex vertices
    and two fans of N triangles. *)
Theorem mesh_size_law segs layer_height extrusion_width :
  List.length
    (fst (create_cylindrical_extrusion_mesh np_cos np_sin segs
            layer_height extrusion_width))
  = (2 * num_sides * List.length (retained segs) + 2 * capped segs)%nat /\
  List.length
    (snd (create_cylindrical_extrusion_mesh np_cos np_sin segs
            layer_height extrusion_width))
  = (2 * num_sides * List.length (retained segs)
     + 2 * num_sides * capped segs)%nat /\
  (capped segs <= 2)%nat.
Proof.
  unfold create_cylindrical_extrusion_mesh, retained. cbn [fst snd].
  destruct (build_sizes np_cos np_sin (every_second segs) 0
              (List.length (every_second segs))
              {| vertices := []; faces := []; vertex_count := 0 |})
    as [Hv Hf].
  rewrite Hv, Hf, capped_from_capped. cbn [vertices faces List.length].
  repeat split; try lia. apply capped_le_2.
Qed.

(** C5, amended.  For a segment [s] that is not skipped and a zero-length
    segment [d], the mesh of [s; d] is the mesh of [s] alone, and so is
    the mesh of [d; x; s] for any [x], where the sampling keeps [d] and
    [s].  The mesh of [d; s] is empty: the sampling keeps every second
    segment from the first, so it keeps [d] and drops [s]. *)
Theorem degenerate_segment_idempotence s d layer_height extrusion_width :
  skipped s = false ->
  start d = end_ d ->
  create_cylindrical_extrusion_mesh np_cos np_sin [s; d]
    layer_height extrusion_width
  = create_cylindrical_extrusion_mesh np_cos np_sin [s]
      layer_height extrusion_width /\
  (forall x,
      create_cylindrical_extrusion_mesh np_cos np_sin [d; x; s]
        layer_height extrusion_width
      = create_cylindrical_extrusion_mesh np_cos np_sin [s]
          layer_height extrusion_width) /\
  create_cylindrical_extrusion_mesh np_cos np_sin [d; s]
    layer_height extrusion_width
  = ([], []).
Proof.
  intros V Z. pose proof (zero_length_skipped d Z) as D.
  unfold create_cylindrical_extrusion_mesh.
  cbn [every_second List.length build].
  unfold add_segment. rewrite D, V. cbn [Nat.eqb orb].
  repeat split; reflexivity.
Qed.

(** C6, amended.  Every index of every face is strictly below the final
    vertex count, and the three indices of a face are pairwise distinct.
    (Faces are not filtered by the positions of their vertices.) *)
Theorem face_indices_in_range segs layer_height extrusion_width :
  Forall
    (face_ok
       (List.length
          (fst (create_cylindrical_extrusion_mesh np_cos np_sin segs
                  layer_height extrusion_width))))
    (snd (create_cylindrical_extrusion_mesh np_cos np_sin segs
            layer_height extrusion_width)).
Proof.
  unfold create_cylindrical_extrusion_mesh. cbn [fst snd].
  destruct (build_inv np_cos np_sin (every_second segs) 0
              (List.length (every_second segs))
              {| vertices := []; faces := []; vertex_count := 0 |})
    as [C F].
  - split; [reflexivity | constructor].
  - rewrite <- C. exact F.
Qed.

End MeshClaims.

(** C2, as stated, fails.  Of three segments the sampling keeps the first
    and the third; both are retained, both are capped at both ends, and the
    mesh has 36 vertices and 64 faces, where the claim gives
    2*8*2 + 2 = 34 and 2*8*2 + 2*8 = 48. *)
Lemma two_retained_segments_are_both_capped :
  List.length (retained [along_x 0 10; along_x 10 20; along_x 20 30]) = 2%nat /\
  List.length
    (fst (create_cylindrical_extrusion_mesh cos8 sin8
            [along_x 0 10; along_x 10 20; along_x 20 30] 0.2 0.4)) = 36%nat /\
  List.length
    (snd (create_cylindrical_extrusion_mesh cos8 sin8
            [along_x 0 10; along_x 10 20; along_x 20 30] 0.2 0.4)) = 64%nat /\
  36%nat <> (2 * num_sides * 2 + 2)%nat /\
  64%nat <> (2 * num_sides * 2 + 2 * num_sides)%nat.
Proof. vm_compute. repeat split; discriminate. Qed.

(** C5, as stated, fails for the order [d; s]: the sampling keeps the
    zero-length segment only and the mesh is empty, while the mesh of [s]
    alone has 18 vertices. *)
Lemma degenerate_first_drops_the_valid_segment :
  create_cylindrical_extrusion_mesh cos8 sin8 [along_x 0 0; along_x 0 10]
    0.2 0.4 = ([], []) /\
  create_cylindrical_extrusion_mesh cos8 sin8 [along_x 0 0; along_x 0 10]
    0.2 0.4
  <> create_cylindrical_extrusion_mesh cos8 sin8 [along_x 0 10] 0.2 0.4.
Proof. vm_compute. split; [reflexivity | discriminate]. Qed.

(** The amended C5 at the segment from (0, 0, 0) to (10, 0, 0) and the
    zero-length segment at (0, 0, 0). *)
Lemma degenerate_segment_idempotence_witness :
  create_cylindrical_extrusion_mesh cos8 sin8 [along_x 0 10; along_x 0 0]
    0.2 0.4
  = create_cylindrical_extrusion_mesh cos8 sin8 [along_x 0 10] 0.2 0.4.
Proof.
  exact (proj1 (degenerate_segment_idempotence cos8 sin8
                  (along_x 0 10) (along_x 0 0) 0.2 0.4 eq_refl eq_refl)).
Defined.

(** C6, as stated, fails in its second part: no face is filtered.  The
    segment of height 0 has radius 0, its ring vertices coincide with the
    axis points, and the cap face (16, 1, 0) has its three vertices at
    (1, 1, 0).  The parser emits this segment after a comment that sets
    the layer height to 0. *)
Lemma cap_face_with_coincident_vertices :
  parse_gcode_to_segments
    [ln "; layer_height = 0"; ln "G1 X1 Y1 E0"; ln "G1 X11 Y1 E5"]
    default_layer_height default_extrusion_width
  = inr ([flat_segment], 0, 0.4) /\
  In (16, 1, 0)%nat
     (snd (create_cylindrical_extrusion_mesh cos8 sin8 [flat_segment] 0 0.4)) /\
  nth_error
    (fst (create_cylindrical_extrusion_mesh cos8 sin8 [flat_segment] 0 0.4))
    16 = Some (1, 1, 0) /\
  nth_error
    (fst (create_cylindrical_extrusion_mesh cos8 sin8 [flat_segment] 0 0.4))
    1 = Some (1, 1, 0) /\
  nth_error
    (fst (create_cylindrical_extrusion_mesh cos8 sin8 [flat_segment] 0 0.4))
    0 = Some (1, 1, 0).
Proof.
  vm_compute. repeat split; try reflexivity.
  do 16 right. left. reflexivity.
Qed.

(** * The claims about write_stl_binary *)

Lemma le_bytes_length n : forall z, List.length (Struct.le_bytes n z) = n.
Proof. induction n as [|n IH]; intros z; simpl; [|rewrite IH]; reflexivity. Qed.

Lemma pack_f_length x bs : Struct.pack_f x = inr bs -> List.length bs = 4%nat.
Proof.
  unfold Struct.pack_f.
  destruct (Struct.to_binary32 x), (Prim2SF x); try discriminate;
    intros H; apply ret_inj in H; subst bs; apply le_bytes_length.
Qed.

Lemma pack_fff_length v bs :
  Struct.pack_fff v = inr bs -> List.length bs = 12%nat.
Proof.
  unfold Struct.pack_fff.
  destruct (Struct.pack_f (vx v)) as [|a] eqn:A; [discriminate|].
  destruct (Struct.pack_f (vy v)) as [|b] eqn:B; [discriminate|].
  destruct (Struct.pack_f (vz v)) as [|c] eqn:C; [discriminate|].
  cbn [bind]. intros H; apply ret_inj in H; subst bs.
  rewrite !length_app, (pack_f_length _ _ A), (pack_f_length _ _ B),
    (pack_f_length _ _ C). reflexivity.
Qed.

(** A face record is 50 bytes long. *)
Lemma write_face_length vs f bs :
  write_face vs f = inr bs -> List.length bs = 50%nat.
Proof.
  destruct f as [[i0 i1] i2]. unfold write_face. intros H.
  repeat match type of H with
         | bind _ _ = inr _ =>
             apply bind_inr in H; destruct H as (? & ? & H)
         end.
  repeat match goal with
         | E : bind _ _ = inr _ |- _ =>
             apply bind_inr in E; destruct E as (? & ? & E)
         end.
  apply ret_inj in H; subst bs.
  repeat match goal with
         | E : Struct.pack_fff _ = inr _ |- _ =>
             apply pack_fff_length in E
         end.
  match goal with
  | E : Struct.pack_H 0 = inr ?a |- _ =>
      assert (List.length a = 2%nat)
        by (apply ret_inj in E; subst a; reflexivity)
  end.
  rewrite !length_app. lia.
Qed.

Lemma write_faces_length vs fs : forall bs,
  write_faces vs fs = inr bs -> List.length bs = (50 * List.length fs)%nat.
Proof.
  induction fs as [|f rest IH]; intros bs; cbn [write_faces].
  - intros H; apply ret_inj in H; subst bs. reflexivity.
  - intros H.
    apply bind_inr in H. destruct H as (r & R & H).
    apply bind_inr in H. destruct H as (rs & RS & H).
    apply ret_inj in H; subst bs.
    rewrite length_app, (write_face_length _ _ _ R), (IH _ RS).
    cbn [List.length]. lia.
Qed.

(** What the written file measures: a header of 79 bytes, the count, and 50
    bytes a face. *)
Lemma write_stl_binary_length vs fs out :
  write_stl_binary vs fs = inr out ->
  List.length out = (79 + 4 + 50 * List.length fs)%nat.
Proof.
  unfold write_stl_binary. intros H.
  apply bind_inr in H. destruct H as (count & C & H).
  apply bind_inr in H. destruct H as (body & B & H).
  apply ret_inj in H; subst out.
  unfold Struct.pack_I in C.
  destruct (_ && _) in C; [|discriminate].
  apply ret_inj in C; subst count.
  rewrite !length_app, le_bytes_length, (write_faces_length _ _ _ B).
  reflexivity.
Qed.

(** C1.  The header line 203 writes is 79 bytes long, not 80: the literal
    has 55 characters and 24 zero bytes follow.  So the file of a mesh of
    F faces is 79 + 4 + 50*F bytes long, and the count stands at offset
    79.  With no face the file has 83 bytes and no four bytes at offset
    80; with one face it has 133 bytes, and the four bytes at offset 80
    read 0, the count 1 being read at offset 79. *)
Theorem header_is_one_byte_short :
  List.length header = 79%nat /\
  (exists out,
      write_stl_binary [] [] = inr out /\
      List.length out = 83%nat /\
      read_u32_le out 80 = None) /\
  (exists out,
      write_stl_binary triangle_vertices triangle_faces = inr out /\
      List.length out = 133%nat /\
      read_u32_le out 80 = Some 0%Z /\
      read_u32_le out 79 = Some 1%Z).
Proof.
  split; [reflexivity|]. split.
  - eexists. split; [vm_compute; reflexivity|].
    split; vm_compute; reflexivity.
  - eexists. split; [vm_compute; reflexivity|].
    repeat split; vm_compute; reflexivity.
Qed.

(** * Further properties of parse_gcode_to_segments *)

Lemma scan_comment_plain line_num raw st :
  is_comment raw = false -> scan_comment line_num (Str.strip raw) st = inr st.
Proof.
  unfold is_comment, scan_comment. intros ->.
  rewrite andb_false_r. reflexivity.
Qed.

(** A line that is no comment, in terms of its resolved fields. *)
Lemma process_line_plain {L : Libm} line_num raw st :
  is_comment raw = false ->
  process_line line_num raw st
  = if is_motion (Str.strip raw)
    then apply_motion st
           (resolve "X" (Str.strip raw) (last_x st))
           (resolve "Y" (Str.strip raw) (last_y st))
           (resolve_e (Str.strip raw) (last_e st))
           (is_some (Re.search_field "E" (Str.strip raw)))
           (field "Z" (Str.strip raw))
    else inr st.
Proof.
  intros C. unfold process_line.
  rewrite (scan_comment_plain _ _ _ C). cbn [bind]. unfold is_motion.
  destruct (Str.startswith (Str.strip raw) "G1"
            || Str.startswith (Str.strip raw) "G0");
    [apply motion_ok | reflexivity].
Qed.

Lemma scan_lines_app {L : Libm} l1 : forall l2 line_num st,
  scan_lines line_num (l1 ++ l2) st
  = bind (scan_lines line_num l1 st)
         (scan_lines (line_num + List.length l1) l2).
Proof.
  induction l1 as [|l rest IH]; intros l2 line_num st.
  - cbn. rewrite Nat.add_0_r. reflexivity.
  - cbn [app scan_lines List.length].
    destruct (process_line line_num l st) as [e|st1]; cbn [bind];
      [reflexivity|].
    rewrite IH. replace (S line_num + List.length rest)%nat
      with (line_num + S (List.length rest))%nat by lia.
    reflexivity.
Qed.

(** The scan only appends to the list of segments. *)
Lemma scan_lines_extends {L : Libm} lines : forall line_num st st',
  scan_lines line_num lines st = inr st' ->
  exists extra, segments st' = segments st ++ extra.
Proof.
  induction lines as [|l rest IH]; intros line_num st st'; cbn [scan_lines].
  - intros H. apply ret_inj in H. subst st'. exists [].
    rewrite app_nil_r. reflexivity.
  - destruct (process_line line_num l st) as [e|st1] eqn:E; cbn [bind];
      [discriminate|].
    intros H. destruct (IH _ _ _ H) as [extra X].
    destruct (process_line_segments _ _ _ _ E)
      as [S|(s0 & x & y & e & em & seg & _ & _ & _ & _ & _ & _ & S)].
    + exists extra. rewrite X, S. reflexivity.
    + exists (seg :: extra). rewrite X, S, <- app_assoc. reflexivity.
Qed.

(** X1.  Segments are only ever appended: when the parser returns on a
    file, it returns on every prefix of the file, and the segments of the
    prefix open the segments of the file. *)
Theorem segments_of_a_prefix_are_kept {L : Libm} l1 l2 dlh dew segs h w :
  parse_gcode_to_segments (l1 ++ l2) dlh dew = inr (segs, h, w) ->
  exists segs1 h1 w1 extra,
    parse_gcode_to_segments l1 dlh dew = inr (segs1, h1, w1) /\
    segs = segs1 ++ extra.
Proof.
  intros P. destruct (parse_inr _ _ _ _ _ _ P) as (st & E & -> & _ & _).
  rewrite scan_lines_app in E.
  apply bind_inr in E. destruct E as (st1 & E1 & E).
  destruct (scan_lines_extends _ _ _ _ E) as [extra X].
  exists (segments st1), (detected_layer_height st1),
    (detected_extrusion_width st1), extra.
  split; [exact (parse_of_scan _ _ _ _ E1) | exact X].
Qed.

(** X1 on the three-line input, cut after its second line. *)
Lemma segments_of_a_prefix_are_kept_witness :
  exists segs1 h1 w1 extra,
    parse_gcode_to_segments [ln "G1 X0 Y0 E0"; ln "G1 X10 Y0 E5"]
      default_layer_height default_extrusion_width = inr (segs1, h1, w1) /\
    [ {| start := (0, 0, 0); end_ := (10, 0, 0); width := 2;
         height := 0.2; extrusion_amount := 5 |} ] = segs1 ++ extra.
Proof.
  exact (segments_of_a_prefix_are_kept
           [ln "G1 X0 Y0 E0"; ln "G1 X10 Y0 E5"] [ln "G1 X10 Y10"]
           default_layer_height default_extrusion_width _ _ _
           parse_three_lines).
Defined.

(** Induction along a scan that returns. *)
Lemma scan_lines_ind {L : Libm}
    (P : nat -> list string -> ParseState -> ParseState -> Prop) :
  (forall n st, P n [] st st) ->
  (forall n l rest st st1 st',
      process_line n l st = inr st1 ->
      scan_lines (S n) rest st1 = inr st' ->
      P (S n) rest st1 st' ->
      P n (l :: rest) st st') ->
  forall lines n st st', scan_lines n lines st = inr st' -> P n lines st st'.
Proof.
  intros Hnil Hcons. induction lines as [|l rest IH]; intros n st st';
    cbn [scan_lines].
  - intros H. apply ret_inj in H. subst st'. apply Hnil.
  - destruct (process_line n l st) as [e|st1] eqn:E; cbn [bind];
      [discriminate|].
    intros H. eapply Hcons; eauto.
Qed.

(** X2.  Whenever the parser returns, it returns at most one segment for
    each motion line that carries an E field; lines without one (travel
    moves, other commands, comments, blank lines) contribute none. *)
Theorem segment_count_is_bounded_by_e_lines {L : Libm}
    lines dlh dew segs h w :
  parse_gcode_to_segments lines dlh dew = inr (segs, h, w) ->
  (List.length segs <= List.length (filter has_e_field lines))%nat.
Proof.
  intros P. destruct (parse_inr _ _ _ _ _ _ P) as (st & E & -> & _ & _).
  clear P.
  change (List.length (segments st)
          <= List.length (segments (initial_state dlh dew))
             + List.length (filter has_e_field lines))%nat.
  revert E. generalize (initial_state dlh dew). generalize 0%nat.
  intros n st0 E. pattern n, lines, st0, st.
  apply scan_lines_ind; [| |exact E]; clear.
  - intros _ st. cbn. lia.
  - intros n l rest st st1 st' E1 _ IH.
    destruct (process_line_frame _ _ _ _ E1) as (s1 & S1 & _ & _ & _ & A).
    cbn [filter]. unfold has_e_field at 1.
    destruct (is_motion (Str.strip l)); cbn [andb].
    + destruct (apply_motion_segments _ _ _ _ _ _ _ A)
        as [B|(Em & _ & _ & _ & _ & _ & seg & B)].
      * rewrite B, S1 in IH.
        destruct (is_some _); cbn [List.length]; lia.
      * rewrite B, length_app, S1 in IH. rewrite Em.
        cbn [List.length] in *. lia.
    + apply ret_inj in A. subst st1. rewrite S1 in IH. lia.
Qed.

(** X2 on the three-line input: one segment, two lines with an E field. *)
Lemma segment_count_is_bounded_by_e_lines_witness :
  le (List.length
        [ {| start := (0, 0, 0); end_ := (10, 0, 0); width := 2;
             height := 0.2; extrusion_amount := 5 |} ])
     (List.length (filter has_e_field three_lines)).
Proof.
  exact (segment_count_is_bounded_by_e_lines three_lines
           default_layer_height default_extrusion_width _ _ _
           parse_three_lines).
Defined.

(** As long as X is unresolved, or Y is, the scan returns and appends
    nothing: no square is taken. *)
Lemma scan_lines_unresolved {L : Libm} lines : forall n st0,
  (forall l, In l lines -> Re.search_field "X" (Str.strip l) = None) /\
  last_x st0 = None \/
  (forall l, In l lines -> Re.search_field "Y" (Str.strip l) = None) /\
  last_y st0 = None ->
  exists st, scan_lines n lines st0 = inr st /\ segments st = segments st0.
Proof.
  induction lines as [|l rest IH]; intros n st0 N; cbn [scan_lines].
  - exists st0. split; reflexivity.
  - destruct (process_line_ok n l st0) as (v & w & E). cbn zeta in E.
    rewrite E. clear E.
    set (s1 := set_extrusion_width w (set_layer_height v st0)).
    assert (K : exists st1,
               (if is_motion (Str.strip l)
                then apply_motion s1
                       (resolve "X" (Str.strip l) (last_x st0))
                       (resolve "Y" (Str.strip l) (last_y st0))
                       (resolve_e (Str.strip l) (last_e st0))
                       (is_some (Re.search_field "E" (Str.strip l)))
                       (field "Z" (Str.strip l))
                else inr s1) = inr st1 /\
               segments st1 = segments st0 /\
               ((forall l', In l' rest ->
                            Re.search_field "X" (Str.strip l') = None) /\
                last_x st1 = None \/
                (forall l', In l' rest ->
                            Re.search_field "Y" (Str.strip l') = None) /\
                last_y st1 = None)).
    { destruct (is_motion (Str.strip l)).
      - destruct N as [[N L0]|[N L0]].
        + assert (R : resolve "X" (Str.strip l) (last_x st0) = None).
          { unfold resolve, field.
            rewrite (N l (or_introl eq_refl)). exact L0. }
          rewrite R.
          match goal with
          | |- context [apply_motion s1 None ?y ?e ?em ?z] =>
              destruct (apply_motion_quiet s1 None y e em z)
                as (st1 & A & S); [right; left; reflexivity|]
          end.
          exists st1. split; [exact A|]. split; [exact S|]. left.
          split; [intros l' I'; apply N; right; exact I'|].
          exact (proj1 (apply_motion_fields _ _ _ _ _ _ _ A)).
        + assert (R : resolve "Y" (Str.strip l) (last_y st0) = None).
          { unfold resolve, field.
            rewrite (N l (or_introl eq_refl)). exact L0. }
          rewrite R.
          match goal with
          | |- context [apply_motion s1 ?x None ?e ?em ?z] =>
              destruct (apply_motion_quiet s1 x None e em z)
                as (st1 & A & S); [right; right; left; reflexivity|]
          end.
          exists st1. split; [exact A|]. split; [exact S|]. right.
          split; [intros l' I'; apply N; right; exact I'|].
          exact (proj1 (proj2 (apply_motion_fields _ _ _ _ _ _ _ A))).
      - exists s1. split; [reflexivity|]. split; [reflexivity|].
        destruct N as [[N L0]|[N L0]]; [left|right];
          (split; [intros l' I'; apply N; right; exact I' | exact L0]). }
    destruct K as (st1 & -> & S1 & N1). cbn [bind].
    destruct (IH (S n) st1 N1) as (st & E & S).
    exists st. split; [exact E|]. rewrite S. exact S1.
Qed.

(** X3.  No segment is emitted as long as one of the two coordinates is
    unresolved: a file none of whose lines carries a Y field, or none of
    whose lines carries an X field, yields no segment at all. *)
Theorem no_segment_without_both_coordinates {L : Libm} lines dlh dew :
  (forall l, In l lines -> Re.search_field "X" (Str.strip l) = None) \/
  (forall l, In l lines -> Re.search_field "Y" (Str.strip l) = None) ->
  exists h w, parse_gcode_to_segments lines dlh dew = inr ([], h, w).
Proof.
  intros N.
  destruct (scan_lines_unresolved lines 0 (initial_state dlh dew))
    as (st & E & S).
  { destruct N as [N|N]; [left|right]; (split; [exact N | reflexivity]). }
  exists (detected_layer_height st), (detected_extrusion_width st).
  rewrite (parse_of_scan _ _ _ _ E), S. reflexivity.
Qed.

(** X3 on a file that extrudes along X without ever naming Y. *)
Lemma no_segment_without_both_coordinates_witness :
  exists h w,
    parse_gcode_to_segments [ln "G1 X0 E0"; ln "G1 X10 E5"; ln "G1 X20 E9"]
      default_layer_height default_extrusion_width
    = inr ([], h, w).
Proof.
  apply no_segment_without_both_coordinates.
  right. intros l [<-|[<-|[<-|[]]]]; vm_compute; reflexivity.
Defined.

Lemma ltb_irrefl x : (x <? x) = false.
Proof.
  rewrite ltb_spec. unfold SFltb.
  destruct (Prim2SF x) as [sg|sg| |sg m e]; cbn; try reflexivity.
  - destruct sg; reflexivity.
  - rewrite Z.compare_refl.
    change (Pos.compare_cont Eq m m) with (Pos.compare m m).
    rewrite Pos.compare_refl. destruct sg; reflexivity.
Qed.

(** X4.  E is an absolute register: processing the same line a second
    time, right after the first, emits nothing, whatever the line and the
    state (its E, if any, no longer exceeds the register). *)
Theorem repeated_line_emits_nothing {L : Libm}
    line_num line_num' raw st st1 :
  process_line line_num raw st = inr st1 ->
  exists st2,
    process_line line_num' raw st1 = inr st2 /\
    segments st2 = segments st1.
Proof.
  intros E1.
  destruct (process_line_frame _ _ _ _ E1) as (s1 & _ & _ & _ & L1 & A1).
  destruct (process_line_ok line_num' raw st1) as (v & w & E2).
  cbn zeta in E2. rewrite E2. clear E2.
  destruct (is_motion (Str.strip raw));
    [|eexists; split; reflexivity].
  set (s2 := set_extrusion_width w (set_layer_height v st1)).
  assert (R : resolve_e (Str.strip raw) (last_e st1) = last_e st1).
  { destruct (apply_motion_fields _ _ _ _ _ _ _ A1) as (_ & _ & -> & _).
    unfold resolve_e. destruct (field "E" (Str.strip raw)); reflexivity. }
  match goal with
  | |- context [apply_motion s2 ?x ?y ?e ?em ?z] =>
      destruct (apply_motion_quiet s2 x y e em z) as (st2 & A2 & S2)
  end.
  { left. rewrite R. change (last_e s2) with (last_e st1).
    rewrite ltb_irrefl. apply andb_false_r. }
  exists st2. split; [exact A2 | exact S2].
Qed.

(** X4 at the extruding line of the three-line input, sent twice. *)
Lemma repeated_line_emits_nothing_witness :
  exists st2,
    process_line 2 (ln "G1 X10 Y0 Z0.4 E5") after_raise_and_extrude
    = inr st2 /\
    segments st2 = segments after_raise_and_extrude.
Proof.
  apply (repeated_line_emits_nothing 1 2 (ln "G1 X10 Y0 Z0.4 E5")
           after_first_line after_raise_and_extrude).
  vm_compute. reflexivity.
Defined.

Lemma update_z_layer_height z st dlh lz cz :
  update_z z st = (dlh, lz, cz) ->
  dlh = detected_layer_height st \/ reasonable_layer_height dlh = true.
Proof.
  unfold update_z, reasonable_layer_height.
  destruct z as [new_z|]; [|intros [= <- _ _]; left; reflexivity].
  destruct (last_z st) as [l|]; [|intros [= <- _ _]; left; reflexivity].
  destruct (l <? new_z); [|intros [= <- _ _]; left; reflexivity].
  destruct ((0.1 <=? new_z - l) && (new_z - l <=? 1.0)) eqn:R;
    intros [= <- _ _]; [right; exact R | left; reflexivity].
Qed.

(** X5.  In a file without comment lines, whenever the parser returns,
    the returned extrusion width is the default, and the returned layer
    height, like the height of every segment, is either the default or a Z
    step inside [0.1, 1.0]. *)
Theorem parameters_without_comments {L : Libm} lines dlh dew segs h w :
  (forall l, In l lines -> is_comment l = false) ->
  parse_gcode_to_segments lines dlh dew = inr (segs, h, w) ->
  w = dew /\
  (h = dlh \/ reasonable_layer_height h = true) /\
  forall s, In s segs ->
    height s = dlh \/ reasonable_layer_height (height s) = true.
Proof.
  intros N P.
  destruct (parse_inr _ _ _ _ _ _ P) as (st & E & -> & -> & ->). clear P.
  set (J := fun st : ParseState =>
              detected_extrusion_width st = dew /\
              (detected_layer_height st = dlh \/
               reasonable_layer_height (detected_layer_height st) = true) /\
              Forall (fun s => height s = dlh \/
                               reasonable_layer_height (height s) = true)
                     (segments st)).
  assert (G : forall n lines st0 st,
             scan_lines n lines st0 = inr st ->
             (forall l, In l lines -> is_comment l = false) ->
             J st0 -> J st).
  { clear. intros n lines st0 st E. pattern n, lines, st0, st.
    apply scan_lines_ind; [| |exact E]; clear - J.
    - auto.
    - intros n l rest st st1 st' E1 _ IH N J0. apply IH.
      + intros l' I'. apply N. right. exact I'.
      + rewrite (process_line_plain _ _ _ (N l (or_introl eq_refl))) in E1.
        destruct (is_motion (Str.strip l));
          [|apply ret_inj in E1; subst st1; exact J0].
        destruct J0 as (W & H & F).
        destruct (apply_motion_inr _ _ _ _ _ _ _ E1)
          as (seg & U & Em & S & _ & _ & _ & W1).
        assert (D : detected_layer_height st1 = dlh \/
                    reasonable_layer_height (detected_layer_height st1)
                    = true).
        { destruct (update_z_layer_height _ _ _ _ _ U) as [->|R]; auto. }
        unfold J. rewrite W1, S.
        split; [exact W|]. split; [exact D|].
        destruct seg as [seg|]; [|exact F].
        apply Forall_app. split; [exact F|].
        constructor; [|constructor].
        destruct (emitted_shape _ _ _ _ _ _ _ _ Em)
          as (lx & ly & x' & y' & len & _ & _ & _ & _ & _ & _ & _ & ->).
        exact D. }
  assert (J0 : J (initial_state dlh dew)).
  { split; [reflexivity|]. split; [left; reflexivity | constructor]. }
  destruct (G _ _ _ _ E N J0) as (W & H & F).
  repeat split; try assumption.
  apply Forall_forall. exact F.
Qed.

(** X5 on the three-line input. *)
Lemma parameters_without_comments_witness :
  0.4 = default_extrusion_width /\
  (0.2 = default_layer_height \/ reasonable_layer_height 0.2 = true) /\
  forall s,
    In s [ {| start := (0, 0, 0); end_ := (10, 0, 0); width := 2;
              height := 0.2; extrusion_amount := 5 |} ] ->
    height s = default_layer_height \/
    reasonable_layer_height (height s) = true.
Proof.
  apply (parameters_without_comments three_lines
           default_layer_height default_extrusion_width);
    [|exact parse_three_lines].
  intros l [<-|[<-|[<-|[]]]]; vm_compute; reflexivity.
Defined.

Lemma scan_lines_motion_only {L : Libm} lines : forall n n' st,
  (forall l, In l lines -> is_comment l = false) ->
  scan_lines n lines st = scan_lines n' (motion_lines lines) st.
Proof.
  induction lines as [|l rest IH]; intros n n' st N; [reflexivity|].
  assert (C := N l (or_introl eq_refl)).
  assert (N' : forall l', In l' rest -> is_comment l' = false)
    by (intros l' I'; apply N; right; exact I').
  cbn [scan_lines motion_lines filter].
  rewrite (process_line_plain n l st C).
  destruct (is_motion (Str.strip l)) eqn:M.
  - cbn [scan_lines]. rewrite (process_line_plain n' l st C), M.
    match goal with
    | |- bind ?m _ = _ => destruct m as [e|st1]
    end; cbn [bind]; [reflexivity|].
    apply IH. exact N'.
  - cbn [bind]. apply IH. exact N'.
Qed.

(** X6.  Unrecognised lines are skipped without trace: in a file without
    comment lines, the result is the result on its motion lines alone
    (blank lines and other commands can be removed or inserted at will). *)
Theorem unrecognised_lines_are_skipped {L : Libm} lines dlh dew :
  (forall l, In l lines -> is_comment l = false) ->
  parse_gcode_to_segments lines dlh dew
  = parse_gcode_to_segments (motion_lines lines) dlh dew.
Proof.
  intros N. unfold parse_gcode_to_segments.
  rewrite (scan_lines_motion_only lines 0 0 _ N). reflexivity.
Qed.

(** X6 on the three-line input with a temperature command, a blank line
    and a G28 between its lines. *)
Lemma unrecognised_lines_are_skipped_witness :
  parse_gcode_to_segments
    [ln "M104 S200"; ln "G1 X0 Y0 E0"; ln ""; ln "G1 X10 Y0 E5"; ln "G28";
     ln "G1 X10 Y10"]
    default_layer_height default_extrusion_width
  = parse_gcode_to_segments three_lines
      default_layer_height default_extrusion_width.
Proof.
  apply (unrecognised_lines_are_skipped
           [ln "M104 S200"; ln "G1 X0 Y0 E0"; ln ""; ln "G1 X10 Y0 E5";
            ln "G28"; ln "G1 X10 Y10"]).
  intros l [<-|[<-|[<-|[<-|[<-|[<-|[]]]]]]]; vm_compute; reflexivity.
Defined.

Lemma process_line_late {L : Libm} line_num raw st :
  (100 <= line_num)%nat ->
  process_line line_num raw st
  = if is_motion (Str.strip raw)
    then apply_motion st
           (resolve "X" (Str.strip raw) (last_x st))
           (resolve "Y" (Str.strip raw) (last_y st))
           (resolve_e (Str.strip raw) (last_e st))
           (is_some (Re.search_field "E" (Str.strip raw)))
           (field "Z" (Str.strip raw))
    else inr st.
Proof.
  intros G. unfold process_line, scan_comment.
  replace (line_num <? 100)%nat with false
    by (symmetry; apply Nat.ltb_ge; exact G).
  cbn [andb bind]. unfold is_motion.
  destruct (Str.startswith (Str.strip raw) "G1"
            || Str.startswith (Str.strip raw) "G0");
    [apply motion_ok | reflexivity].
Qed.

Lemma scan_lines_late {L : Libm} lines : forall n n' st,
  (100 <= n)%nat -> (100 <= n')%nat ->
  scan_lines n lines st = scan_lines n' (motion_lines lines) st.
Proof.
  induction lines as [|l rest IH]; intros n n' st G G'; [reflexivity|].
  cbn [scan_lines motion_lines filter].
  rewrite (process_line_late n l st G).
  destruct (is_motion (Str.strip l)) eqn:M.
  - cbn [scan_lines]. rewrite (process_line_late n' l st G'), M.
    match goal with
    | |- bind ?m _ = _ => destruct m as [e|st1]
    end; cbn [bind]; [reflexivity|].
    apply IH; lia.
  - cbn [bind]. apply IH; lia.
Qed.

(** X7.  Comments are read in the first 100 lines only: from line 100 on,
    everything but the motion lines is without effect, comments that name
    the layer height or the extrusion width included. *)
Theorem comments_after_line_100_are_ignored {L : Libm} head tail dlh dew :
  (100 <= List.length head)%nat ->
  parse_gcode_to_segments (head ++ tail) dlh dew
  = parse_gcode_to_segments (head ++ motion_lines tail) dlh dew.
Proof.
  intros G. unfold parse_gcode_to_segments.
  rewrite !scan_lines_app.
  destruct (scan_lines 0 head (initial_state dlh dew)) as [e|st];
    cbn [bind]; [reflexivity|].
  rewrite (scan_lines_late tail _ (0 + List.length head) st) by lia.
  reflexivity.
Qed.

(** X7 after 100 blank lines: the layer-height comment is not read. *)
Lemma comments_after_line_100_are_ignored_witness :
  parse_gcode_to_segments
    (repeat (ln "") 100 ++ [ln "; layer_height = 0.3"; ln "G1 X0 Y0 E0"])
    default_layer_height default_extrusion_width
  = parse_gcode_to_segments
      (repeat (ln "") 100 ++ motion_lines
         [ln "; layer_height = 0.3"; ln "G1 X0 Y0 E0"])
      default_layer_height default_extrusion_width.
Proof.
  apply comments_after_line_100_are_ignored.
  rewrite repeat_length. apply Nat.le_refl.
Defined.

(** * Further properties of create_cylindrical_extrusion_mesh *)

Section MeshSkeleton.

Variables np_cos np_sin : float -> float.

Lemma add_segment_skeleton i n s m :
  faces (add_segment np_cos np_sin i n s m)
  = faces m ++ (if skipped s then [] else tube_faces (caps i n) (vertex_count m))
  /\
  vertex_count (add_segment np_cos np_sin i n s m)
  = (vertex_count m + (if skipped s then 0 else tube_vertices (caps i n)))%nat.
Proof.
  unfold add_segment, tube_faces, tube_vertices. fold (caps i n).
  destruct (skipped s).
  - rewrite app_nil_r. split; [reflexivity | lia].
  - destruct (caps i n); cbn [faces vertex_count add_caps add_tube].
    + split; [|lia]. rewrite <- !app_assoc. reflexivity.
    + split; [|lia]. rewrite app_nil_r. reflexivity.
Qed.

Lemma build_skeleton segs : forall i n m,
  faces (build np_cos np_sin i n segs m)
  = faces m ++ skeleton i n (map (fun s => negb (skipped s)) segs)
                 (vertex_count m).
Proof.
  induction segs as [|s rest IH]; intros i n m; cbn [build map skeleton].
  - rewrite app_nil_r. reflexivity.
  - rewrite IH.
    destruct (add_segment_skeleton i n s m) as [-> ->].
    destruct (skipped s); cbn [negb].
    + rewrite app_nil_r, Nat.add_0_r. reflexivity.
    + rewrite <- app_assoc. reflexivity.
Qed.

(** X8.  The faces of the mesh depend on the segments only through which
    sampled segments are skipped: coordinates, widths and heights move the
    vertices and leave every index as it is. *)
Theorem faces_depend_on_skipped_pattern segs segs' lh ew lh' ew' :
  map skipped (every_second segs) = map skipped (every_second segs') ->
  snd (create_cylindrical_extrusion_mesh np_cos np_sin segs lh ew)
  = snd (create_cylindrical_extrusion_mesh np_cos np_sin segs' lh' ew').
Proof.
  intros E. unfold create_cylindrical_extrusion_mesh. cbn [snd].
  rewrite !build_skeleton. cbn [faces vertex_count app].
  assert (L : List.length (every_second segs)
              = List.length (every_second segs')).
  { rewrite <- (length_map skipped (every_second segs)), E.
    apply length_map. }
  rewrite L. f_equal.
  rewrite <- !(map_map skipped negb), E. reflexivity.
Qed.

End MeshSkeleton.

(** X8 at two segments of different place, width and height. *)
Lemma faces_depend_on_skipped_pattern_witness :
  snd (create_cylindrical_extrusion_mesh cos8 sin8 [along_x 0 10] 0.2 0.4)
  = snd (create_cylindrical_extrusion_mesh cos8 sin8 [flat_segment] 0 0.4).
Proof.
  apply faces_depend_on_skipped_pattern. vm_compute. reflexivity.
Defined.

(** ** Watertightness *)

Lemma count_edge_app e a b :
  count_edge e (a ++ b) = (count_edge e a + count_edge e b)%nat.
Proof. unfold count_edge. rewrite filter_app, length_app. reflexivity. Qed.

Lemma count_edge_zero e es :
  Forall (fun e' => edge_eqb e e' = false) es -> count_edge e es = 0%nat.
Proof.
  unfold count_edge. induction 1 as [|e' es H _ IH]; [reflexivity|].
  cbn [filter]. rewrite H. exact IH.
Qed.

Lemma edges_below n fs x y :
  Forall (face_below n) fs -> (n <= x)%nat ->
  count_edge (x, y) (flat_map face_edges fs) = 0%nat.
Proof.
  intros F L. apply count_edge_zero. apply Forall_flat_map.
  eapply Forall_impl; [|exact F].
  intros [[a b] c] (A & B & C). unfold face_edges, edge_eqb.
  repeat constructor; cbn [fst snd];
    apply andb_false_iff; left; apply Nat.eqb_neq; lia.
Qed.

Lemma edges_from n fs x y :
  Forall (face_from n) fs -> (x < n)%nat ->
  count_edge (x, y) (flat_map face_edges fs) = 0%nat.
Proof.
  intros F L. apply count_edge_zero. apply Forall_flat_map.
  eapply Forall_impl; [|exact F].
  intros [[a b] c] (A & B & C). unfold face_edges, edge_eqb.
  repeat constructor; cbn [fst snd];
    apply andb_false_iff; left; apply Nat.eqb_neq; lia.
Qed.

Lemma tube_faces_bounds capped base :
  Forall (face_from base) (tube_faces capped base) /\
  Forall (face_below (base + tube_vertices capped)) (tube_faces capped base).
Proof.
  unfold tube_faces, tube_vertices, side_faces, start_cap, end_cap, num_sides.
  destruct capped; cbn; split;
    repeat constructor; unfold face_from, face_below; lia.
Qed.

Lemma skeleton_end_ge keep : forall i n base,
  (base <= skeleton_end i n keep base)%nat.
Proof.
  induction keep as [|[] rest IH]; intros i n base; cbn [skeleton_end].
  - lia.
  - specialize (IH (S i) n (base + tube_vertices (caps i n))%nat). lia.
  - apply IH.
Qed.

Lemma skeleton_bounds keep : forall i n base,
  Forall (face_from base) (skeleton i n keep base) /\
  Forall (face_below (skeleton_end i n keep base)) (skeleton i n keep base).
Proof.
  induction keep as [|[] rest IH]; intros i n base;
    cbn [skeleton skeleton_end].
  - split; constructor.
  - destruct (IH (S i) n (base + tube_vertices (caps i n))%nat) as [G L].
    destruct (tube_faces_bounds (caps i n) base) as [TG TL].
    pose proof (skeleton_end_ge rest (S i) n
                  (base + tube_vertices (caps i n))%nat) as E.
    split; apply Forall_app; split.
    + exact TG.
    + eapply Forall_impl; [|exact G].
      intros [[a b] c]. unfold face_from. lia.
    + eapply Forall_impl; [|exact TL].
      intros [[a b] c]. unfold face_below. lia.
    + exact L.
  - apply IH.
Qed.

Lemma skeleton_app k1 : forall k2 i n base,
  skeleton i n (k1 ++ k2) base
  = skeleton i n k1 base
    ++ skeleton (i + List.length k1) n k2 (skeleton_end i n k1 base).
Proof.
  induction k1 as [|[] rest IH]; intros k2 i n base;
    cbn [app skeleton skeleton_end List.length].
  - rewrite Nat.add_0_r. reflexivity.
  - rewrite IH, <- app_assoc.
    replace (S i + List.length rest)%nat with (i + S (List.length rest))%nat
      by lia.
    reflexivity.
  - rewrite IH.
    replace (S i + List.length rest)%nat with (i + S (List.length rest))%nat
      by lia.
    reflexivity.
Qed.

Lemma skeleton_all_false k : forall i n base,
  existsb id k = false ->
  skeleton i n k base = [] /\ skeleton_end i n k base = base.
Proof.
  induction k as [|[] rest IH]; intros i n base; cbn; auto. discriminate.
Qed.

(** The ring edge of an uncapped tube that only a start cap would close. *)
Lemma open_tube_edge base :
  In (base + 0, base + 1)%nat (flat_map face_edges (tube_faces false base)) /\
  count_edge (base + 1, base + 0)%nat
    (flat_map face_edges (tube_faces false base)) = 0%nat.
Proof.
  remember (flat_map face_edges (tube_faces false base)) as es eqn:E.
  unfold tube_faces, side_faces, num_sides in E. cbn in E. subst es.
  split.
  - left. reflexivity.
  - apply count_edge_zero.
    repeat apply Forall_cons; try apply Forall_nil;
      unfold edge_eqb; cbn [fst snd];
      apply andb_false_iff;
      first [ left; apply Nat.eqb_neq; lia | right; apply Nat.eqb_neq; lia ].
Qed.

Lemma closed_oriented_false fs e :
  In e (flat_map face_edges fs) ->
  count_edge (snd e, fst e) (flat_map face_edges fs) = 0%nat ->
  closed_oriented fs = false.
Proof.
  intros I C. unfold closed_oriented.
  destruct (forallb _ _) eqn:F; [|reflexivity].
  rewrite forallb_forall in F. specialize (F e I).
  rewrite C in F. rewrite andb_false_r in F. discriminate.
Qed.

(** On the pattern of kept segments: the surface is closed exactly when
    no segment strictly between the first and the last is kept. *)
Lemma skeleton_closed keep :
  closed_oriented (skeleton 0 (List.length keep) keep 0)
  = negb (existsb id (removelast (tl keep))).
Proof.
  destruct keep as [|a [|b rest]].
  - reflexivity.
  - destruct a; vm_compute; reflexivity.
  - destruct (exists_last (l := b :: rest)) as (mid & c & E);
      [discriminate|].
    cbn [tl]. rewrite E, removelast_last.
    change (a :: mid ++ [c]) with ([a] ++ mid ++ [c]).
    destruct (existsb id mid) eqn:M; cbn [negb].
    + (* an interior tube: its first ring edge has no reverse *)
      apply existsb_exists in M. destruct M as (t & I & T).
      unfold id in T. subst t.
      destruct (in_split _ _ I) as (pre & post & ->).
      set (n := List.length ([a] ++ (pre ++ true :: post) ++ [c])).
      replace ([a] ++ (pre ++ true :: post) ++ [c])
        with (([a] ++ pre) ++ [true] ++ (post ++ [c]))
        by (rewrite <- !app_assoc; reflexivity).
      rewrite skeleton_app.
      set (b0 := skeleton_end 0 n ([a] ++ pre) 0).
      set (i := (0 + List.length ([a] ++ pre))%nat).
      rewrite (skeleton_app [true]).
      cbn [skeleton skeleton_end List.length].
      assert (C : caps i n = false).
      { unfold caps, i, n. rewrite !length_app. cbn [List.length].
        apply orb_false_iff. split; apply Nat.eqb_neq; lia. }
      rewrite C, app_nil_r.
      destruct (skeleton_bounds ([a] ++ pre) 0 n 0) as [_ LA]. fold b0 in LA.
      destruct (skeleton_bounds (post ++ [c]) (i + 1) n
                  (b0 + tube_vertices false)) as [GC _].
      destruct (open_tube_edge b0) as [IE CE].
      apply (closed_oriented_false _ (b0 + 0, b0 + 1)%nat).
      * rewrite !flat_map_app. apply in_or_app. right.
        apply in_or_app. left. exact IE.
      * cbn [fst snd]. rewrite !flat_map_app, !count_edge_app.
        rewrite (edges_below _ _ _ _ LA) by lia.
        rewrite CE.
        rewrite (edges_from _ _ _ _ GC)
          by (unfold tube_vertices, num_sides; lia).
        reflexivity.
    + (* the first and the last only: one or two capped tubes *)
      rewrite !skeleton_app.
      destruct (skeleton_all_false mid
                  (0 + List.length [a])
                  (List.length ([a] ++ mid ++ [c]))
                  (skeleton_end 0 (List.length ([a] ++ mid ++ [c])) [a] 0) M)
        as [-> ->].
      assert (C : forall x y,
                 caps (0 + List.length [x] + List.length mid)
                   (List.length (x :: mid ++ [y])) = true).
      { intros x y. unfold caps. cbn [List.length].
        rewrite length_app. cbn [List.length].
        apply orb_true_iff. right. apply Nat.eqb_eq. lia. }
      assert (C0 : forall n, caps 0 n = true) by reflexivity.
      destruct a, c; cbn [skeleton skeleton_end app]; rewrite ?C, ?C0;
        vm_compute; reflexivity.
Qed.

Lemma removelast_map {A B} (f : A -> B) l :
  removelast (map f l) = map f (removelast l).
Proof.
  induction l as [|a [|b rest] IH]; [reflexivity | reflexivity |].
  cbn [map removelast] in *. rewrite IH. reflexivity.
Qed.

Lemma existsb_id_map {A} (f : A -> bool) l :
  existsb id (map f l) = existsb f l.
Proof.
  induction l as [|a rest IH]; [reflexivity|].
  cbn [map existsb]. rewrite IH. reflexivity.
Qed.

(** X9.  The mesh is a closed, consistently oriented surface exactly when
    no sampled segment strictly between the first and the last is
    retained: capped tubes are closed, and every retained interior segment
    leaves a tube open at both ends. *)
Theorem watertight_iff_no_interior_tube np_cos np_sin segs lh ew :
  closed_oriented
    (snd (create_cylindrical_extrusion_mesh np_cos np_sin segs lh ew))
  = negb (interior_retained (every_second segs)).
Proof.
  unfold create_cylindrical_extrusion_mesh, interior_retained. cbn [snd].
  rewrite build_skeleton. cbn [faces vertex_count app].
  rewrite <- (length_map (fun s => negb (skipped s)) (every_second segs)).
  rewrite skeleton_closed.
  rewrite <- (existsb_id_map (fun s => negb (skipped s))).
  rewrite <- removelast_map.
  destruct (every_second segs); reflexivity.
Qed.

Lemma capped_from_le segs : forall i n,
  (capped_from i n segs
   <= List.length (filter (fun s => negb (skipped s)) segs))%nat.
Proof.
  induction segs as [|s rest IH]; intros i n; cbn [capped_from filter].
  - lia.
  - specialize (IH (S i) n).
    destruct (skipped s); cbn [negb andb List.length].
    + exact IH.
    + destruct ((i =? 0)%nat || (S i =? n)%nat); lia.
Qed.

(** X10.  The mesh is empty, without vertices and without faces, exactly
    when no sampled segment is retained. *)
Theorem mesh_is_empty_iff_nothing_retained np_cos np_sin segs lh ew :
  (fst (create_cylindrical_extrusion_mesh np_cos np_sin segs lh ew) = []
   <-> retained segs = []) /\
  (snd (create_cylindrical_extrusion_mesh np_cos np_sin segs lh ew) = []
   <-> retained segs = []).
Proof.
  unfold create_cylindrical_extrusion_mesh, retained. cbn [fst snd].
  destruct (build_sizes np_cos np_sin (every_second segs) 0
              (List.length (every_second segs))
              {| vertices := []; faces := []; vertex_count := 0 |})
    as [Hv Hf].
  pose proof (capped_from_le (every_second segs) 0
                (List.length (every_second segs))) as K.
  cbn [vertices faces List.length] in Hv, Hf.
  split; split; intros E.
  - rewrite E in Hv. cbn [List.length] in Hv.
    apply length_zero_iff_nil. unfold num_sides in Hv. lia.
  - rewrite E in Hv, K. cbn [List.length] in Hv, K.
    apply length_zero_iff_nil. lia.
  - rewrite E in Hf. cbn [List.length] in Hf.
    apply length_zero_iff_nil. unfold num_sides in Hf. lia.
  - rewrite E in Hf, K. cbn [List.length] in Hf, K.
    apply length_zero_iff_nil. lia.
Qed.

(** * Further properties of write_stl_binary *)

Lemma byte_of_Z_value z :
  Z.of_N (Byte.to_N (Struct.byte_of_Z z)) = (z mod 256)%Z.
Proof.
  unfold Struct.byte_of_Z.
  assert (B : (0 <= Z.land z 255 < 256)%Z).
  { change 255%Z with (Z.ones 8). rewrite Z.land_ones by lia.
    apply Z.mod_pos_bound. reflexivity. }
  assert (V : Z.land z 255 = (z mod 256)%Z).
  { change 255%Z with (Z.ones 8). rewrite Z.land_ones by lia. reflexivity. }
  destruct (Byte.of_N (Z.to_N (Z.land z 255))) as [b|] eqn:E.
  - apply Byte.to_of_N in E. rewrite E, Z2N.id by lia. exact V.
  - apply Byte.of_N_None_iff in E. lia.
Qed.

(** The count field read back. *)
Lemma read_le_bytes_4 pre n rest :
  (0 <= n < 2 ^ 32)%Z ->
  read_u32_le (pre ++ Struct.le_bytes 4 n ++ rest) (List.length pre) = Some n.
Proof.
  intros B. unfold read_u32_le.
  rewrite skipn_app, Nat.sub_diag, skipn_all. cbn [app skipn Struct.le_bytes].
  rewrite !byte_of_Z_value, !Z.shiftr_div_pow2 by lia.
  f_equal.
  change (2 ^ 8)%Z with 256%Z. change (2 ^ 16)%Z with 65536%Z.
  change (2 ^ 24)%Z with 16777216%Z. change (2 ^ 32)%Z with 4294967296%Z in B.
  pose proof (Z.div_mod n 256 ltac:(lia)).
  pose proof (Z.mod_pos_bound n 256 ltac:(lia)).
  pose proof (Z.div_mod (n / 256) 256 ltac:(lia)).
  pose proof (Z.mod_pos_bound (n / 256) 256 ltac:(lia)).
  pose proof (Z.div_mod (n / 256 / 256) 256 ltac:(lia)).
  pose proof (Z.mod_pos_bound (n / 256 / 256) 256 ltac:(lia)).
  pose proof (Z.div_mod (n / 256 / 256 / 256) 256 ltac:(lia)).
  pose proof (Z.mod_pos_bound (n / 256 / 256 / 256) 256 ltac:(lia)).
  lia.
Qed.

Lemma write_stl_binary_layout vs fs out :
  write_stl_binary vs fs = inr out ->
  exists body,
    write_faces vs fs = inr body /\
    (0 <= Z.of_nat (List.length fs) < 2 ^ 32)%Z /\
    out = header ++ Struct.le_bytes 4 (Z.of_nat (List.length fs)) ++ body.
Proof.
  unfold write_stl_binary. intros H.
  apply bind_inr in H. destruct H as (count & C & H).
  apply bind_inr in H. destruct H as (body & B & H).
  apply ret_inj in H. subst out.
  unfold Struct.pack_I in C.
  destruct ((0 <=? Z.of_nat (List.length fs))%Z
            && (Z.of_nat (List.length fs) <? 2 ^ 32)%Z) eqn:R;
    [|discriminate].
  apply ret_inj in C. subst count.
  exists body. split; [exact B|]. split; [|reflexivity].
  apply andb_prop in R. destruct R as [R1 R2].
  apply Z.leb_le in R1. apply Z.ltb_lt in R2. lia.
Qed.

(** X11.  When the write succeeds, the file is the header, the number of
    faces as four little-endian bytes, and 50 bytes for each face: the
    count read back right after the header is the number of faces, and
    the length is that of the header plus 4 plus 50 a face. *)
Theorem stl_layout vs fs out :
  write_stl_binary vs fs = inr out ->
  firstn (List.length header) out = header /\
  read_u32_le out (List.length header) = Some (Z.of_nat (List.length fs)) /\
  List.length out = (List.length header + 4 + 50 * List.length fs)%nat.
Proof.
  intros H. destruct (write_stl_binary_layout _ _ _ H) as (body & B & R & ->).
  split; [|split].
  - rewrite firstn_app, Nat.sub_diag, firstn_all. cbn [firstn].
    apply app_nil_r.
  - apply read_le_bytes_4. exact R.
  - rewrite !length_app, le_bytes_length, (write_faces_length _ _ _ B).
    lia.
Qed.

(** X11 on the mesh of one triangle. *)
Lemma stl_layout_witness :
  exists out,
    write_stl_binary triangle_vertices triangle_faces = inr out /\
    read_u32_le out (List.length header) = Some 1%Z /\
    List.length out = (List.length header + 4 + 50 * 1)%nat.
Proof.
  destruct (write_stl_binary triangle_vertices triangle_faces)
    as [e|out] eqn:E; [vm_compute in E; discriminate|].
  exists out. split; [reflexivity|].
  exact (proj2 (stl_layout triangle_vertices triangle_faces out E)).
Defined.

Lemma write_faces_record vs fs : forall body i f,
  write_faces vs fs = inr body ->
  nth_error fs i = Some f ->
  exists r,
    write_face vs f = inr r /\
    firstn 50 (skipn (50 * i) body) = r.
Proof.
  induction fs as [|f0 rest IH]; intros body i f; cbn [write_faces].
  - intros _ N. destruct i; discriminate.
  - intros H N.
    apply bind_inr in H. destruct H as (r0 & R0 & H).
    apply bind_inr in H. destruct H as (rs & RS & H).
    apply ret_inj in H. subst body.
    pose proof (write_face_length _ _ _ R0) as L0.
    destruct i as [|j]; cbn [nth_error] in N.
    + injection N as <-. exists r0. split; [exact R0|].
      rewrite Nat.mul_0_r. cbn [skipn].
      rewrite <- L0, firstn_app, Nat.sub_diag, firstn_all.
      cbn [firstn]. apply app_nil_r.
    + destruct (IH rs j f RS N) as (r & R & F).
      exists r. split; [exact R|].
      replace (50 * S j)%nat with (List.length r0 + 50 * j)%nat by lia.
      rewrite skipn_app, Nat.add_comm, Nat.add_sub.
      rewrite (skipn_all2 r0) by lia. cbn [app]. exact F.
Qed.

(** X12.  Records are written in face order at fixed offsets: when the
    write succeeds, the 50 bytes that start 50*i bytes after the count
    are the record of face number i. *)
Theorem face_records_in_order vs fs out i f :
  write_stl_binary vs fs = inr out ->
  nth_error fs i = Some f ->
  exists r,
    write_face vs f = inr r /\
    firstn 50 (skipn (List.length header + 4 + 50 * i) out) = r.
Proof.
  intros H N.
  destruct (write_stl_binary_layout _ _ _ H) as (body & B & _ & ->).
  destruct (write_faces_record _ _ _ _ _ B N) as (r & R & F).
  exists r. split; [exact R|].
  rewrite app_assoc.
  replace (List.length header + 4 + 50 * i)%nat
    with (List.length
            (header ++ Struct.le_bytes 4 (Z.of_nat (List.length fs)))
          + 50 * i)%nat
    by (rewrite length_app, le_bytes_length; reflexivity).
  rewrite skipn_app, Nat.add_comm, Nat.add_sub.
  rewrite skipn_all2 by lia. cbn [app]. exact F.
Qed.

(** X12 on the only face of the mesh of one triangle. *)
Lemma face_records_in_order_witness :
  exists out r,
    write_stl_binary triangle_vertices triangle_faces = inr out /\
    write_face triangle_vertices (0, 1, 2)%nat = inr r /\
    firstn 50 (skipn (List.length header + 4 + 50 * 0) out) = r.
Proof.
  destruct (write_stl_binary triangle_vertices triangle_faces)
    as [e|out] eqn:E; [vm_compute in E; discriminate|].
  destruct (face_records_in_order triangle_vertices triangle_faces out 0
              (0, 1, 2)%nat E eq_refl) as (r & R & F).
  exists out, r. repeat split; assumption.
Defined.

(** X13.  A face whose three vertices are one and the same finite point
    gets the default normal (0, 0, 1): its record is the twelve bytes of
    that normal, the point three times, and the two zero bytes. *)
Theorem coincident_face_has_default_normal vs i0 i1 i2 p P :
  nth_error vs i0 = Some p ->
  nth_error vs i1 = Some p ->
  nth_error vs i2 = Some p ->
  Np.all_finite p = true ->
  Struct.pack_fff p = inr P ->
  write_face vs (i0, i1, i2)
  = inr (default_normal_bytes ++ P ++ P ++ P ++ [x00; x00]).
Proof.
  intros N0 N1 N2 F PK. unfold write_face, index.
  rewrite N0, N1, N2. cbn [bind ret].
  assert (Z : Np.sub p p = (0, 0, 0)).
  { unfold Np.all_finite in F.
    apply andb_prop in F. destruct F as [F Fz].
    apply andb_prop in F. destruct F as [Fx Fy].
    unfold Np.sub. rewrite (sub_self _ Fx), (sub_self _ Fy), (sub_self _ Fz).
    reflexivity. }
  rewrite Z, PK. cbn [bind ret].
  replace (0 <? Np.norm (Np.cross (0, 0, 0) (0, 0, 0))) with false
    by (vm_compute; reflexivity).
  replace (Struct.pack_fff (0, 0, 1)) with (@inr py_exn _ default_normal_bytes)
    by (vm_compute; reflexivity).
  reflexivity.
Qed.

(** X13 on a triangle collapsed to the point (1, 1, 0). *)
Lemma coincident_face_has_default_normal_witness :
  exists P,
    Struct.pack_fff (1, 1, 0) = inr P /\
    write_face [(1, 1, 0); (1, 1, 0); (1, 1, 0)] (0, 1, 2)%nat
    = inr (default_normal_bytes ++ P ++ P ++ P ++ [x00; x00]).
Proof.
  destruct (Struct.pack_fff (1, 1, 0)) as [e|P] eqn:E;
    [vm_compute in E; discriminate|].
  exists P. split; [reflexivity|].
  exact (coincident_face_has_default_normal
           [(1, 1, 0); (1, 1, 0); (1, 1, 0)] 0 1 2 (1, 1, 0) P
           eq_refl eq_refl eq_refl eq_refl E).
Defined.

(** ** What the writer can raise *)

Lemma pack_f_raises x e : Struct.pack_f x = inl e -> e = OverflowError.
Proof.
  unfold Struct.pack_f.
  destruct (Struct.to_binary32 x), (Prim2SF x); intros H;
    try discriminate H; injection H as <-; reflexivity.
Qed.

Lemma pack_fff_raises v e : Struct.pack_fff v = inl e -> e = OverflowError.
Proof.
  unfold Struct.pack_fff. intros H.
  repeat match type of H with
         | bind _ _ = inl _ =>
             apply bind_inl in H;
             destruct H as [H|(? & _ & H)];
             [apply pack_f_raises in H; exact H|]
         end.
  discriminate.
Qed.

Lemma index_in_range vs i :
  (i < List.length vs)%nat -> exists v, index vs i = inr v.
Proof.
  intros L. unfold index.
  destruct (nth_error vs i) as [v|] eqn:E; [eauto|].
  apply nth_error_None in E. lia.
Qed.

Lemma write_face_raises vs f e :
  face_below (List.length vs) f ->
  write_face vs f = inl e -> e = OverflowError.
Proof.
  destruct f as [[i0 i1] i2]. intros (L0 & L1 & L2).
  destruct (index_in_range vs i0 L0) as [p0 E0].
  destruct (index_in_range vs i1 L1) as [p1 E1].
  destruct (index_in_range vs i2 L2) as [p2 E2].
  unfold write_face. rewrite E0, E1, E2. cbn [bind].
  intros H.
  repeat match type of H with
         | bind _ _ = inl _ =>
             apply bind_inl in H;
             destruct H as [H|(? & _ & H)];
             [apply pack_fff_raises in H; exact H|]
         end.
  discriminate.
Qed.

Lemma write_faces_raises vs fs e :
  Forall (face_below (List.length vs)) fs ->
  write_faces vs fs = inl e -> e = OverflowError.
Proof.
  induction 1 as [|f rest F _ IH]; cbn [write_faces]; [discriminate|].
  intros H.
  apply bind_inl in H. destruct H as [H|(r & _ & H)].
  - exact (write_face_raises _ _ _ F H).
  - apply bind_inl in H. destruct H as [H|(rs & _ & H)].
    + exact (IH H).
    + discriminate.
Qed.

Lemma write_stl_binary_raises vs fs e :
  Forall (face_below (List.length vs)) fs ->
  write_stl_binary vs fs = inl e ->
  e = OverflowError \/
  e = StructError /\ (2 ^ 32 <= Z.of_nat (List.length fs))%Z.
Proof.
  intros F. unfold write_stl_binary. intros H.
  apply bind_inl in H. destruct H as [H|(count & _ & H)].
  - right. unfold Struct.pack_I in H.
    destruct ((0 <=? Z.of_nat (List.length fs))%Z
              && (Z.of_nat (List.length fs) <? 2 ^ 32)%Z) eqn:R;
      [discriminate|].
    injection H as <-. split; [reflexivity|].
    apply andb_false_iff in R. destruct R as [R|R].
    + apply Z.leb_gt in R. lia.
    + apply Z.ltb_ge in R. exact R.
  - left. apply bind_inl in H. destruct H as [H|(body & _ & H)].
    + exact (write_faces_raises _ _ _ F H).
    + discriminate.
Qed.

(** * Properties of gcode_to_stl_ultra *)

Lemma face_ok_below n f : face_ok n f -> face_below n f.
Proof. destruct f as [[a b] c]. unfold face_ok, face_below. tauto. Qed.

Section PipelineProperties.

Context {L : Libm}.
Variables np_cos np_sin : float -> float.

(** The mesh of the builder, as the pipeline passes it to the writer. *)
Lemma mesh_facts segs lh ew :
  exists vs fs,
    create_cylindrical_extrusion_mesh np_cos np_sin segs lh ew = (vs, fs) /\
    Forall (face_below (List.length vs)) fs /\
    List.length vs
    = (2 * num_sides * List.length (retained segs) + 2 * capped segs)%nat /\
    List.length fs
    = (2 * num_sides * List.length (retained segs)
       + 2 * num_sides * capped segs)%nat.
Proof.
  unfold create_cylindrical_extrusion_mesh, retained.
  eexists _, _. split; [reflexivity|].
  destruct (build_inv np_cos np_sin (every_second segs) 0
              (List.length (every_second segs))
              {| vertices := []; faces := []; vertex_count := 0 |})
    as [C F]; [split; [reflexivity | constructor]|].
  destruct (build_sizes np_cos np_sin (every_second segs) 0
              (List.length (every_second segs))
              {| vertices := []; faces := []; vertex_count := 0 |})
    as [Hv Hf].
  rewrite capped_from_capped in Hv, Hf.
  cbn [vertices faces List.length] in Hv, Hf.
  split; [|split; [lia | lia]].
  rewrite <- C. eapply Forall_impl; [|exact F].
  intros f. apply face_ok_below.
Qed.

(** X14.  The conversion can raise for three reasons only: a square of
    line 69 out of range, a coordinate too large for a 32-bit float, or a
    face count that does not fit 32 bits.  The first two are Python's
    [OverflowError].  It never fails on a number of the G-code and never
    indexes a vertex that is not there. *)
Theorem conversion_raises_on_overflow_only lines e :
  gcode_to_stl_ultra np_cos np_sin lines = inl e ->
  e = OverflowError \/ e = StructError.
Proof.
  unfold gcode_to_stl_ultra. intros H. apply bind_inl in H.
  destruct H as [H|([[segs lh] ew] & _ & H)];
    [left; exact (parse_raises _ _ _ _ H)|].
  cbv beta iota in H.
  destruct segs as [|s0 segs0]; [discriminate|].
  destruct (mesh_facts (s0 :: segs0) lh ew) as (vs & fs & M & F & _ & _).
  rewrite M in H.
  destruct (List.length vs =? 0)%nat; [discriminate|].
  destruct (flat_bounding_box vs); [discriminate|].
  apply bind_inl in H. destruct H as [H|(out & _ & H)];
    [|discriminate].
  destruct (write_stl_binary_raises _ _ _ F H) as [->|[-> _]]; auto.
Qed.

(** X15.  The conversion returns False without writing, or returns True
    and has written the file of the mesh of the parsed segments: with M
    retained segments of which K are capped, M at least 1, its length is
    that of the header plus 4 plus 50 bytes for each of the
    2*N*M + 2*N*K faces. *)
Theorem conversion_outcome lines b o :
  gcode_to_stl_ultra np_cos np_sin lines = inr (b, o) ->
  (b = false /\ o = None) \/
  (b = true /\
   exists segs lh ew out,
     parse_gcode_to_segments lines default_layer_height
       default_extrusion_width = inr (segs, lh, ew) /\
     o = Some out /\
     write_stl_binary
       (fst (create_cylindrical_extrusion_mesh np_cos np_sin segs lh ew))
       (snd (create_cylindrical_extrusion_mesh np_cos np_sin segs lh ew))
     = inr out /\
     retained segs <> [] /\
     List.length out
     = (List.length header + 4
        + 50 * (2 * num_sides * List.length (retained segs)
                + 2 * num_sides * capped segs))%nat).
Proof.
  unfold gcode_to_stl_ultra. intros H. apply bind_inr in H.
  destruct H as ([[segs lh] ew] & P & H). cbv beta iota in H.
  destruct segs as [|s0 segs0].
  { apply ret_inj in H. injection H as <- <-. left. auto. }
  destruct (mesh_facts (s0 :: segs0) lh ew) as (vs & fs & M & F & Lv & Lf).
  rewrite M in H.
  destruct (List.length vs =? 0)%nat eqn:V.
  { apply ret_inj in H. injection H as <- <-. left. auto. }
  destruct (flat_bounding_box vs).
  { apply ret_inj in H. injection H as <- <-. left. auto. }
  apply bind_inr in H. destruct H as (out & W & H).
  apply ret_inj in H. injection H as <- <-. right. split; [reflexivity|].
  exists (s0 :: segs0), lh, ew, out.
  rewrite M. cbn [fst snd].
  split; [exact P|]. split; [reflexivity|]. split; [exact W|]. split.
  - intros R. rewrite R in Lv. cbn [List.length] in Lv.
    apply Nat.eqb_neq in V.
    pose proof (capped_from_le (every_second (s0 :: segs0)) 0
                  (List.length (every_second (s0 :: segs0)))) as K.
    rewrite capped_from_capped in K. fold (retained (s0 :: segs0)) in K.
    rewrite R in K. cbn [List.length] in K. lia.
  - destruct (write_stl_binary_layout _ _ _ W) as (body & B & _ & ->).
    rewrite !length_app, le_bytes_length, (write_faces_length _ _ _ B), Lf.
    lia.
Qed.

(** X16.  When no sampled segment is retained (no segment at all, or only
    segments shorter than 0.001 or with a coordinate that is not finite),
    the conversion returns False and writes nothing. *)
Theorem conversion_of_nothing_retained lines segs lh ew :
  parse_gcode_to_segments lines default_layer_height default_extrusion_width
  = inr (segs, lh, ew) ->
  retained segs = [] ->
  gcode_to_stl_ultra np_cos np_sin lines = inr (false, None).
Proof.
  intros P R. unfold gcode_to_stl_ultra. rewrite P. cbn [bind].
  destruct segs as [|s0 segs0]; [reflexivity|].
  destruct (mesh_facts (s0 :: segs0) lh ew) as (vs & fs & -> & _ & Lv & _).
  pose proof (capped_from_le (every_second (s0 :: segs0)) 0
                (List.length (every_second (s0 :: segs0)))) as K.
  rewrite capped_from_capped in K. fold (retained (s0 :: segs0)) in K.
  rewrite R in Lv, K. cbn [List.length] in Lv, K.
  replace (List.length vs) with 0%nat by lia. reflexivity.
Qed.

End PipelineProperties.

(** X15 on the three-line input: the conversion returns True and writes
    50 * 32 bytes after the header and the count. *)
Lemma conversion_outcome_witness :
  exists out,
    gcode_to_stl_ultra cos8 sin8 three_lines = inr (true, Some out) /\
    List.length out = (List.length header + 4 + 50 * 32)%nat.
Proof.
  destruct (gcode_to_stl_ultra cos8 sin8 three_lines) as [e|[b o]] eqn:E;
    [vm_compute in E; discriminate|].
  destruct (conversion_outcome cos8 sin8 three_lines b o E)
    as [[-> ->]|(-> & segs & lh & ew & out & P & -> & _ & _ & L)].
  - vm_compute in E. discriminate.
  - exists out. split; [reflexivity|].
    rewrite parse_three_lines in P. injection P as <- _ _.
    exact L.
Defined.

(** X16 on a file that extrudes in place. *)
Lemma conversion_of_nothing_retained_witness :
  gcode_to_stl_ultra cos8 sin8 [ln "G1 X0 Y0 E0"; ln "G1 X0 Y0 E5"]
  = inr (false, None).
Proof.
  apply (conversion_of_nothing_retained cos8 sin8
           [ln "G1 X0 Y0 E0"; ln "G1 X0 Y0 E5"]
           [ {| start := (0, 0, 0); end_ := (0, 0, 0); width := 0.4;
                height := 0.2; extrusion_amount := 5 |} ] 0.2 0.4).
  - vm_compute. reflexivity.
  - vm_compute. reflexivity.
Defined.

(** X14 on a move to X = 10^39: the writer raises on the first vertex of
    the far ring. *)
Lemma conversion_raises_on_overflow_only_witness :
  gcode_to_stl_ultra cos8 sin8 far_move = inl OverflowError /\
  (OverflowError = OverflowError \/ OverflowError = StructError).
Proof.
  assert (E : gcode_to_stl_ultra cos8 sin8 far_move = inl OverflowError)
    by (vm_compute; reflexivity).
  split; [exact E|].
  exact (conversion_raises_on_overflow_only cos8 sin8 far_move
           OverflowError E).
Defined.

(** * Paths *)

(** X17.  Extrusions on consecutive lines form a connected path: when a
    line emits a segment and the next line emits one too, the second
    starts at the XY position where the first ends. *)
Theorem consecutive_segments_are_connected {L : Libm}
    line_num line_num' l1 l2 st st1 st2 a b :
  process_line line_num l1 st = inr st1 ->
  process_line line_num' l2 st1 = inr st2 ->
  segments st1 = segments st ++ [a] ->
  segments st2 = segments st1 ++ [b] ->
  vx (start b) = vx (end_ a) /\ vy (start b) = vy (end_ a).
Proof.
  intros P1 P2 S1 S2.
  destruct (process_line_segments _ _ _ _ P1)
    as [E|(s & x & y & e & em & seg & _ & _ & _ & X1 & Y1 & Em & S)].
  { rewrite E in S1. apply (f_equal (@List.length _)) in S1.
    rewrite length_app in S1. cbn [List.length] in S1. lia. }
  rewrite S in S1. apply app_inj_tail in S1. destruct S1 as [_ ->].
  destruct (emitted_shape _ _ _ _ _ _ _ _ Em)
    as (lx & ly & x' & y' & len & _ & _ & -> & -> & _ & _ & _ & ->).
  destruct (process_line_segments _ _ _ _ P2)
    as [E|(s' & x2 & y2 & e2 & em2 & seg2 & _ & LX & LY & _ & _ & Em2 & S')].
  { rewrite E in S2. apply (f_equal (@List.length _)) in S2.
    rewrite length_app in S2. cbn [List.length] in S2. lia. }
  rewrite S' in S2. apply app_inj_tail in S2. destruct S2 as [_ ->].
  destruct (emitted_shape _ _ _ _ _ _ _ _ Em2)
    as (lx2 & ly2 & x2' & y2' & len2 & Lx2 & Ly2 & _ & _ & _ & _ & _ & ->).
  rewrite LX, X1 in Lx2. rewrite LY, Y1 in Ly2.
  injection Lx2 as <-. injection Ly2 as <-.
  split; reflexivity.
Qed.

(** X17 on two extruding lines after [G1 X0 Y0 E0]: the path turns at
    (10, 0). *)
Lemma consecutive_segments_are_connected_witness :
  exists st1 st2 a b,
    process_line 1 (ln "G1 X10 Y0 E5") after_first_line = inr st1 /\
    process_line 2 (ln "G1 X10 Y10 E8") st1 = inr st2 /\
    segments st2 = [a; b] /\
    vx (start b) = vx (end_ a) /\ vy (start b) = vy (end_ a).
Proof.
  destruct (process_line 1 (ln "G1 X10 Y0 E5") after_first_line)
    as [e|st1] eqn:P1; [vm_compute in P1; discriminate|].
  destruct (process_line 2 (ln "G1 X10 Y10 E8") st1)
    as [e|st2] eqn:P2;
    [vm_compute in P1; injection P1 as <-; vm_compute in P2; discriminate|].
  assert (S1 : exists a, segments st1 = segments after_first_line ++ [a]).
  { vm_compute in P1. injection P1 as <-. eexists. reflexivity. }
  destruct S1 as [a S1].
  assert (S2 : exists b, segments st2 = segments st1 ++ [b]).
  { vm_compute in P1. injection P1 as <-.
    vm_compute in P2. injection P2 as <-. eexists. reflexivity. }
  destruct S2 as [b S2].
  exists st1, st2, a, b.
  split; [reflexivity|]. split; [exact P2|]. split.
  - rewrite S2, S1. reflexivity.
  - exact (consecutive_segments_are_connected 1 2 _ _ _ _ _ a b P1 P2 S1 S2).
Defined.

(** * The sibling converter *)

Lemma scan_comment_params line_num line st :
  scan_comment line_num line st
  = inr (set_extrusion_width
           (snd (comment_params line_num line (detected_layer_height st)
                   (detected_extrusion_width st)))
           (set_layer_height
              (fst (comment_params line_num line (detected_layer_height st)
                      (detected_extrusion_width st)))
              st)).
Proof.
  unfold scan_comment, comment_params, comment_value.
  destruct ((line_num <? 100)%nat && Str.startswith line ";").
  2:{ cbn [fst snd]. rewrite set_params_id. reflexivity. }
  assert (W : forall t, Re.search_number line = Some t -> well_formed t)
    by (intros t; apply search_number_well_formed).
  destruct (Str.contains "layer_height" (Str.lower line)
            || Str.contains "layer height" (Str.lower line));
    destruct (Str.contains "extrusion_width" (Str.lower line)
              || Str.contains "extrusion width" (Str.lower line));
    rewrite ?float_or_ok by exact W; cbn [bind ret fst snd];
    rewrite ?float_or_ok by exact W;
    destruct (Re.search_number line) as [t|]; cbn [fst snd];
    destruct st; reflexivity.
Qed.

Lemma basic_scan_comment_params line_num line st :
  Basic.scan_comment line_num line st
  = inr (Basic.set_extrusion_width
           (snd (comment_params line_num line
                   (Basic.detected_layer_height st)
                   (Basic.detected_extrusion_width st)))
           (Basic.set_layer_height
              (fst (comment_params line_num line
                      (Basic.detected_layer_height st)
                      (Basic.detected_extrusion_width st)))
              st)).
Proof.
  unfold Basic.scan_comment, comment_params, comment_value.
  destruct ((line_num <? 100)%nat && Str.startswith line ";").
  2:{ destruct st; reflexivity. }
  assert (W : forall t, Re.search_number line = Some t -> well_formed t)
    by (intros t; apply search_number_well_formed).
  destruct (Str.contains "layer_height" (Str.lower line)
            || Str.contains "layer height" (Str.lower line));
    destruct (Str.contains "extrusion_width" (Str.lower line)
              || Str.contains "extrusion width" (Str.lower line));
    rewrite ?float_or_ok by exact W; cbn [bind ret fst snd];
    rewrite ?float_or_ok by exact W;
    destruct (Re.search_number line) as [t|]; cbn [fst snd];
    destruct st; reflexivity.
Qed.

Lemma basic_motion_ok line st :
  Basic.motion line st
  = inr (Basic.apply_motion st
           (resolve "X" line (Basic.last_x st))
           (resolve "Y" line (Basic.last_y st))
           (field "Z" line) (field "E" line)).
Proof.
  unfold Basic.motion, resolve, field.
  rewrite !float_or_ok by (intros t; apply search_field_well_formed).
  cbn [bind ret].
  destruct (Re.search_field "X" line), (Re.search_field "Y" line),
    (Re.search_field "E" line), (Re.search_field "Z" line); reflexivity.
Qed.

Lemma basic_process_line_ok line_num raw st :
  Basic.process_line line_num raw st
  = inr (let line := Str.strip raw in
         let cp := comment_params line_num line
                     (Basic.detected_layer_height st)
                     (Basic.detected_extrusion_width st) in
         let st1 := Basic.set_extrusion_width (snd cp)
                      (Basic.set_layer_height (fst cp) st) in
         if is_motion line
         then Basic.apply_motion st1
                (resolve "X" line (Basic.last_x st))
                (resolve "Y" line (Basic.last_y st))
                (field "Z" line) (field "E" line)
         else st1).
Proof.
  unfold Basic.process_line. rewrite basic_scan_comment_params.
  cbn [bind]. cbv zeta. unfold is_motion.
  destruct (Str.startswith (Str.strip raw) "G1"
            || Str.startswith (Str.strip raw) "G0");
    [rewrite basic_motion_ok|]; reflexivity.
Qed.

Lemma process_line_params {L : Libm} line_num raw st :
  process_line line_num raw st
  = let line := Str.strip raw in
    let cp := comment_params line_num line
                (detected_layer_height st)
                (detected_extrusion_width st) in
    let st1 := set_extrusion_width (snd cp)
                 (set_layer_height (fst cp) st) in
    if is_motion line
    then apply_motion st1
           (resolve "X" line (last_x st)) (resolve "Y" line (last_y st))
           (resolve_e line (last_e st))
           (is_some (Re.search_field "E" line)) (field "Z" line)
    else inr st1.
Proof.
  unfold process_line. rewrite scan_comment_params.
  cbn [bind]. cbv zeta. unfold is_motion.
  destruct (Str.startswith (Str.strip raw) "G1"
            || Str.startswith (Str.strip raw) "G0");
    [rewrite motion_ok|]; reflexivity.
Qed.

Lemma basic_scan_lines_total lines : forall line_num st,
  exists st', Basic.scan_lines line_num lines st = inr st'.
Proof.
  induction lines as [|l rest IH]; intros line_num st; cbn [Basic.scan_lines].
  - exists st. reflexivity.
  - rewrite basic_process_line_ok. cbn [bind]. apply IH.
Qed.

(** One line keeps the two parsers in step. *)
Lemma process_line_in_step {L : Libm} line_num raw st bst st' bst' :
  in_step st bst ->
  process_line line_num raw st = inr st' ->
  Basic.process_line line_num raw bst = inr bst' ->
  in_step st' bst'.
Proof.
  intros (Z & X & Y & LZ & H & W).
  rewrite process_line_params, basic_process_line_ok.
  intros P B. apply ret_inj in B. subst bst'.
  cbv zeta in P. cbv zeta. rewrite <- H, <- W, <- X, <- Y.
  destruct (comment_params line_num (Str.strip raw)
              (detected_layer_height st) (detected_extrusion_width st))
    as [v w].
  cbn [fst snd] in *.
  destruct (is_motion (Str.strip raw)).
  - destruct (apply_motion_inr _ _ _ _ _ _ _ P)
      as (seg & U & _ & _ & X' & Y' & _ & W').
    unfold update_z in U.
    cbn [last_z current_z detected_layer_height set_extrusion_width
         set_layer_height] in U.
    unfold in_step, Basic.apply_motion, Basic.update_z.
    cbn [Basic.last_z Basic.current_z Basic.detected_layer_height
         Basic.set_extrusion_width Basic.set_layer_height].
    rewrite <- LZ, <- Z, X', Y', W'.
    destruct (field "Z" (Str.strip raw)) as [z|];
      injection U as <- <- <-; repeat split; reflexivity.
  - apply ret_inj in P. subst st'. repeat split; assumption.
Qed.

Lemma scan_lines_in_step {L : Libm} lines : forall line_num st bst st' bst',
  in_step st bst ->
  scan_lines line_num lines st = inr st' ->
  Basic.scan_lines line_num lines bst = inr bst' ->
  in_step st' bst'.
Proof.
  induction lines as [|l rest IH]; intros line_num st bst st' bst' R;
    cbn [scan_lines Basic.scan_lines].
  - intros P B. apply ret_inj in P. apply ret_inj in B. subst. exact R.
  - destruct (process_line line_num l st) as [e|st1] eqn:P1; cbn [bind];
      [discriminate|].
    destruct (Basic.process_line line_num l bst) as [e|bst1] eqn:B1;
      cbn [bind]; [discriminate|].
    apply IH. exact (process_line_in_step _ _ _ _ _ _ R P1 B1).
Qed.

(** X18.  The two converters read the same parameters.  The sibling
    parser takes no square and returns on every file; whenever the parser
    of gcode_to_stl_ultra.py returns on the same file and defaults, it
    returns the same layer height and the same extrusion width (their
    segment lists differ: the sibling emits on every positive E). *)
Theorem both_parsers_detect_the_same_parameters {L : Libm} lines dlh dew :
  exists bsegs bh bw,
    Basic.parse_gcode_to_segments lines dlh dew = inr (bsegs, bh, bw) /\
    forall segs h w,
      parse_gcode_to_segments lines dlh dew = inr (segs, h, w) ->
      h = bh /\ w = bw.
Proof.
  destruct (basic_scan_lines_total lines 0 (Basic.initial_state dlh dew))
    as [bst B].
  exists (Basic.segments bst), (Basic.detected_layer_height bst),
    (Basic.detected_extrusion_width bst).
  split.
  { unfold Basic.parse_gcode_to_segments. rewrite B. reflexivity. }
  intros segs h w P.
  destruct (parse_inr _ _ _ _ _ _ P) as (st & E & _ & -> & ->).
  assert (R : in_step (initial_state dlh dew) (Basic.initial_state dlh dew))
    by (repeat split; reflexivity).
  destruct (scan_lines_in_step _ _ _ _ _ _ R E B) as (_ & _ & _ & _ & H & W).
  split; assumption.
Qed.

(** ** The rectangular mesh *)

Section BasicMesh.

Variables layer_height extrusion_width : float.

Lemma basic_build l : forall m,
  let r := fold_left
             (fun m s => Basic.add_segment layer_height extrusion_width s m)
             l m in
  faces r = faces m ++ box_chain (kept l) (vertex_count m) /\
  vertex_count r = (vertex_count m + 8 * kept l)%nat /\
  List.length (vertices r) = (List.length (vertices m) + 8 * kept l)%nat.
Proof.
  induction l as [|s l IH]; intros m; cbn [fold_left].
  - unfold kept. cbn [filter List.length box_chain].
    rewrite app_nil_r. repeat split; lia.
  - unfold Basic.add_segment at 2 4 6. unfold kept. cbn [filter].
    destruct (Basic.skipped s); cbn [negb].
    + apply IH.
    + fold (kept l). cbn [List.length box_chain].
      destruct (IH {| vertices :=
                        vertices m
                        ++ Basic.box_vertices s layer_height extrusion_width;
                      faces := faces m ++ Basic.box_faces (vertex_count m);
                      vertex_count := vertex_count m + 8 |})
        as (F & C & V).
      cbn [faces vertex_count vertices] in F, C, V.
      rewrite F, C, V, length_app, <- app_assoc.
      change (List.length
                (Basic.box_vertices s layer_height extrusion_width))
        with 8%nat.
      unfold kept. repeat split; lia.
Qed.

Lemma basic_mesh_facts segs :
  let M := kept (Basic.sampled_segments segs) in
  let r := Basic.create_rectangular_extrusion_mesh segs layer_height
             extrusion_width in
  snd r = box_chain M 0 /\ List.length (fst r) = (8 * M)%nat.
Proof.
  unfold Basic.create_rectangular_extrusion_mesh. cbv zeta. cbn [fst snd].
  destruct (basic_build (Basic.sampled_segments segs)
              {| vertices := []; faces := []; vertex_count := 0 |})
    as (F & _ & V).
  cbv zeta in F, V. cbn [faces vertex_count vertices List.length app] in F, V.
  split; [exact F | exact V].
Qed.

End BasicMesh.

Lemma box_faces_ok base :
  Forall (face_ok (base + 8)) (Basic.box_faces base).
Proof.
  unfold Basic.box_faces.
  repeat apply Forall_cons; try apply Forall_nil; unfold face_ok; lia.
Qed.

Lemma box_faces_from base :
  Forall (face_from base) (Basic.box_faces base).
Proof.
  unfold Basic.box_faces.
  repeat apply Forall_cons; try apply Forall_nil; unfold face_from; lia.
Qed.

Lemma face_from_mono n m f : (m <= n)%nat -> face_from n f -> face_from m f.
Proof. destruct f as [[a b] c]. unfold face_from. lia. Qed.

Lemma box_chain_ok n : forall base,
  Forall (face_ok (base + 8 * n)) (box_chain n base).
Proof.
  induction n as [|n IH]; intros base; cbn [box_chain]; [constructor|].
  apply Forall_app. split.
  - eapply Forall_impl; [|apply box_faces_ok].
    intros f. apply face_ok_mono. lia.
  - replace (base + 8 * S n)%nat with (base + 8 + 8 * n)%nat by lia.
    apply IH.
Qed.

Lemma box_chain_from n : forall base,
  Forall (face_from base) (box_chain n base).
Proof.
  induction n as [|n IH]; intros base; cbn [box_chain]; [constructor|].
  apply Forall_app. split; [apply box_faces_from|].
  eapply Forall_impl; [|apply IH].
  intros f. apply face_from_mono. lia.
Qed.

Lemma box_chain_length n : forall base,
  List.length (box_chain n base) = (12 * n)%nat.
Proof.
  induction n as [|n IH]; intros base; cbn [box_chain]; [reflexivity|].
  rewrite length_app, IH. cbn [Basic.box_faces List.length]. lia.
Qed.

(** X19.  Size law of the rectangular mesh: with M the number of sampled
    segments the loop does not skip, the mesh has 8 M vertices and 12 M
    faces, and every face has three distinct indices below the vertex
    count. *)
Theorem rectangular_mesh_size_law segs layer_height extrusion_width :
  let M := kept (Basic.sampled_segments segs) in
  let r := Basic.create_rectangular_extrusion_mesh segs layer_height
             extrusion_width in
  List.length (fst r) = (8 * M)%nat /\
  List.length (snd r) = (12 * M)%nat /\
  Forall (face_ok (List.length (fst r))) (snd r).
Proof.
  cbv zeta.
  destruct (basic_mesh_facts layer_height extrusion_width segs) as [F V].
  cbv zeta in F, V. rewrite F, V, box_chain_length.
  repeat split. apply (box_chain_ok _ 0).
Qed.

(** ** Closed surfaces *)

Lemma forallb_ext_in {A} (f g : A -> bool) l :
  (forall x, In x l -> f x = g x) -> forallb f l = forallb g l.
Proof.
  induction l as [|a l IH]; intros H; cbn [forallb]; [reflexivity|].
  rewrite (H a (or_introl eq_refl)), IH; [reflexivity|].
  intros x I. apply H. right. exact I.
Qed.

Lemma edges_in_below n fs e :
  Forall (face_below n) fs -> In e (flat_map face_edges fs) ->
  (fst e < n /\ snd e < n)%nat.
Proof.
  intros F I. apply in_flat_map in I. destruct I as ([[a b] c] & I & E).
  rewrite Forall_forall in F. specialize (F _ I). cbn in F, E.
  destruct E as [<-|[<-|[<-|[]]]]; cbn [fst snd]; lia.
Qed.

Lemma edges_in_from n fs e :
  Forall (face_from n) fs -> In e (flat_map face_edges fs) ->
  (n <= fst e /\ n <= snd e)%nat.
Proof.
  intros F I. apply in_flat_map in I. destruct I as ([[a b] c] & I & E).
  rewrite Forall_forall in F. specialize (F _ I). cbn in F, E.
  destruct E as [<-|[<-|[<-|[]]]]; cbn [fst snd]; lia.
Qed.

(** Two sets of faces on separate index ranges form a closed surface
    exactly when each does. *)
Lemma closed_oriented_app n a b :
  Forall (face_below n) a -> Forall (face_from n) b ->
  closed_oriented (a ++ b) = closed_oriented a && closed_oriented b.
Proof.
  intros A B. unfold closed_oriented. cbv zeta.
  rewrite flat_map_app, forallb_app. f_equal; apply forallb_ext_in.
  - intros [x y] I. destruct (edges_in_below _ _ _ A I) as [X Y].
    cbn [fst snd] in *. rewrite !count_edge_app.
    rewrite (edges_from _ _ _ _ B X), (edges_from _ _ _ _ B Y), !Nat.add_0_r.
    reflexivity.
  - intros [x y] I. destruct (edges_in_from _ _ _ B I) as [X Y].
    cbn [fst snd] in *. rewrite !count_edge_app.
    rewrite (edges_below _ _ _ _ A X), (edges_below _ _ _ _ A Y).
    reflexivity.
Qed.

Lemma edges_shift k fs :
  flat_map face_edges (map (shift_face k) fs)
  = map (shift_edge k) (flat_map face_edges fs).
Proof.
  induction fs as [|[[a b] c] fs IH]; [reflexivity|].
  cbn [map flat_map]. rewrite IH, map_app. reflexivity.
Qed.

Lemma edge_eqb_shift k e1 e2 :
  edge_eqb (shift_edge k e1) (shift_edge k e2) = edge_eqb e1 e2.
Proof.
  unfold edge_eqb, shift_edge. cbn [fst snd].
  destruct (Nat.eqb_spec (fst e1) (fst e2)), (Nat.eqb_spec (snd e1) (snd e2));
    cbn [andb];
    repeat match goal with
           | |- context [(?a =? ?b)%nat] => destruct (Nat.eqb_spec a b)
           end; cbn [andb]; try reflexivity; lia.
Qed.

Lemma count_edge_shift k e es :
  count_edge (shift_edge k e) (map (shift_edge k) es) = count_edge e es.
Proof.
  unfold count_edge. induction es as [|e' es IH]; [reflexivity|].
  cbn [map filter]. rewrite edge_eqb_shift.
  destruct (edge_eqb e e'); cbn [List.length]; rewrite IH; reflexivity.
Qed.

Lemma forallb_shift k es l :
  forallb (fun e => ((count_edge e (map (shift_edge k) es) =? 1)
                     && (count_edge (snd e, fst e) (map (shift_edge k) es)
                         =? 1))%nat)
    (map (shift_edge k) l)
  = forallb (fun e => ((count_edge e es =? 1)
                       && (count_edge (snd e, fst e) es =? 1))%nat) l.
Proof.
  induction l as [|e l IH]; [reflexivity|].
  cbn [map forallb]. rewrite IH.
  change (snd (shift_edge k e), fst (shift_edge k e))
    with (shift_edge k (snd e, fst e)).
  rewrite !count_edge_shift. reflexivity.
Qed.

(** Renumbering the vertices by a shift keeps a surface closed. *)
Lemma closed_oriented_shift k fs :
  closed_oriented (map (shift_face k) fs) = closed_oriented fs.
Proof.
  unfold closed_oriented. cbv zeta. rewrite edges_shift.
  apply forallb_shift.
Qed.

Lemma box_faces_shift base :
  Basic.box_faces base = map (shift_face base) (Basic.box_faces 0).
Proof.
  unfold Basic.box_faces, shift_face. cbn [map Nat.add].
  rewrite Nat.add_0_r. reflexivity.
Qed.

Lemma box_chain_closed n : forall base,
  closed_oriented (box_chain n base) = true.
Proof.
  induction n as [|n IH]; intros base; cbn [box_chain]; [reflexivity|].
  rewrite (closed_oriented_app (base + 8)).
  - rewrite IH, box_faces_shift, closed_oriented_shift. vm_compute.
    reflexivity.
  - eapply Forall_impl; [|apply box_faces_ok].
    intros f. apply face_ok_below.
  - apply box_chain_from.
Qed.

(** X20.  The rectangular mesh is always a closed, consistently oriented
    surface: whatever the segments, every directed edge of a face occurs
    in exactly one face and its reverse in exactly one face (each tube is
    a box with both ends, on its own eight vertices). *)
Theorem rectangular_mesh_is_closed segs layer_height extrusion_width :
  closed_oriented
    (snd (Basic.create_rectangular_extrusion_mesh segs layer_height
            extrusion_width)) = true.
Proof.
  destruct (basic_mesh_facts layer_height extrusion_width segs) as [F _].
  cbv zeta in F. rewrite F. apply box_chain_closed.
Qed.

(** ** Sampling *)

Lemma slice_from_all l : Basic.slice_from 0 1 l = l.
Proof.
  induction l as [|s l IH]; cbn [Basic.slice_from Nat.sub]; [reflexivity|].
  rewrite IH. reflexivity.
Qed.

Lemma slice_from_length step l : (1 <= step)%nat -> forall k, (k < step)%nat ->
  (step * List.length (Basic.slice_from k step l) + k
   <= List.length l + step - 1)%nat.
Proof.
  intros S1. induction l as [|s l IH]; intros k K; cbn [Basic.slice_from].
  - cbn [List.length]. lia.
  - destruct k as [|k]; cbn [List.length].
    + specialize (IH (step - 1)%nat ltac:(lia)). lia.
    + specialize (IH k ltac:(lia)). lia.
Qed.

(** X21.  Below 20000 segments the rectangular builder samples nothing:
    the step of line 84 is 1 and every segment is used. *)
Theorem sampling_keeps_short_lists segs :
  (Z.of_nat (List.length segs) < 20000)%Z ->
  Basic.sampled_segments segs = segs.
Proof.
  intros L. unfold Basic.sampled_segments. cbv zeta.
  assert (Q : (Z.of_nat (List.length segs) / 10000 <= 1)%Z).
  { apply Z.lt_succ_r. apply Z.div_lt_upper_bound; lia. }
  replace (Z.to_nat (Z.max 1 (Z.of_nat (List.length segs) / 10000)))
    with 1%nat by lia.
  apply slice_from_all.
Qed.

Lemma sampling_keeps_short_lists_witness :
  Basic.sampled_segments
    [ {| Basic.start := (0, 0, 0); Basic.end_ := (1, 0, 0);
         Basic.width := 0.4; Basic.height := 0.2 |};
      {| Basic.start := (1, 0, 0); Basic.end_ := (1, 1, 0);
         Basic.width := 0.4; Basic.height := 0.2 |} ]
  = [ {| Basic.start := (0, 0, 0); Basic.end_ := (1, 0, 0);
         Basic.width := 0.4; Basic.height := 0.2 |};
      {| Basic.start := (1, 0, 0); Basic.end_ := (1, 1, 0);
         Basic.width := 0.4; Basic.height := 0.2 |} ].
Proof.
  apply sampling_keeps_short_lists. cbn [List.length]. lia.
Defined.

(** X22.  The sampling of lines 84-85 bounds the work: whatever the
    number of segments, fewer than 20000 are sampled, and so the
    rectangular mesh has fewer than 160000 vertices. *)
Theorem sampling_bounds_the_mesh segs layer_height extrusion_width :
  (Z.of_nat (List.length (Basic.sampled_segments segs)) < 20000)%Z /\
  (Z.of_nat
     (List.length
        (fst (Basic.create_rectangular_extrusion_mesh segs layer_height
                extrusion_width))) < 160000)%Z.
Proof.
  assert (B : (Z.of_nat (List.length (Basic.sampled_segments segs))
               < 20000)%Z).
  { unfold Basic.sampled_segments. cbv zeta.
    set (n := List.length segs).
    set (q := (Z.of_nat n / 10000)%Z).
    assert (Q0 : (0 <= q)%Z) by (apply Z.div_pos; lia).
    assert (Q1 : (Z.of_nat n < 10000 * (q + 1))%Z).
    { pose proof (Z.mod_pos_bound (Z.of_nat n) 10000 ltac:(lia)) as M.
      pose proof (Z.div_mod (Z.of_nat n) 10000 ltac:(lia)) as D.
      fold q in D. lia. }
    set (step := Z.to_nat (Z.max 1 q)).
    assert (S1 : (1 <= step)%nat) by (unfold step; lia).
    pose proof (slice_from_length step segs S1 0%nat ltac:(lia)) as H.
    fold n in H.
    set (L := List.length (Basic.slice_from 0 step segs)) in *.
    assert (E : Z.of_nat step = Z.max 1 q) by (unfold step; lia).
    assert (H' : (Z.of_nat step * Z.of_nat L <= Z.of_nat n + Z.of_nat step - 1)%Z)
      by lia.
    rewrite E in H'.
    destruct (Z.max_spec 1 q) as [[C M]|[C M]]; rewrite M in H'; nia. }
  split; [exact B|].
  destruct (basic_mesh_facts layer_height extrusion_width segs) as [_ V].
  cbv zeta in V. rewrite V.
  assert (K : (kept (Basic.sampled_segments segs)
               <= List.length (Basic.sampled_segments segs))%nat)
    by (unfold kept; apply filter_length_le).
  lia.
Qed.

(** ** The text writer and the whole conversion *)

Section BasicPipeline.

Variable format_6f : float -> string.

Lemma write_facet_ok vs f :
  face_below (List.length vs) f ->
  exists r, Basic.write_facet format_6f vs f = inr r.
Proof.
  destruct f as [[i0 i1] i2]. intros (L0 & L1 & L2).
  destruct (index_in_range vs i0 L0) as [p0 E0].
  destruct (index_in_range vs i1 L1) as [p1 E1].
  destruct (index_in_range vs i2 L2) as [p2 E2].
  unfold Basic.write_facet. rewrite E0, E1, E2. cbn [bind].
  eexists. reflexivity.
Qed.

Lemma write_facets_ok vs fs :
  Forall (face_below (List.length vs)) fs ->
  exists r, Basic.write_facets format_6f vs fs = inr r.
Proof.
  induction 1 as [|f fs F _ [rs IH]]; cbn [Basic.write_facets].
  - eexists. reflexivity.
  - destruct (write_facet_ok vs f F) as [r E]. rewrite E, IH. cbn [bind].
    eexists. reflexivity.
Qed.

(** X23.  The text conversion never raises, whatever the file and the
    number format: it returns False and writes nothing when no sampled
    segment is kept, and otherwise returns True with a text that opens
    with the solid line, closes with the endsolid line and holds the
    facets of the mesh in between. *)
Theorem text_conversion_outcome lines :
  exists segs h w,
    Basic.parse_gcode_to_segments lines 0.2 0.4 = inr (segs, h, w) /\
    if (kept (Basic.sampled_segments segs) =? 0)%nat
    then Basic.gcode_to_stl format_6f lines = inr (false, None)
    else
      exists body,
        Basic.write_facets format_6f
          (fst (Basic.create_rectangular_extrusion_mesh segs h w))
          (snd (Basic.create_rectangular_extrusion_mesh segs h w))
        = inr body /\
        Basic.gcode_to_stl format_6f lines
        = inr (true,
               Some (ln "solid gcode_converted" ++ body
                     ++ ln "endsolid gcode_converted")%string).
Proof.
  destruct (basic_scan_lines_total lines 0 (Basic.initial_state 0.2 0.4))
    as [st E].
  assert (P : Basic.parse_gcode_to_segments lines 0.2 0.4
              = inr (Basic.segments st, Basic.detected_layer_height st,
                     Basic.detected_extrusion_width st)).
  { unfold Basic.parse_gcode_to_segments. rewrite E. reflexivity. }
  exists (Basic.segments st), (Basic.detected_layer_height st),
    (Basic.detected_extrusion_width st).
  split; [exact P|].
  unfold Basic.gcode_to_stl. rewrite P. cbn [bind].
  set (h := Basic.detected_layer_height st).
  set (w := Basic.detected_extrusion_width st).
  destruct (Basic.segments st) as [|s segs]; [reflexivity|].
  destruct (basic_mesh_facts h w (s :: segs)) as [F V]. cbv zeta in F, V.
  pose proof (box_chain_ok (kept (Basic.sampled_segments (s :: segs))) 0)
    as O. cbn [Nat.add] in O. rewrite <- F, <- V in O.
  destruct (Basic.create_rectangular_extrusion_mesh (s :: segs) h w)
    as [vs fs].
  cbn [fst snd] in *. rewrite V.
  destruct (kept (Basic.sampled_segments (s :: segs))) as [|M] eqn:K.
  - reflexivity.
  - replace ((8 * S M =? 0)%nat) with false
      by (symmetry; apply Nat.eqb_neq; lia).
    cbn [Nat.eqb].
    destruct (write_facets_ok vs fs) as [body B].
    { eapply Forall_impl; [|exact O]. intros f. apply face_ok_below. }
    exists body. split; [exact B|].
    unfold Basic.write_stl. rewrite B. reflexivity.
Qed.

End BasicPipeline.
